(** * AquaGuard telemetry gateway: the ingestion core of [src/index.js]

    A shallow embedding of the Express handlers of the gateway
    ([POST /auth/token], the [authenticateToken] middleware, [POST /ingest]
    and [POST /ingest/bulk]) together with the pieces of the JavaScript
    runtime and of the [joi] and [jsonwebtoken] packages the handlers rely on,
    followed by the properties of the ingestion pipeline.

    Not modelled: the two [express-rate-limit] limiters in front of the routes
    (a handler is described for a request the limiters let through), logging,
    CORS and the HTTP framing. A string is the sequence of the bytes of its
    UTF-8 encoding; [utf16_length] is JavaScript's [length] of it. *)

From Stdlib Require Import ZArith QArith Qround Qabs String Ascii List Bool Lia.
From Stdlib Require Import DecimalString.
From stdpp Require Import base option list strings.
Import ListNotations.

Local Open Scope string_scope.
Set Warnings "-register-all".

(** ** JavaScript values

    Request bodies are what [express.json] hands to the handlers: JSON values.
    A number is kept as a rational and stands for the double nearest to it
    ([to_double], the rounding of [JSON.parse]), which is the rational itself
    when it is a double; the handlers and joi look at a number through
    [to_double], and arithmetic rounds its result. An object is the list of
    its own enumerable properties, an absent property reads as [JUndefined]. *)

Inductive jsval : Type :=
| JUndefined
| JNull
| JBool (b : bool)
| JNum (q : Q)
| JStr (s : string)
| JArr (items : list jsval)
| JObj (fields : list (string * jsval)).

(** What the handlers need from the runtime and from joi's string rules and
    cannot be read off [src/index.js]: joi's [isoDate] rule (the validated
    value it hands back for a string in ISO 8601 format, [None] for any other
    string), joi's coercion of a string to a number, and the rendering of a
    number by [ToString]. *)
Class Runtime : Type := {
  isoDate : string -> option string;
  toNumber : string -> option Q;
  numberToString : Q -> string
}.

(** ** Numbers

    IEEE 754 binary64 with the default rounding, on rationals. *)

(** [2 ^ e] for any integer [e]. *)
Definition Qpow2 (e : Z) : Q :=
  if (0 <=? e)%Z then inject_Z (2 ^ e) else 1 # Z.to_pos (2 ^ (- e)).

(** [floor (log2 (a / b))] for positive [a] and [b]. *)
Definition binade (a b : Z) : Z :=
  let e := (Z.log2 a - Z.log2 b)%Z in
  if (if (0 <=? e)%Z then (a <? b * 2 ^ e)%Z else (a * 2 ^ (- e) <? b)%Z)
  then (e - 1)%Z else e.

(** [n / d] rounded to the nearest integer, a tie to the even one. *)
Definition div_half_even (n d : Z) : Z :=
  let m := (n / d)%Z in
  match (2 * (n mod d) ?= d)%Z with
  | Lt => m
  | Gt => (m + 1)%Z
  | Eq => if Z.even m then m else (m + 1)%Z
  end.

(** The double nearest to [x], a tie to the one with an even significand: 53
    bits of significand, fewer below [2 ^ -1022]. A result of [2 ^ 1024] or
    more stands for an infinity. *)
Definition to_double (x : Q) : Q :=
  let a := Z.abs (Qnum x) in
  let b := Z.pos (Qden x) in
  if (a =? 0)%Z then 0%Q
  else
    let u := Z.max (binade a b - 52) (-1074) in
    let m := if (0 <=? u)%Z then div_half_even a (b * 2 ^ u)
             else div_half_even (a * 2 ^ (- u)) b in
    Qred (inject_Z (Z.sgn (Qnum x) * m) * Qpow2 u).

Definition infinite (d : Q) : bool := Qle_bool (Qpow2 1024) (Qabs d).

(** [x * y] on doubles. *)
Definition mul_double (x y : Q) : Q := to_double (to_double x * to_double y).

(** ** Strings *)

(** The [length] of a string, counted in UTF-16 code units as JavaScript
    does: one for a character of up to three bytes, two for one of four. *)
Fixpoint utf16_length (s : string) : nat :=
  match s with
  | EmptyString => 0
  | String c rest =>
      let b := nat_of_ascii c in
      ((if (b <? 128)%nat then 1
        else if (b <? 192)%nat then 0
        else if (b <? 240)%nat then 1
        else 2) + utf16_length rest)%nat
  end.

(** [!v] is [negb (truthy v)]. *)
Definition truthy (v : jsval) : bool :=
  match v with
  | JUndefined | JNull => false
  | JBool b => b
  | JNum q => negb (Qeq_bool (to_double q) 0)
  | JStr s => negb (String.eqb s EmptyString)
  | JArr _ | JObj _ => true
  end.

(** The text [ToString] gives for a value when the conversion goes through
    (see [convertible]). *)
Fixpoint ToString `{RT : Runtime} (v : jsval) : string :=
  match v with
  | JUndefined => "undefined"
  | JNull => "null"
  | JBool true => "true"
  | JBool false => "false"
  | JNum q => numberToString q
  | JStr s => s
  | JArr items =>
      String.concat ","
        (List.map (fun x => match x with
                            | JUndefined | JNull => EmptyString
                            | _ => ToString x
                            end) items)
  | JObj _ => "[object Object]"
  end.

(** Whether a parsed JSON value can be converted to a string at all. An
    object is converted by the [toString] it has; one that has an own
    [toString] property hides [Object.prototype.toString] behind a value that
    is not a function, and the conversion throws a [TypeError]. An array is
    converted by joining the conversions of its elements. *)
Fixpoint convertible (v : jsval) : bool :=
  match v with
  | JObj fields => negb (bool_decide ("toString" ∈ fields.*1))
  | JArr items =>
      forallb (fun x => match x with
                        | JUndefined | JNull => true
                        | _ => convertible x
                        end) items
  | _ => true
  end.

Fixpoint assoc (k : string) (fields : list (string * jsval)) : jsval :=
  match fields with
  | [] => JUndefined
  | (k', v) :: rest => if String.eqb k k' then v else assoc k rest
  end.

(** Property read [v.k] on a body; a primitive or an array has none of the
    properties the handlers ask for. *)
Definition prop (k : string) (v : jsval) : jsval :=
  match v with
  | JObj fields => assoc k fields
  | _ => JUndefined
  end.

(** [o || d] on an optional string. *)
Definition or_default (o : option string) (d : string) : string :=
  match o with
  | Some s => if String.eqb s EmptyString then d else s
  | None => d
  end.

(** ** Dates *)

Definition digit (n : Z) : ascii :=
  ascii_of_nat (48 + Z.to_nat (n mod 10)).

(** [n] written with exactly [w] decimal digits ([padStart] with zeroes). *)
Fixpoint pad (w : nat) (n : Z) : string :=
  match w with
  | O => EmptyString
  | S w' => pad w' (n / 10) ++ String (digit n) EmptyString
  end.

(** Gregorian date of a day number counted from 1970-01-01. *)
Definition civil (days : Z) : Z * Z * Z :=
  let z := (days + 719468)%Z in
  let era := (z / 146097)%Z in
  let doe := (z - era * 146097)%Z in
  let yoe := ((doe - doe / 1460 + doe / 36524 - doe / 146096) / 365)%Z in
  let doy := (doe - (365 * yoe + yoe / 4 - yoe / 100))%Z in
  let mp := ((5 * doy + 2) / 153)%Z in
  let d := (doy - (153 * mp + 2) / 5 + 1)%Z in
  let m := (if (mp <? 10)%Z then mp + 3 else mp - 9)%Z in
  let y := (yoe + era * 400 + (if (m <=? 2)%Z then 1 else 0))%Z in
  (y, m, d).

(** The text [Date.prototype.toISOString] produces for a time value. *)
Definition iso_format (ms : Z) : string :=
  let days := (ms / 86400000)%Z in
  let r := (ms mod 86400000)%Z in
  let '(y, m, d) := civil days in
  let year :=
    if ((0 <=? y) && (y <=? 9999))%Z then pad 4 y
    else (if (y <? 0)%Z then "-" else "+") ++ pad 6 (Z.abs y) in
  year ++ "-" ++ pad 2 m ++ "-" ++ pad 2 d ++ "T" ++
  pad 2 (r / 3600000) ++ ":" ++ pad 2 (r / 60000 mod 60) ++ ":" ++
  pad 2 (r / 1000 mod 60) ++ "." ++ pad 3 (r mod 1000) ++ "Z".

Definition Qtrunc (q : Q) : Z :=
  if Qle_bool 0 q then Qfloor q else Qceiling q.

(** [new Date(x)] for a number [x]: [TimeClip] gives the invalid date ([None])
    beyond 8.64e15 ms and drops the fraction otherwise. *)
Definition new_Date (x : Q) : option Z :=
  if Qle_bool (Qabs x) (inject_Z 8640000000000000) then Some (Qtrunc x) else None.

(** Exceptions, with the [code] and [message] the handlers look at. *)
Record exn : Type := Exn { exn_code : option Z; exn_message : string }.

Definition RangeError : exn := Exn None "Invalid time value".

(** The [TypeError] of a conversion that cannot be made. *)
Definition ConversionError : exn :=
  Exn None "Cannot convert object to primitive value".

(** [prefix + v] for a string [prefix], and a template literal that ends in
    [v]: the conversion of [v] may throw. *)
Definition plus `{RT : Runtime} (prefix : string) (v : jsval) : exn + string :=
  if convertible v then inr (prefix ++ ToString v) else inl ConversionError.

(** [d.toISOString()], which throws on the invalid date. *)
Definition toISOString (d : option Z) : exn + string :=
  match d with
  | Some ms => inr (iso_format ms)
  | None => inl RangeError
  end.

(** ** jsonwebtoken

    Tokens are symbolic: a compact JWS is the pair of the claims it carries
    and the key it was signed with, and any other text is [Text]. A signature
    verifies against a key exactly when the token was signed with that key. *)

Record claims : Type := Claims {
  tok_deviceId : jsval;
  tok_type : string;
  tok_iat : Z;
  tok_exp : option Z
}.

Inductive wire : Type :=
| Text (s : string)
| Jws (c : claims) (key : string).

(** A time span as the [ms] package reads it off a string such as ['15m'];
    [BadSpan] is a string [ms] cannot read. *)
Inductive span_unit : Type := Millis | Secs | Mins | Hours | Days.

Inductive span : Type :=
| Span (n : Z) (u : span_unit)
| BadSpan.

Definition unit_ms (u : span_unit) : Z :=
  match u with
  | Millis => 1
  | Secs => 1000
  | Mins => 60000
  | Hours => 3600000
  | Days => 86400000
  end.

Definition span_ms (s : span) : option Z :=
  match s with
  | Span n u => Some (n * unit_ms u)%Z
  | BadSpan => None
  end.

(** [jwt.sign({deviceId, type, iat}, secret, {expiresIn})]: the expiry is
    [Math.floor(iat + ms / 1000)]; throws ([inl]) without a key or with an
    unreadable span. *)
Definition jwt_sign (deviceId : jsval) (type : string) (iat : Z)
    (secret : option string) (expiresIn : span) : exn + wire :=
  match secret with
  | None => inl (Exn None "secretOrPrivateKey must have a value")
  | Some key =>
      if String.eqb key EmptyString then inl (Exn None "secretOrPrivateKey must have a value")
      else match span_ms expiresIn with
           | None => inl (Exn None "invalid expiresIn option")
           | Some ms =>
               inr (Jws (Claims deviceId type iat (Some (iat + ms / 1000)%Z)) key)
           end
  end.

Inductive jwt_error : Type :=
| JsonWebTokenError (message : string)
| TokenExpiredError.

(** [jwt.verify(token, secret, callback)] at clock [now] (seconds); the result
    is what the callback receives, [inl] for [err] and [inr] for [decoded]. *)
Definition jwt_verify (token : wire) (secret : option string) (now : Z)
    : jwt_error + claims :=
  match token with
  | Text _ => inl (JsonWebTokenError "jwt malformed")
  | Jws c key =>
      match secret with
      | None => inl (JsonWebTokenError "secret or public key must be provided")
      | Some k =>
          if String.eqb k EmptyString then
            inl (JsonWebTokenError "secret or public key must be provided")
          else if negb (String.eqb k key) then
            inl (JsonWebTokenError "invalid signature")
          else match tok_exp c with
               | Some e => if (e <=? now)%Z then inl TokenExpiredError else inr c
               | None => inr c
               end
      end
  end.

(** ** Configuration ([process.env]); an unset and an empty variable read the
    same through [||]. *)
Record config : Type := Config {
  JWT_SECRET : option string;
  JWT_EXPIRES_IN : option span;
  DEVICE_SECRET_PREFIX : option string
}.

(** ** Requests and responses *)

(** The [authorization] header is kept as the pieces [split(' ')] cuts it
    into; [None] is a request without the header. *)
Record request : Type := Request {
  authorization : option (list wire);
  body : jsval
}.

(** One entry of joi's [error.details]: the path of the offending value and
    the rule it broke (the message text is a function of the two). *)
Inductive seg : Type := Key (k : string) | Index (i : nat).

Record detail : Type := Detail { d_path : list seg; d_rule : string }.

Inductive timestamp_value : Type :=
| TsString (s : string)
| TsNumber (q : Q).

(** A reading as [telemetrySchema.validate] returns it. *)
Record reading : Type := Reading {
  rd_deviceId : string;
  rd_sensorType : string;
  rd_value : Q;
  rd_unit : option string;
  rd_timestamp : option timestamp_value;
  rd_location : option string;
  rd_metadata : option (list (string * jsval))
}.

(** The document handed to [databases.createDocument]. *)
Record document : Type := Document {
  doc_deviceId : string;
  doc_sensorType : string;
  doc_value : Q;
  doc_unit : string;
  doc_timestamp : string;
  doc_location : string;
  doc_isAnomalous : bool;
  doc_ingestedAt : string;
  doc_metadata : list (string * jsval)
}.

Record bulk_result : Type := BulkResult {
  br_documentId : string;
  br_timestamp : string;
  br_sensorType : string
}.

Record bulk_error : Type := BulkError {
  be_reading : reading;
  be_error : string
}.

Inductive json : Type :=
| ErrorBody (error code : string)
| ValidationBody (error : string) (details : list detail) (code : string)
| TokenBody (token : wire) (expiresIn : Z) (tokenType : string)
| IngestBody (success : bool) (documentId timestamp : string)
| BulkBody (success : bool) (processed failed : nat)
    (results : list bulk_result) (errors : option (list bulk_error)).

Record response : Type := Response { status : nat; payload : json }.

Definition reply (s : nat) (b : json) : response := Response s b.

(** ** Utilities of [src/index.js] *)

Definition allowedSensorTypes : list string :=
  [ "flow"; "pressure"; "temperature"; "humidity"; "ph"; "turbidity";
    "dissolvedOxygen"; "conductivity" ].

(** [units[type] || 'unit'] over the own keys of [units]. *)
Definition getUnit (type : string) : string :=
  if String.eqb type "flow" then "L/min"
  else if String.eqb type "pressure" then "bar"
  else if String.eqb type "temperature" then "°C"
  else if String.eqb type "humidity" then "%"
  else if String.eqb type "ph" then "pH"
  else if String.eqb type "turbidity" then "NTU"
  else if String.eqb type "dissolvedOxygen" then "mg/L"
  else if String.eqb type "conductivity" then "μS/cm"
  else "unit".

(** ** joi

    Validation stops at the first broken rule ([abortEarly]), keys are visited
    in the order the schema lists them, and a key the schema does not list is
    refused. *)

Definition sum_bind {E A B : Type} (m : E + A) (k : A -> E + B) : E + B :=
  match m with
  | inl e => inl e
  | inr a => k a
  end.

Notation "'check' x ':=' m 'in' k" := (sum_bind m (fun x => k))
  (at level 10, x name, m at level 100, k at level 200).

Section Gateway.

Context `{RT : Runtime}.

Definition broke {A : Type} (path : list seg) (rule : string) : detail + A :=
  inl (Detail path rule).

(** The number joi reads off a value: the value itself, or the number a
    string converts to; either way a double. *)
Definition number_of (v : jsval) : option Q :=
  match v with
  | JNum q => Some (to_double q)
  | JStr s => to_double <$> toNumber s
  | _ => None
  end.

(** [Joi.number()]: such a number, finite and inside the safe-integer
    range. *)
Definition joi_number (path : list seg) (v : jsval) : detail + Q :=
  match number_of v with
  | Some q =>
      if infinite q then broke path "number.infinity"
      else if Qle_bool (Qabs q) (inject_Z 9007199254740991) then inr q
      else broke path "number.unsafe"
  | None => broke path "number.base"
  end.

(** What [Joi.string().isoDate()] makes of a value: the validated string, for
    a non-empty string in ISO 8601 format. *)
Definition iso_of (v : jsval) : option string :=
  match v with
  | JStr s => if String.eqb s EmptyString then None else isoDate s
  | _ => None
  end.

(** [Joi.string()]: a string, and not the empty one. *)
Definition joi_string (path : list seg) (v : jsval) : detail + string :=
  match v with
  | JStr s => if String.eqb s EmptyString then broke path "string.empty" else inr s
  | _ => broke path "string.base"
  end.

Definition optional {A : Type} (rule : list seg -> jsval -> detail + A)
    (path : list seg) (v : jsval) : detail + option A :=
  match v with
  | JUndefined => inr None
  | _ => check a := rule path v in inr (Some a)
  end.

Definition required {A : Type} (rule : list seg -> jsval -> detail + A)
    (path : list seg) (v : jsval) : detail + A :=
  match v with
  | JUndefined => broke path "any.required"
  | _ => rule path v
  end.

(** [deviceId: Joi.string().required().min(1).max(100)] *)
Definition joi_deviceId : list seg -> jsval -> detail + string :=
  required (fun path v =>
    check s := joi_string path v in
    if (utf16_length s <? 1)%nat then broke path "string.min"
    else if (100 <? utf16_length s)%nat then broke path "string.max"
    else inr s).

(** [sensorType: Joi.string().valid(...allowedSensorTypes).required()] *)
Definition joi_sensorType : list seg -> jsval -> detail + string :=
  required (fun path v =>
    match v with
    | JStr s => if bool_decide (s ∈ allowedSensorTypes) then inr s
                else broke path "any.only"
    | _ => broke path "any.only"
    end).

(** [value: Joi.number().required().min(-1000).max(10000)] *)
Definition joi_value : list seg -> jsval -> detail + Q :=
  required (fun path v =>
    check q := joi_number path v in
    if negb (Qle_bool (inject_Z (-1000)) q) then broke path "number.min"
    else if negb (Qle_bool q (inject_Z 10000)) then broke path "number.max"
    else inr q).

(** [Joi.string().isoDate()] *)
Definition joi_isoDate (path : list seg) (v : jsval) : detail + string :=
  match v with
  | JStr s => if String.eqb s EmptyString then broke path "string.empty"
              else match isoDate s with
                   | Some iso => inr iso
                   | None => broke path "string.isoDate"
                   end
  | _ => broke path "string.base"
  end.

(** [Joi.number().positive()] *)
Definition joi_positive (path : list seg) (v : jsval) : detail + Q :=
  check q := joi_number path v in
  if negb (Qle_bool q 0) then inr q else broke path "number.positive".

(** What [Joi.alternatives()] reports when both of its two schemas refuse a
    value. A refusal for the mere type of the value ([string.base],
    [number.base]) does not count: when both are of that kind the report is
    [alternatives.types], when one is, the report is the other refusal itself,
    and only when neither is it is [alternatives.match]. *)
Definition base_refusal (d : detail) : bool :=
  bool_decide (d_rule d ∈ ["string.base"; "number.base"]).

Definition no_alternative (path : list seg) (first second : detail) : detail :=
  match base_refusal first, base_refusal second with
  | true, true => Detail path "alternatives.types"
  | true, false => second
  | false, true => first
  | false, false => Detail path "alternatives.match"
  end.

(** [timestamp: Joi.alternatives().try(Joi.string().isoDate(),
    Joi.number().positive()).optional()] *)
Definition timestamp_alternatives (path : list seg) (v : jsval)
    : detail + timestamp_value :=
  match joi_isoDate path v with
  | inr iso => inr (TsString iso)
  | inl first =>
      match joi_positive path v with
      | inr q => inr (TsNumber q)
      | inl second => inl (no_alternative path first second)
      end
  end.

Definition joi_timestamp : list seg -> jsval -> detail + option timestamp_value :=
  optional timestamp_alternatives.

(** [metadata: Joi.object().optional()] *)
Definition joi_metadata : list seg -> jsval -> detail + option (list (string * jsval)) :=
  optional (fun path v =>
    match v with
    | JObj fields => inr fields
    | _ => broke path "object.base"
    end).

Definition telemetryKeys : list string :=
  [ "deviceId"; "sensorType"; "value"; "unit"; "timestamp"; "location"; "metadata" ].

(** The first key of an object that the schema does not list. *)
Definition unknown_key (known : list string) (fields : list (string * jsval))
    : option string :=
  head (filter (fun k => k ∉ known) (fields.*1)).

Definition no_unknown (known : list string) (path : list seg)
    (fields : list (string * jsval)) : detail + unit :=
  match unknown_key known fields with
  | Some k => broke (path ++ [Key k])%list "object.unknown"
  | None => inr tt
  end.

(** The keys of [telemetrySchema] on an object found at [path]. *)
Definition telemetry_object (path : list seg) (fields : list (string * jsval))
    : detail + reading :=
  let at_key k := ((path ++ [Key k])%list, assoc k fields) in
  check deviceId := uncurry joi_deviceId (at_key "deviceId") in
  check sensorType := uncurry joi_sensorType (at_key "sensorType") in
  check value := uncurry joi_value (at_key "value") in
  check unit := uncurry (optional joi_string) (at_key "unit") in
  check timestamp := uncurry joi_timestamp (at_key "timestamp") in
  check location := uncurry (optional joi_string) (at_key "location") in
  check metadata := uncurry joi_metadata (at_key "metadata") in
  check _ := no_unknown telemetryKeys path fields in
  inr (Reading deviceId sensorType value unit timestamp location metadata).

(** [schema.validate(v)] of an object schema that is not itself required:
    [undefined] passes and comes back as [undefined] ([None]). *)
Definition joi_object {A : Type} (keys : list seg -> list (string * jsval) -> detail + A)
    (path : list seg) (v : jsval) : detail + option A :=
  match v with
  | JUndefined => inr None
  | JObj fields => check a := keys path fields in inr (Some a)
  | _ => broke path "object.base"
  end.

Definition telemetrySchema (v : jsval) : detail + option reading :=
  joi_object telemetry_object [] v.

(** [Joi.array().items(telemetrySchema)] from index [i] on. *)
Fixpoint joi_items (path : list seg) (i : nat) (items : list jsval)
    : detail + list reading :=
  match items with
  | [] => inr []
  | v :: rest =>
      check r := match v with
                 | JUndefined => broke (path ++ [Index i])%list "array.sparse"
                 | JObj fields => telemetry_object (path ++ [Index i])%list fields
                 | _ => broke (path ++ [Index i])%list "object.base"
                 end in
      check rs := joi_items path (S i) rest in
      inr (r :: rs)
  end.

(** [readings: Joi.array().items(telemetrySchema).min(1).max(100).required()] *)
Definition joi_readings : list seg -> jsval -> detail + list reading :=
  required (fun path v =>
    match v with
    | JArr items =>
        check rs := joi_items path 0 items in
        if (length rs <? 1)%nat then broke path "array.min"
        else if (100 <? length rs)%nat then broke path "array.max"
        else inr rs
    | _ => broke path "array.base"
    end).

Definition bulkTelemetrySchema (v : jsval) : detail + option (list reading) :=
  joi_object (fun path fields =>
    check readings := joi_readings (path ++ [Key "readings"])%list (assoc "readings" fields) in
    check _ := no_unknown ["readings"] path fields in
    inr readings) [] v.

End Gateway.

(** ** The store

    [databases.createDocument] is an external service: what it answers to a
    call, and how long the call takes, is given by [backend], which sees the
    whole history. The gateway's state is the wall clock (milliseconds) and
    the log of the calls made to the store. *)

Record answer : Type := Answer {
  elapsed : N;
  outcome : exn + string     (* a rejection, or the [$id] of the new document *)
}.

Record store_call : Type := StoreCall { sent : document; answered : answer }.

Record world : Type := World { clock : Z; store_log : list store_call }.

Definition backend_t : Type := world -> document -> answer.

Definition createDocument (backend : backend_t) (w : world) (doc : document)
    : world * (exn + string) :=
  let a := backend w doc in
  (World (clock w + Z.of_N (elapsed a)) (store_log w ++ [StoreCall doc a]), outcome a).

(** ** Handlers *)

(** [a !== b] for a string [a] and any value [b]. *)
Definition strict_neq (a : string) (b : jsval) : bool :=
  match b with
  | JStr s => negb (String.eqb a s)
  | _ => true
  end.

Definition TypeError : exn :=
  Exn None "Cannot read properties of undefined".

(** The text of [(process.env.DEVICE_SECRET_PREFIX || '') + deviceId] when
    [deviceId] converts. *)
Definition expectedSecret `{RT : Runtime} (env : config) (deviceId : jsval) : string :=
  or_default (DEVICE_SECRET_PREFIX env) EmptyString ++ ToString deviceId.

Definition missing_credentials : response :=
  reply 400 (ErrorBody "Device ID and secret are required" "MISSING_CREDENTIALS").

Definition invalid_credentials : response :=
  reply 401 (ErrorBody "Invalid device credentials" "INVALID_CREDENTIALS").

Definition missing_token : response :=
  reply 401 (ErrorBody "Access token required" "MISSING_TOKEN").

Definition invalid_token : response :=
  reply 403 (ErrorBody "Invalid or expired token" "INVALID_TOKEN").

(** The answer of the [catch] of [POST /auth/token]. *)
Definition token_generation_error : response :=
  reply 500 (ErrorBody "Internal server error" "TOKEN_GENERATION_ERROR").

(** [authHeader && authHeader.split(' ')[1]] *)
Definition presented (req : request) : option wire :=
  match authorization req with
  | Some pieces => pieces !! 1%nat
  | None => None
  end.

Section Handlers.

Context `{RT : Runtime}.
Variable env : config.
Variable backend : backend_t.

(** [authenticateToken]: either it answers the request itself, or it calls
    [next()] with [req.deviceId] and [req.tokenExp] set. *)
Definition authenticateToken (w : world) (req : request)
    : response + (jsval * option Z) :=
  match presented req with
  | None | Some (Text EmptyString) =>
      inl missing_token
  | Some t =>
      match jwt_verify t (JWT_SECRET env) (clock w / 1000) with
      | inl err => inl invalid_token
      | inr decoded => inr (tok_deviceId decoded, tok_exp decoded)
      end
  end.

(** The [try] block of [POST /auth/token]: the answer it sends, or the
    exception it throws. *)
Definition issue_token (w : world) (req : request) : exn + response :=
  let b := if truthy (body req) then body req else JObj [] in
  let deviceId := prop "deviceId" b in
  let deviceSecret := prop "deviceSecret" b in
  if negb (truthy deviceId) || negb (truthy deviceSecret) then
    inr missing_credentials
  else
    check expected := plus (or_default (DEVICE_SECRET_PREFIX env) EmptyString) deviceId in
    if strict_neq expected deviceSecret then
      inr invalid_credentials
    else
      check token := jwt_sign deviceId "device" (clock w / 1000) (JWT_SECRET env)
                       (default (Span 15 Mins) (JWT_EXPIRES_IN env)) in
      inr (reply 200 (TokenBody token (60 * 15) "Bearer")).

(** [POST /auth/token] *)
Definition post_auth_token (w : world) (req : request) : response :=
  match issue_token w req with
  | inr answer => answer
  | inl error => token_generation_error
  end.

(** The block both ingestion handlers run on a validated reading: the
    timestamp, the unit and the location, then the document. The second
    component is the [timestamp] the handlers echo. *)
Definition build_document (now : Z) (r : reading) : exn + (document * string) :=
  check timestamp :=
    match rd_timestamp r with
    | Some (TsNumber q) => toISOString (new_Date (mul_double q (inject_Z 1000)))
    | Some (TsString s) =>
        if String.eqb s EmptyString then inr (iso_format now) else inr s
    | None => inr (iso_format now)
    end in
  let unit := or_default (rd_unit r) (getUnit (rd_sensorType r)) in
  let location := or_default (rd_location r) "unknown" in
  inr (Document (rd_deviceId r) (rd_sensorType r) (rd_value r) unit timestamp
         location false (iso_format now) (default [] (rd_metadata r)),
       timestamp).

(** The [catch] of [POST /ingest]. *)
Definition ingest_catch (error : exn) : response :=
  match exn_code error with
  | Some 401%Z => reply 500 (ErrorBody "Database authentication failed" "DB_AUTH_ERROR")
  | Some 404%Z => reply 500 (ErrorBody "Database or collection not found" "DB_NOT_FOUND")
  | _ => reply 500 (ErrorBody "Internal server error" "INGESTION_ERROR")
  end.

(** The handler of [POST /ingest], run once [authenticateToken] has set
    [req.deviceId]. *)
Definition ingest (deviceId : jsval) (w : world) (b : jsval) : world * response :=
  match telemetrySchema b with
  | inl d =>
      (w, reply 400 (ValidationBody "Invalid telemetry data" [d] "VALIDATION_ERROR"))
  | inr None => (w, ingest_catch TypeError)
  | inr (Some value) =>
      if strict_neq (rd_deviceId value) deviceId then
        (w, reply 403 (ErrorBody "Device ID mismatch" "DEVICE_ID_MISMATCH"))
      else
        match build_document (clock w) value with
        | inl error => (w, ingest_catch error)
        | inr (doc, timestamp) =>
            match createDocument backend w doc with
            | (w', inr id) => (w', reply 201 (IngestBody true id timestamp))
            | (w', inl error) => (w', ingest_catch error)
            end
        end
  end.

(** [POST /ingest] behind its middleware. *)
Definition post_ingest (w : world) (req : request) : world * response :=
  match authenticateToken w req with
  | inl r => (w, r)
  | inr (deviceId, _) => ingest deviceId w (body req)
  end.

(** One turn of the loop of [POST /ingest/bulk]: [inr] is the entry pushed on
    [results], [inl] the one pushed on [errors]. *)
Definition bulk_item (deviceId : jsval) (w : world) (r : reading)
    : world * (bulk_error + bulk_result) :=
  if strict_neq (rd_deviceId r) deviceId then
    (w, inl (BulkError r "Device ID mismatch"))
  else
    match build_document (clock w) r with
    | inl err => (w, inl (BulkError r (exn_message err)))
    | inr (doc, timestamp) =>
        match createDocument backend w doc with
        | (w', inr id) => (w', inr (BulkResult id timestamp (rd_sensorType r)))
        | (w', inl err) => (w', inl (BulkError r (exn_message err)))
        end
    end.

Fixpoint bulk_loop (deviceId : jsval) (readings : list reading) (w : world)
    (results : list bulk_result) (errors : list bulk_error)
    : world * list bulk_result * list bulk_error :=
  match readings with
  | [] => (w, results, errors)
  | r :: rest =>
      match bulk_item deviceId w r with
      | (w', inr ok) => bulk_loop deviceId rest w' (results ++ [ok]) errors
      | (w', inl ko) => bulk_loop deviceId rest w' results (errors ++ [ko])
      end
  end.

(** The handler of [POST /ingest/bulk], run once [authenticateToken] has set
    [req.deviceId]. *)
Definition ingest_bulk (deviceId : jsval) (w : world) (b : jsval) : world * response :=
  match bulkTelemetrySchema b with
  | inl d =>
      (w, reply 400 (ValidationBody "Invalid bulk telemetry data" [d] "VALIDATION_ERROR"))
  | inr None =>
      (w, reply 500 (ErrorBody "Internal server error" "BULK_INGESTION_ERROR"))
  | inr (Some readings) =>
      let '(w', results, errors) := bulk_loop deviceId readings w [] [] in
      (w', reply 201 (BulkBody true (length results) (length errors) results
                        (if (0 <? length errors)%nat then Some errors else None)))
  end.

(** [POST /ingest/bulk] behind its middleware. *)
Definition post_ingest_bulk (w : world) (req : request) : world * response :=
  match authenticateToken w req with
  | inl r => (w, r)
  | inr (deviceId, _) => ingest_bulk deviceId w (body req)
  end.

End Handlers.

(** The loop of [POST /ingest/bulk] read as a sequence: the outcome of every
    reading in input order, each processed in the state its predecessors
    left. *)
Fixpoint bulk_trace (backend : backend_t) (deviceId : jsval)
    (readings : list reading) (w : world) : world * list (bulk_error + bulk_result) :=
  match readings with
  | [] => (w, [])
  | r :: rest =>
      let '(w', o) := bulk_item backend deviceId w r in
      let '(w'', os) := bulk_trace backend deviceId rest w' in
      (w'', o :: os)
  end.

Definition failures (os : list (bulk_error + bulk_result)) : list bulk_error :=
  omap (fun o => match o with inl e => Some e | inr _ => None end) os.

Definition successes (os : list (bulk_error + bulk_result)) : list bulk_result :=
  omap (fun o => match o with inr r => Some r | inl _ => None end) os.

(** An outcome names the reading it came from. *)
Definition outcome_of (r : reading) (o : bulk_error + bulk_result) : Prop :=
  match o with
  | inl e => be_reading e = r
  | inr ok => br_sensorType ok = rd_sensorType r
  end.

(** The [deviceId] bound to the token a request presents, when
    [authenticateToken] lets the request through. *)
Definition bound_deviceId `{RT : Runtime} (env : config) (w : world) (req : request)
    : option jsval :=
  match authenticateToken env w req with
  | inr (deviceId, _) => Some deviceId
  | inl _ => None
  end.

(** The calls made to the store between two states. *)
Definition calls_since (w w' : world) : list store_call :=
  drop (length (store_log w)) (store_log w').






(** The request-level location of a body: its top-level [location]. *)
Definition request_location (b : jsval) : option string :=
  match prop "location" b with
  | JStr l => Some l
  | _ => None
  end.

(** The location rule in the words of the specification: the reading-level
    value, else the request-level fallback, else ["unknown"]. *)
Definition spec_location (readingLocation requestLocation : option string) : string :=
  match readingLocation with
  | Some l => l
  | None => match requestLocation with
            | Some l => l
            | None => "unknown"
            end
  end.

(** The gateway can sign: a key is configured and the lifetime is readable. *)
Definition can_sign (env : config) (key : string) (ms : Z) : Prop :=
  JWT_SECRET env = Some key /\ key <> EmptyString /\
  span_ms (default (Span 15 Mins) (JWT_EXPIRES_IN env)) = Some ms.

(** The token's expiry has passed at clock [now] (seconds). *)
Definition expired (now : Z) (t : wire) : Prop :=
  exists c key e, t = Jws c key /\ tok_exp c = Some e /\ (e <= now)%Z.

(** The token carries a signature made with the gateway's key. *)
Definition signature_verifies (env : config) (t : wire) : Prop :=
  exists c key, t = Jws c key /\ JWT_SECRET env = Some key /\ key <> EmptyString.

(** ** A concrete environment for the closed examples *)

(** A runtime that reads the few strings the examples use and prints whole
    numbers. *)
Definition sample_runtime : Runtime := {|
  isoDate s :=
    if String.eqb s "2024-05-01T10:00:00.000Z" then Some s
    else if String.eqb s "2024-05-01" then Some "2024-05-01T00:00:00.000Z"
    else None;
  toNumber s :=
    if String.eqb s "21.5" then Some (43 # 2)
    else if String.eqb s "1700000000" then Some (inject_Z 1700000000)
    else None;
  numberToString q := NilZero.string_of_int (Z.to_int (Qfloor q))
|}.

Definition sample_env : config :=
  Config (Some "s3cret") None (Some "aqua-").

(** A store that accepts every document. *)
Definition accepting : backend_t :=
  fun w doc => Answer 5 (inr ("doc-" ++ pad 2 (Z.of_nat (length (store_log w))))).

(** A store that rejects every second call (the 2nd, the 4th, ...). *)
Definition flaky : backend_t :=
  fun w doc =>
    if Nat.odd (length (store_log w)) then Answer 7 (inl (Exn (Some 503%Z) "Service unavailable"))
    else accepting w doc.

(** 2023-11-14T22:13:20Z *)
Definition w0 : world := World 1700000000000 [].

Definition esp1_token : wire :=
  Jws (Claims (JStr "esp-1") "device" 1700000000 (Some 1700000900%Z)) "s3cret".

Definition bearer (t : wire) : option (list wire) := Some [Text "Bearer"; t].

Definition reading_json (deviceId : string) (more : list (string * jsval)) : jsval :=
  JObj ([("deviceId", JStr deviceId); ("sensorType", JStr "temperature");
         ("value", JNum (43 # 2))] ++ more).

(** The credentials of device [esp-1] under the prefix [aqua-]. *)
Definition token_request : request :=
  Request None (JObj [("deviceId", JStr "esp-1"); ("deviceSecret", JStr "aqua-esp-1")]).

Definition wrong_secret_request : request :=
  Request None (JObj [("deviceId", JStr "esp-1"); ("deviceSecret", JStr "aqua-esp-2")]).

(** A [deviceId] that cannot be converted to a string. *)
Definition toString_shadowed : jsval := JObj [("toString", JNum 1)].

Definition unconvertible_request : request :=
  Request None (JObj [("deviceId", toString_shadowed);
                      ("deviceSecret", JStr "aqua-[object Object]")]).

(** The same gateway with [JWT_EXPIRES_IN=1h]. *)
Definition env_1h : config :=
  Config (Some "s3cret") (Some (Span 1 Hours)) (Some "aqua-").

(** Five minutes and twenty minutes after [w0]. *)
Definition w_5min : world := World 1700000300000 [].
Definition w_20min : world := World 1700001200000 [].

Definition plain_reading (deviceId : string) (location : option string) : reading :=
  Reading deviceId "temperature" (43 # 2) None None location None.

(** Four readings: the second names another device, the third meets a store
    that rejects its call (see [flaky]), the fourth has a location. *)
Definition batch_request : request :=
  Request (bearer esp1_token)
    (JObj [("readings",
            JArr [reading_json "esp-1" []; reading_json "esp-2" [];
                  reading_json "esp-1" [];
                  reading_json "esp-1" [("location", JStr "roof")]])]).

Definition batch_readings : list reading :=
  [plain_reading "esp-1" None; plain_reading "esp-2" None;
   plain_reading "esp-1" None; plain_reading "esp-1" (Some "roof")].

(** ** What the store is promised

    The shape every document should have when it reaches the store: the
    bounds of [telemetrySchema] (the length of [deviceId] counted as joi
    counts it, in UTF-16 code units) and the constants of the handlers. *)
Definition well_formed_document (doc : document) : Prop :=
  (inject_Z (-1000) <= doc_value doc)%Q /\ (doc_value doc <= inject_Z 10000)%Q /\
  doc_sensorType doc ∈ allowedSensorTypes /\
  (1 <= utf16_length (doc_deviceId doc) <= 100)%nat /\
  doc_unit doc <> EmptyString /\
  doc_timestamp doc <> EmptyString /\
  doc_location doc <> EmptyString /\
  doc_isAnomalous doc = false.

(** The values of the [units] table of [getUnit]. *)
Definition unitTable : list string :=
  [ "L/min"; "bar"; "°C"; "%"; "pH"; "NTU"; "mg/L"; "μS/cm" ].

(** The [$id]s the store gave back for the calls it accepted. *)
Definition accepted_ids (calls : list store_call) : list string :=
  omap (fun c => match outcome (answered c) with
                 | inr id => Some id
                 | inl _ => None
                 end) calls.

(** The messages of the calls the store rejected. *)
Definition rejected_messages (calls : list store_call) : list string :=
  omap (fun c => match outcome (answered c) with
                 | inr _ => None
                 | inl e => Some (exn_message e)
                 end) calls.

(** The documents a request hands to the store through either ingestion
    route, started in state [w]. *)
Definition handed_over `{RT : Runtime} (env : config) (backend : backend_t)
    (w : world) (req : request) (doc : document) : Prop :=
  exists c, sent c = doc /\
    (c ∈ calls_since w (fst (post_ingest env backend w req)) \/
     c ∈ calls_since w (fst (post_ingest_bulk env backend w req))).

(** A request answered with 400 VALIDATION_ERROR by one of the two ingestion
    handlers without any call to the store. *)
Definition refused_reading (w : world) (out : world * response) : Prop :=
  exists det,
    out = (w, reply 400 (ValidationBody "Invalid telemetry data" [det] "VALIDATION_ERROR")).

Definition refused_batch (w : world) (out : world * response) : Prop :=
  exists det,
    out = (w, reply 400 (ValidationBody "Invalid bulk telemetry data" [det]
                           "VALIDATION_ERROR")).

(** The three answers of the [catch] of [POST /ingest]. *)
Definition db_auth_error : response :=
  reply 500 (ErrorBody "Database authentication failed" "DB_AUTH_ERROR").

Definition db_not_found : response :=
  reply 500 (ErrorBody "Database or collection not found" "DB_NOT_FOUND").

Definition ingestion_error : response :=
  reply 500 (ErrorBody "Internal server error" "INGESTION_ERROR").

(** Epoch seconds whose milliseconds, as the handlers compute them, are
    beyond what [Date] can hold. *)
Definition beyond_Date (q : Q) : Prop :=
  (inject_Z 8640000000000000 < mul_double q (inject_Z 1000))%Q.

(** A gateway without [JWT_SECRET]. *)
Definition env_keyless : config := Config None None (Some "aqua-").

(** A store that rejects every call as unauthorised. *)
Definition locked : backend_t :=
  fun w doc => Answer 3 (inl (Exn (Some 401%Z) "Invalid API key"))  .


(** A [deviceId] of 51 characters that takes 102 bytes, and a token for it. *)
Definition accented_id : string := String.concat EmptyString (List.repeat "é" 51).

Definition accented_token : wire :=
  Jws (Claims (JStr accented_id) "device" 1700000000 (Some 1700000900%Z)) "s3cret".
(** ** The REST routes of [NODE.JS/src]

    [config/appwrite.js], [routes/devices.js] and the telemetry router. The Appwrite SDK is an external service here as well:
    what it answers to a call is given by an oracle that sees the calls made so
    far. A document and an answer of the SDK are JSON values; a request body or
    a query is whatever Express parsed. *)

Definition DATABASE_ID : string := "aquaguard_db".
Definition DEVICES : string := "devices".

(** [Object.values(SENSOR_TYPES)] and [Object.values(DEVICE_TYPES)]. *)
Definition SENSOR_TYPES : list string :=
  [ "flow"; "pressure"; "temperature"; "humidity"; "ph"; "turbidity";
    "dissolvedOxygen"; "conductivity" ].

Definition DEVICE_TYPES : list string :=
  [ "aquaGuardSensor"; "esp8266Basic"; "esp8266Advanced" ].

(** An exception is seen through its [code] and its [message]; an exception
    without a message reads as one with the empty message (both are falsy). *)
Record appwrite_failure : Type := AppwriteFailure {
  af_success : bool;
  af_message : string;
  af_statusCode : nat
}.

(** [handleAppwriteError] of [config/appwrite.js]. *)
Definition handleAppwriteError (error : exn) : appwrite_failure :=
  match exn_code error with
  | Some 404%Z => AppwriteFailure false "Document not found" 404
  | Some 401%Z => AppwriteFailure false "Unauthorized" 401
  | Some 409%Z => AppwriteFailure false "Document already exists" 409
  | _ => AppwriteFailure false
           (or_default (Some (exn_message error)) "Internal server error") 500
  end.

(** A value handed to [createDocument]: a JSON value, or, from the telemetry
    router, [NaN] (out of [parseFloat]) or a member of [Object.prototype] (out
    of [units[type]]). *)
Inductive datum : Type :=
| Plain (v : jsval)
| NotANumber
| Inherited (name : string).

Definition plain (fields : list (string * jsval)) : list (string * datum) :=
  List.map (fun kv => (fst kv, Plain (snd kv))) fields.

(** The calls of the SDK the routers make. *)
Inductive db_call : Type :=
| ListDatabases
| ListDocuments (databaseId collectionId : string) (queries : list string)
| GetDocument (databaseId collectionId documentId : string)
| CreateDocument (databaseId collectionId documentId : string)
    (data : list (string * datum))
| UpdateDocument (databaseId collectionId documentId : string)
    (data : list (string * jsval))
| DeleteDocument (databaseId collectionId documentId : string).

(** What a call resolves to: a list of documents with its [total], or one
    JSON value. *)
Definition db_result (c : db_call) : Type :=
  match c with
  | ListDocuments _ _ _ => (list jsval * jsval)%type
  | _ => jsval
  end.

Record db_answer (c : db_call) : Type := DbAnswer {
  db_took : N;
  db_outcome : exn + db_result c
}.
Arguments DbAnswer {c} _ _.
Arguments db_took {c} _.
Arguments db_outcome {c} _.

(** The world around the routers: the database and the source of UUIDs. *)
Record surroundings : Type := Surroundings {
  database : forall (history : list db_call) (c : db_call), db_answer c;
  uuidv4 : nat -> string
}.

(** The state a request runs in: the clock (milliseconds), the calls made to
    the database and the number of UUIDs drawn. *)
Record site : Type := Site {
  site_clock : Z;
  site_calls : list db_call;
  site_uuids : nat
}.

(** Code that may read and change the state and may throw. *)
Definition action (A : Type) : Type := site -> site * (exn + A).

Definition ret {A : Type} (a : A) : action A := fun s => (s, inr a).

Definition throw {A : Type} (e : exn) : action A := fun s => (s, inl e).

Definition bind {A B : Type} (m : action A) (k : A -> action B) : action B :=
  fun s => match m s with
           | (s', inr a) => k a s'
           | (s', inl e) => (s', inl e)
           end.

(** [try { m } catch (error) { handler }] *)
Definition try_catch {A : Type} (m : action A) (handler : exn -> action A) : action A :=
  fun s => match m s with
           | (s', inr a) => (s', inr a)
           | (s', inl e) => handler e s'
           end.

Notation "'step' x ':=' m 'in' k" := (bind m (fun x => k))
  (at level 10, x name, m at level 100, k at level 200).

(** [await databases.f(...)] *)
Definition await (out : surroundings) (c : db_call) : action (db_result c) :=
  fun s =>
    let a := database out (site_calls s) c in
    (Site (site_clock s + Z.of_N (db_took a)) (site_calls s ++ [c]) (site_uuids s),
     db_outcome a).

(** [new Date().toISOString()] *)
Definition now_iso : action string :=
  fun s => (s, inr (iso_format (site_clock s))).

(** [uuidv4()] *)
Definition fresh_uuid (out : surroundings) : action string :=
  fun s => (Site (site_clock s) (site_calls s) (S (site_uuids s)),
            inr (uuidv4 out (site_uuids s))).

(** Lifting a pure computation that may throw. *)
Definition lift {A : Type} (x : exn + A) : action A := fun s => (s, x).

(** [v.k] as a read that throws on [undefined] and [null]; the wording of the
    two [TypeError]s below is the engine's and nothing depends on it. *)
Definition member (k : string) (v : jsval) : exn + jsval :=
  match v with
  | JUndefined | JNull => inl (Exn None "Cannot read properties of undefined")
  | _ => inr (prop k v)
  end.

(** [const { k1, k2, ... } = v] throws on [undefined] and [null]. *)
Definition destructure (v : jsval) : exn + jsval :=
  match v with
  | JUndefined | JNull => inl (Exn None "Cannot destructure property of undefined")
  | _ => inr v
  end.

(** A request as the routers look at it: the [:deviceId] of the path, the
    parsed query string and the parsed body. *)
Record api_request : Type := ApiRequest {
  rq_deviceId : string;
  rq_query : jsval;
  rq_body : jsval
}.

Record api_response : Type := ApiResponse { api_status : nat; api_json : jsval }.

Definition answer_json (s : nat) (fields : list (string * jsval)) : api_response :=
  ApiResponse s (JObj fields).

(** The double quote, and [equal("attribute", "value")]-like query text. *)
Definition dq : string := String (ascii_of_nat 34) EmptyString.

Definition quoted (s : string) : string := dq ++ s ++ dq.

Definition query2 (method attribute value : string) : string :=
  method ++ "(" ++ quoted attribute ++ ", " ++ value ++ ")".


(** What the routers take from [express-validator] and from the runtime:
    the error array of [validationResult(req)] for each of the four chains of
    the source, and [parseFloat] / [parseInt] ([None] is [NaN]). *)
Class Library : Type := {
  deviceRegistrationValidation : jsval -> list jsval;
  deviceUpdateValidation : jsval -> list jsval;
  sensorReadingValidation : jsval -> list jsval;
  bulkReadingsValidation : jsval -> list jsval;
  parseFloat : jsval -> option Q;
  parseInt : jsval -> option Z
}.

Definition validation_errors (errors : list jsval) : api_response :=
  answer_json 400 [("success", JBool false); ("message", JStr "Validation errors");
                   ("errors", JArr errors)].

Definition device_not_found : api_response :=
  answer_json 404 [("success", JBool false); ("message", JStr "Device not found")].

(** The [catch] the four [/:deviceId] routes share, up to the message. *)
Definition device_catch (message : string) (error : exn) : api_response :=
  match exn_code error with
  | Some 404%Z => device_not_found
  | _ => answer_json 500 [("success", JBool false); ("message", JStr message);
                          ("error", JStr (exn_message error))]
  end.

(** The [catch] of the routes that do not single out 404. *)
Definition plain_catch (message : string) (error : exn) : api_response :=
  answer_json 500 [("success", JBool false); ("message", JStr message);
                   ("error", JStr (exn_message error))].

(** A route: its [try] body, and its [catch] turned into an answer. *)
Definition route (body : action api_response) (handler : exn -> api_response)
    : site -> site * api_response :=
  fun s => match body s with
           | (s', inr r) => (s', r)
           | (s', inl e) => (s', handler e)
           end.

(** [x || y] on values. *)
Definition js_or (x y : jsval) : jsval := if truthy x then x else y.

(** Decimal text of an array index or length. *)
Definition nat_text (n : nat) : string := NilZero.string_of_uint (Nat.to_uint n).

(** [{...v}]: the own enumerable properties of [v] (the indices of an array or
    of a string, none for any other primitive). *)
Fixpoint indexed (i : nat) (items : list jsval) : list (string * jsval) :=
  match items with
  | [] => []
  | v :: rest => (nat_text i, v) :: indexed (S i) rest
  end.

Definition characters (s : string) : list jsval :=
  List.map (fun c => JStr (String c EmptyString)) (list_ascii_of_string s).

Definition spread (v : jsval) : list (string * jsval) :=
  match v with
  | JObj fields => fields
  | JArr items => indexed 0 items
  | JStr s => indexed 0 (characters s)
  | _ => []
  end.

(** [o.k = v] on the properties of an object. *)
Fixpoint set_field (k : string) (v : jsval) (fields : list (string * jsval))
    : list (string * jsval) :=
  match fields with
  | [] => [(k, v)]
  | (k', v') :: rest =>
      if String.eqb k k' then (k, v) :: rest else (k', v') :: set_field k v rest
  end.



Section Rest.

Context `{RT : Runtime} `{LB : Library}.
Variable out : surroundings.

(** *** [routes/devices.js] *)

(** [POST /register]. The template literal of the lookup converts
    [serialNumber] inside the inner [try]: when the conversion throws, the
    lookup is not made and the registration goes on. *)
Definition register_device (req : api_request) : site -> site * api_response :=
  route
    (let errors := deviceRegistrationValidation (rq_body req) in
     if negb (bool_decide (errors = [])) then ret (validation_errors errors)
     else
       step b := lift (destructure (rq_body req)) in
       let serialNumber := prop "serialNumber" b in
       let name := prop "name" b in
       let location := prop "location" b in
       let macAddress := prop "macAddress" b in
       let wifiSSID := prop "wifiSSID" b in
       let deviceType := prop "deviceType" b in
       let firmwareVersion := prop "firmwareVersion" b in
       step deviceId := fresh_uuid out in
       step now := now_iso in
       let deviceData :=
         [ ("deviceId", JStr deviceId); ("serialNumber", serialNumber); ("name", name);
           ("location", location); ("macAddress", macAddress);
           ("wifiSSID", js_or wifiSSID JNull); ("isOnline", JBool true);
           ("batteryLevel", JNull); ("firmwareVersion", firmwareVersion);
           ("deviceType", deviceType); ("createdAt", JStr now); ("lastSeen", JStr now) ] in
       step exists_already :=
         try_catch
           (step text := lift (plus EmptyString serialNumber) in
            step existingDevices :=
              await out (ListDocuments DATABASE_ID DEVICES
                           [query2 "equal" "serialNumber" (quoted text)]) in
            ret (0 <? length (fst existingDevices))%nat)
           (fun error => ret false) in
       if exists_already then
         ret (answer_json 409
                [("success", JBool false);
                 ("message", JStr "Device with this serial number already exists")])
       else
         step result := await out (CreateDocument DATABASE_ID DEVICES deviceId (plain deviceData)) in
         step id := lift (member "$id" result) in
         ret (answer_json 201
                [("success", JBool true);
                 ("message", JStr "Device registered successfully");
                 ("data", JObj [("deviceId", id); ("name", name); ("location", location);
                                ("serialNumber", serialNumber); ("deviceType", deviceType);
                                ("createdAt", JStr now)])]))
    (plain_catch "Failed to register device").



(** [GET /:deviceId] *)
Definition get_device (req : api_request) : site -> site * api_response :=
  route
    (step result := await out (GetDocument DATABASE_ID DEVICES (rq_deviceId req)) in
     ret (answer_json 200 [("success", JBool true); ("data", result)]))
    (device_catch "Failed to fetch device").

(** [PUT /:deviceId] *)
Definition update_device (req : api_request) : site -> site * api_response :=
  route
    (let errors := deviceUpdateValidation (rq_body req) in
     if negb (bool_decide (errors = [])) then ret (validation_errors errors)
     else
       step now := now_iso in
       let updateData := set_field "lastSeen" (JStr now) (spread (rq_body req)) in
       step result :=
         await out (UpdateDocument DATABASE_ID DEVICES (rq_deviceId req) updateData) in
       ret (answer_json 200 [("success", JBool true);
                             ("message", JStr "Device updated successfully");
                             ("data", result)]))
    (device_catch "Failed to update device").

(** The [updateData] of [POST /:deviceId/status]. *)
Definition status_update (now : string) (body : jsval) : list (string * jsval) :=
  let isOnline := prop "isOnline" body in
  let batteryLevel := prop "batteryLevel" body in
  [("lastSeen", JStr now)]
  ++ (match isOnline with
      | JBool b => [("isOnline", JBool b)]
      | _ => []
      end)
  ++ (match batteryLevel with
      | JNum q => if Qle_bool 0 q && Qle_bool q (inject_Z 100)
                  then [("batteryLevel", JNum q)] else []
      | _ => []
      end).

(** [POST /:deviceId/status] *)
Definition update_device_status (req : api_request) : site -> site * api_response :=
  route
    (step b := lift (destructure (rq_body req)) in
     step now := now_iso in
     step result :=
       await out (UpdateDocument DATABASE_ID DEVICES (rq_deviceId req) (status_update now b)) in
     ret (answer_json 200 [("success", JBool true);
                           ("message", JStr "Device status updated")]))
    (device_catch "Failed to update device status").

(** [DELETE /:deviceId] *)
Definition delete_device (req : api_request) : site -> site * api_response :=
  route
    (step result := await out (DeleteDocument DATABASE_ID DEVICES (rq_deviceId req)) in
     ret (answer_json 200 [("success", JBool true);
                           ("message", JStr "Device deleted successfully")]))
    (device_catch "Failed to delete device").

(** *** The telemetry router *)










End Rest.

(** *** Reading a run of a route *)

(** A value a property can be read off: neither [undefined] nor [null]. *)
Definition present (v : jsval) : bool :=
  match v with
  | JUndefined | JNull => false
  | _ => true
  end.

(** What the database says to call [c] when it comes after the calls of [s]. *)
Definition accepted (out : surroundings) (s : site) (c : db_call) : bool :=
  match db_outcome (database out (site_calls s) c) with
  | inr _ => true
  | inl _ => false
  end.

Definition rejected_with (out : surroundings) (s : site) (c : db_call) (code : Z) : bool :=
  match db_outcome (database out (site_calls s) c) with
  | inl e => bool_decide (exn_code e = Some code)
  | inr _ => false
  end.

(** The duplicate check of [POST /register], made when [serialNumber]
    converts to a string, and whether it finds a device. *)
Definition serial_lookup `{RT : Runtime} (body : jsval) : db_call :=
  ListDocuments DATABASE_ID DEVICES
    [query2 "equal" "serialNumber" (quoted (ToString (prop "serialNumber" body)))].

Definition serial_known `{RT : Runtime} (out : surroundings) (s : site) (body : jsval)
    : bool :=
  convertible (prop "serialNumber" body) &&
  match db_outcome (database out (site_calls s) (serial_lookup body)) with
  | inr found => (0 <? length (fst (found : list jsval * jsval)))%nat
  | inl _ => false
  end.

(** The calls the duplicate check makes: none when [serialNumber] cannot be
    converted to a string. *)
Definition lookup_calls `{RT : Runtime} (body : jsval) : list db_call :=
  if convertible (prop "serialNumber" body) then [serial_lookup body] else [].

(** A field of the data handed to [createDocument]. *)
Fixpoint field (k : string) (data : list (string * datum)) : option datum :=
  match data with
  | [] => None
  | (k', d) :: rest => if String.eqb k k' then Some d else field k rest
  end.


(** *** A concrete database for the closed examples *)

(** A library that lets every body through and reads numbers off numbers. *)
Definition lenient : Library := {|
  deviceRegistrationValidation _ := [];
  deviceUpdateValidation _ := [];
  sensorReadingValidation _ := [];
  bulkReadingsValidation _ := [];
  parseFloat v := match v with JNum q => Some q | _ => None end;
  parseInt v := match v with JNum q => Some (Qtrunc q) | _ => None end
|}.


Definition unreachable : exn := Exn (Some 503%Z) "Service unavailable".


(** A database that holds one device under every id and serial number. *)
Definition one_device : jsval :=
  JObj [("$id", JStr "dev-1"); ("serialNumber", JStr "SN-1")].

Definition full_db : surroundings := {|
  database history c :=
    match c return db_answer c with
    | ListDatabases => @DbAnswer ListDatabases 2 (inr (JObj [("total", JNum 1)]))
    | ListDocuments x0 x1 x2 => @DbAnswer (ListDocuments x0 x1 x2) 2 (inr ([one_device], JNum 1))
    | CreateDocument x0 x1 id x3 => @DbAnswer (CreateDocument x0 x1 id x3) 4 (inr (JObj [("$id", JStr id)]))
    | GetDocument x0 x1 x2 => @DbAnswer (GetDocument x0 x1 x2) 2 (inr one_device)
    | UpdateDocument x0 x1 x2 x3 => @DbAnswer (UpdateDocument x0 x1 x2 x3) 2 (inr one_device)
    | DeleteDocument x0 x1 x2 => @DbAnswer (DeleteDocument x0 x1 x2) 2 (inr JNull)
    end;
  uuidv4 n := "uuid-" ++ nat_text n
|}.

(** A database whose lists fail and whose every second creation fails. *)
Definition shaky_db : surroundings := {|
  database history c :=
    match c return db_answer c with
    | ListDatabases => @DbAnswer ListDatabases 2 (inl unreachable)
    | ListDocuments x0 x1 x2 => @DbAnswer (ListDocuments x0 x1 x2) 2 (inl unreachable)
    | CreateDocument x0 x1 id x3 =>
        if Nat.odd (length history) then @DbAnswer (CreateDocument x0 x1 id x3) 4 (inl unreachable)
        else @DbAnswer (CreateDocument x0 x1 id x3) 4 (inr (JObj [("$id", JStr id)]))
    | GetDocument x0 x1 x2 => @DbAnswer (GetDocument x0 x1 x2) 2 (inl unreachable)
    | UpdateDocument x0 x1 x2 x3 => @DbAnswer (UpdateDocument x0 x1 x2 x3) 2 (inl unreachable)
    | DeleteDocument x0 x1 x2 => @DbAnswer (DeleteDocument x0 x1 x2) 2 (inl unreachable)
    end;
  uuidv4 n := "uuid-" ++ nat_text n
|}.

Definition s0 : site := Site 1700000000000 [] 0.




(** The answer of the telemetry router to a batch it went through. *)
Definition processed (deviceId : jsval) (count : nat) (storedReadings failedReadings : list jsval)
    : api_response :=
  answer_json 201
    [("success", JBool true);
     ("message", JStr ("Processed " ++ nat_text count ++ " readings"));
     ("data",
      JObj ([("deviceId", deviceId);
             ("stored", JNum (inject_Z (Z.of_nat (length storedReadings))));
             ("failed", JNum (inject_Z (Z.of_nat (length failedReadings))));
             ("storedReadings", JArr storedReadings)]
            ++ (if (0 <? length failedReadings)%nat
                then [("failedReadings", JArr failedReadings)] else [])))].


Definition new_device : jsval :=
  JObj [("serialNumber", JStr "SN-1"); ("name", JStr "pump"); ("location", JStr "cellar");
        ("macAddress", JStr "AA:BB:CC:DD:EE:FF"); ("deviceType", JStr "esp8266Basic");
        ("firmwareVersion", JStr "1.0"); ("deviceId", JStr "mine"); ("isOnline", JBool false)].





(** A registration whose [serialNumber] cannot be converted to a string. *)
Definition odd_device : jsval :=
  JObj [("serialNumber", toString_shadowed); ("name", JStr "pump");
        ("location", JStr "cellar"); ("macAddress", JStr "AA:BB:CC:DD:EE:FF");
        ("deviceType", JStr "esp8266Basic"); ("firmwareVersion", JStr "1.0")].
(** * Properties *)

Local Open Scope list_scope.

(** ** Sanity checks of the runtime model *)

Example iso_format_sample :
  iso_format 1700000000000 = "2023-11-14T22:13:20.000Z".
Proof. reflexivity. Qed.

Example iso_format_epoch : iso_format 0 = "1970-01-01T00:00:00.000Z".
Proof. reflexivity. Qed.

Example iso_format_before_epoch : iso_format (-1) = "1969-12-31T23:59:59.999Z".
Proof. reflexivity. Qed.

Example iso_format_leap_day : iso_format 1709210096789 = "2024-02-29T12:34:56.789Z".
Proof. reflexivity. Qed.

Example getUnit_temperature : getUnit "temperature" = "°C".
Proof. reflexivity. Qed.

Example getUnit_fallback : getUnit "voltage" = "unit".
Proof. reflexivity. Qed.

(** A temperature reading without unit or timestamp, sent under a token for
    [esp-1]. *)
Example scenario_temperature_reading :
  post_ingest (RT := sample_runtime) sample_env accepting w0
    (Request (bearer esp1_token) (reading_json "esp-1" []))
  = (World 1700000000005
       [StoreCall
          (Document "esp-1" "temperature" (43 # 2) "°C" "2023-11-14T22:13:20.000Z"
             "unknown" false "2023-11-14T22:13:20.000Z" [])
          (Answer 5 (inr "doc-00"))],
     reply 201 (IngestBody true "doc-00" "2023-11-14T22:13:20.000Z")).
Proof. reflexivity. Qed.

(** A value given as a string is converted by the schema. *)
Example scenario_value_as_string :
  telemetrySchema (RT := sample_runtime)
    (JObj [("deviceId", JStr "esp-1"); ("sensorType", JStr "ph"); ("value", JStr "21.5")])
  = inr (Some (Reading "esp-1" "ph" (43 # 2) None None None None)).
Proof. reflexivity. Qed.

(** ** Strings and values *)

Lemma eqb_empty_false (s : string) : s <> EmptyString -> String.eqb s EmptyString = false.
Proof. intros Hs. now apply String.eqb_neq. Qed.

Lemma strict_neq_false (a : string) (b : jsval) :
  strict_neq a b = false <-> b = JStr a.
Proof.
  destruct b; simpl; try (split; [discriminate | intros [=]]).
  rewrite negb_false_iff, String.eqb_eq. split; [now intros -> | now intros [= ->]].
Qed.

Lemma strict_neq_true (a : string) (b : jsval) :
  strict_neq a b = true <-> b <> JStr a.
Proof.
  rewrite <- strict_neq_false. destruct (strict_neq a b); split; congruence.
Qed.

(** [req.body || {}] changes nothing for the property reads that follow. *)
Lemma prop_body_or_empty (k : string) (b : jsval) :
  prop k (if truthy b then b else JObj []) = prop k b.
Proof. destruct b; simpl; try reflexivity; now destruct (negb _) || now destruct b. Qed.

Lemma truthy_JStr (s : string) : truthy (JStr s) = true <-> s <> EmptyString.
Proof.
  simpl. rewrite negb_true_iff. split.
  - intros E ->. now rewrite String.eqb_refl in E.
  - apply eqb_empty_false.
Qed.

(** ** The token service *)

Section TokenService.

Context `{RT : Runtime}.
Variable env : config.

(** [POST /auth/token] case by case. *)
Lemma post_auth_token_unfold (w : world) (req : request) :
  let deviceId := prop "deviceId" (body req) in
  let deviceSecret := prop "deviceSecret" (body req) in
  post_auth_token env w req =
    if negb (truthy deviceId) || negb (truthy deviceSecret) then missing_credentials
    else if negb (convertible deviceId) then token_generation_error
    else if strict_neq (expectedSecret env deviceId) deviceSecret then invalid_credentials
    else match jwt_sign deviceId "device" (clock w / 1000) (JWT_SECRET env)
                 (default (Span 15 Mins) (JWT_EXPIRES_IN env)) with
         | inr token => reply 200 (TokenBody token (60 * 15) "Bearer")
         | inl _ => token_generation_error
         end.
Proof.
  cbv zeta. unfold post_auth_token, issue_token. rewrite !prop_body_or_empty.
  destruct (negb _ || negb _); [reflexivity|].
  unfold plus, expectedSecret.
  destruct (convertible (prop "deviceId" (body req))); [|reflexivity].
  cbn [negb sum_bind].
  destruct (strict_neq _ _); [reflexivity|].
  now destruct (jwt_sign _ _ _ _ _).
Qed.

(** The ways [POST /auth/token] answers when the gateway can sign. *)
Lemma post_auth_token_cases (w : world) (req : request) (key : string) (ms : Z) :
  can_sign env key ms ->
  let deviceId := prop "deviceId" (body req) in
  let deviceSecret := prop "deviceSecret" (body req) in
  post_auth_token env w req =
    if negb (truthy deviceId) || negb (truthy deviceSecret) then missing_credentials
    else if negb (convertible deviceId) then token_generation_error
    else if strict_neq (expectedSecret env deviceId) deviceSecret then invalid_credentials
    else reply 200 (TokenBody
           (Jws (Claims deviceId "device" (clock w / 1000)
                   (Some (clock w / 1000 + ms / 1000)%Z)) key)
           900 "Bearer").
Proof.
  intros (Hkey & Hne & Hspan). cbv zeta. rewrite post_auth_token_unfold. cbv zeta.
  destruct (negb _ || negb _); [reflexivity|].
  destruct (negb (convertible _)); [reflexivity|].
  destruct (strict_neq _ _); [reflexivity|].
  unfold jwt_sign. rewrite Hkey, (eqb_empty_false _ Hne), Hspan. reflexivity.
Qed.

(** C4, as the code has it. Token issuance succeeds only if [deviceId] and
    [deviceSecret] are both non-empty (truthy), [deviceId] can be converted to
    a string and [deviceSecret] is exactly the string [prefix + deviceId], and
    it does succeed then on a gateway that has a signing key and a readable
    lifetime; a missing field is answered with the 400 MISSING_CREDENTIALS
    response, and any other secret with one fixed 401 INVALID_CREDENTIALS
    response, the same whatever the mismatch was, provided [deviceId]
    converts; when it does not, the concatenation throws and the answer is
    500 TOKEN_GENERATION_ERROR whatever the secret. *)
Theorem token_issuance_iff_credentials (w : world) (req : request) :
  let deviceId := prop "deviceId" (body req) in
  let deviceSecret := prop "deviceSecret" (body req) in
  let r := post_auth_token env w req in
  let valid := truthy deviceId = true /\ truthy deviceSecret = true /\
               convertible deviceId = true /\
               deviceSecret = JStr (expectedSecret env deviceId) in
  ((exists token, r = reply 200 (TokenBody token 900 "Bearer")) -> valid) /\
  (forall key ms, can_sign env key ms -> valid ->
                  exists token, r = reply 200 (TokenBody token 900 "Bearer")) /\
  (truthy deviceId = false \/ truthy deviceSecret = false -> r = missing_credentials) /\
  (truthy deviceId = true -> truthy deviceSecret = true ->
   convertible deviceId = true ->
   deviceSecret <> JStr (expectedSecret env deviceId) -> r = invalid_credentials) /\
  (truthy deviceId = true -> truthy deviceSecret = true ->
   convertible deviceId = false -> r = token_generation_error).
Proof.
  cbv zeta. pose proof (post_auth_token_unfold w req) as Hcases. cbv zeta in Hcases.
  split; [|split; [|split; [|split]]].
  - rewrite Hcases. intros [token Hok].
    destruct (truthy (prop "deviceId" (body req)));
      destruct (truthy (prop "deviceSecret" (body req))); try discriminate Hok.
    simpl in Hok.
    destruct (convertible (prop "deviceId" (body req))); [|discriminate Hok].
    simpl in Hok. destruct (strict_neq _ _) eqn:Hneq; [discriminate Hok|].
    apply strict_neq_false in Hneq. auto.
  - intros key ms Hsign (Hid & Hsec & Hconv & Hexp).
    rewrite (post_auth_token_cases w req key ms Hsign). cbv zeta.
    rewrite Hid, Hsec, Hconv. simpl.
    rewrite (proj2 (strict_neq_false _ _) Hexp). eauto.
  - rewrite Hcases. intros [-> | ->]; simpl; [reflexivity|].
    now rewrite orb_true_r.
  - rewrite Hcases. intros -> -> -> Hne. simpl.
    now rewrite (proj2 (strict_neq_true _ _) Hne).
  - rewrite Hcases. intros -> -> ->. reflexivity.
Qed.

(** C3. For every non-empty [deviceId], a request with
    [deviceSecret = prefix + deviceId] is answered with a token, and
    [authenticateToken], run on that token at any time before its expiry,
    binds [req.deviceId] to exactly that [deviceId]. *)
Theorem issue_verify_roundtrip (w : world) (req : request) (key : string) (ms : Z)
    (id : string) :
  can_sign env key ms ->
  id <> EmptyString ->
  prop "deviceId" (body req) = JStr id ->
  prop "deviceSecret" (body req) = JStr (expectedSecret env (JStr id)) ->
  exists token,
    post_auth_token env w req = reply 200 (TokenBody token 900 "Bearer") /\
    forall (w' : world) (scheme : wire) (rest : list wire) (b : jsval),
      (clock w' / 1000 < clock w / 1000 + ms / 1000)%Z ->
      authenticateToken env w' (Request (Some (scheme :: token :: rest)) b)
      = inr (JStr id, Some (clock w / 1000 + ms / 1000)%Z).
Proof.
  intros Hsign Hid Hd Hs.
  rewrite (post_auth_token_cases w req key ms Hsign). cbv zeta.
  rewrite Hd, Hs.
  assert (Hexp : expectedSecret env (JStr id) <> EmptyString).
  { unfold expectedSecret. simpl.
    destruct (or_default _ _); simpl; [assumption | discriminate]. }
  assert (Ht1 : truthy (JStr id) = true) by now apply truthy_JStr.
  assert (Ht2 : truthy (JStr (expectedSecret env (JStr id))) = true)
    by now apply truthy_JStr.
  rewrite Ht1, Ht2. simpl negb. simpl orb. cbn [convertible negb].
  assert (Hn : strict_neq (expectedSecret env (JStr id))
                 (JStr (expectedSecret env (JStr id))) = false)
    by now apply strict_neq_false.
  rewrite Hn. eexists. split; [reflexivity|].
  intros w' scheme rest b Hfresh.
  destruct Hsign as (Hkey & Hne & _).
  unfold authenticateToken, presented. simpl.
  rewrite Hkey, (eqb_empty_false _ Hne), String.eqb_refl. simpl.
  destruct (Z.leb_spec (clock w / 1000 + ms / 1000) (clock w' / 1000)); [lia|].
  reflexivity.
Qed.

(** C8. A presented token whose expiry has passed, and a presented token whose
    signature does not verify against the gateway's key, are both answered with
    the 403 INVALID_TOKEN response and nothing else; a request that presents no
    bearer token is answered with the 401 MISSING_TOKEN response, which is a
    different one. *)
Theorem verification_failure_classes (w : world) (req : request) :
  (forall t : wire,
     presented req = Some t -> t <> Text EmptyString ->
     expired (clock w / 1000) t \/ ~ signature_verifies env t ->
     authenticateToken env w req = inl invalid_token) /\
  (presented req = None \/ presented req = Some (Text EmptyString) ->
   authenticateToken env w req = inl missing_token) /\
  missing_token <> invalid_token.
Proof.
  split; [|split]; [| |discriminate].
  - intros t Ht Hne Hbad. unfold authenticateToken. rewrite Ht.
    assert (Hv : exists err, jwt_verify t (JWT_SECRET env) (clock w / 1000) = inl err).
    { destruct t as [s|c key]; [eexists; reflexivity|]. simpl.
      destruct (JWT_SECRET env) as [k|] eqn:Hk; [|eexists; reflexivity].
      destruct (String.eqb k EmptyString) eqn:Hke; [eexists; reflexivity|].
      destruct (String.eqb k key) eqn:Hkk; simpl; [|eexists; reflexivity].
      apply String.eqb_eq in Hkk. subst k. apply String.eqb_neq in Hke.
      destruct Hbad as [(c' & key' & e & [= <- <-] & He & Hle) | Hns].
      - rewrite He. destruct (Z.leb_spec e (clock w / 1000)); [|lia].
        eexists; reflexivity.
      - exfalso. apply Hns. exists c, key. auto. }
    destruct Hv as [err Hv]. rewrite Hv.
    destruct t as [s|c key]; [|reflexivity].
    destruct s; [contradiction | reflexivity].
  - unfold authenticateToken. intros [-> | ->]; reflexivity.
Qed.

(** C10. Every successful issuance reports [expiresIn = 900], whatever lifetime
    is configured, while the signed token expires [ms / 1000] seconds after
    [iat] for the configured span [ms]; when that is not 900 the reported
    [expiresIn] is not the token's lifetime. *)
Theorem expiresIn_is_constant_900 (w : world) (req : request) :
  status (post_auth_token env w req) = 200%nat ->
  exists c key ms,
    post_auth_token env w req = reply 200 (TokenBody (Jws c key) 900 "Bearer") /\
    span_ms (default (Span 15 Mins) (JWT_EXPIRES_IN env)) = Some ms /\
    tok_exp c = Some (tok_iat c + ms / 1000)%Z /\
    ((ms / 1000 <> 900)%Z -> tok_exp c <> Some (tok_iat c + 900)%Z).
Proof.
  rewrite post_auth_token_unfold. cbv zeta.
  destruct (negb _ || negb _); [discriminate|].
  destruct (negb (convertible _)); [discriminate|].
  destruct (strict_neq _ _); [discriminate|].
  unfold jwt_sign.
  destruct (JWT_SECRET env) as [key|]; [|discriminate].
  destruct (String.eqb key EmptyString); [discriminate|].
  destruct (span_ms _) as [ms|]; [|discriminate].
  intros _. eexists _, key, ms. split; [reflexivity|]. simpl.
  repeat split. intros Hne [= E]. lia.
Qed.

End TokenService.

(** ** Validation *)

Lemma sum_bind_inr {E A B : Type} (m : E + A) (k : A -> E + B) (b : B) :
  sum_bind m k = inr b -> exists a, m = inr a /\ k a = inr b.
Proof. destruct m as [e|a]; simpl; [discriminate | eauto]. Qed.

Lemma Qle_bool_false (x y : Q) : Qle_bool x y = false <-> (y < x)%Q.
Proof.
  split.
  - intros E. apply Qnot_le_lt. intros L. apply Qle_bool_iff in L. congruence.
  - intros L. destruct (Qle_bool x y) eqn:E; [|reflexivity].
    apply Qle_bool_iff in E. now apply Qlt_not_le in L.
Qed.

Ltac bind_inv H :=
  let a := fresh "a" in
  let Ha := fresh "Ha" in
  apply sum_bind_inr in H; destruct H as (a & Ha & H).

Tactic Notation "bind_split" hyp(H) "as" ident(a) ident(Ha) :=
  apply sum_bind_inr in H; destruct H as (a & Ha & H).

Section Validation.

Context `{RT : Runtime}.

(** What a validated reading says about the object it was read from. *)
Lemma telemetry_object_inv (path : list seg) (fields : list (string * jsval)) (r : reading) :
  telemetry_object path fields = inr r ->
  joi_deviceId (path ++ [Key "deviceId"]) (assoc "deviceId" fields) = inr (rd_deviceId r) /\
  joi_sensorType (path ++ [Key "sensorType"]) (assoc "sensorType" fields)
    = inr (rd_sensorType r) /\
  joi_value (path ++ [Key "value"]) (assoc "value" fields) = inr (rd_value r) /\
  optional joi_string (path ++ [Key "unit"]) (assoc "unit" fields) = inr (rd_unit r) /\
  joi_timestamp (path ++ [Key "timestamp"]) (assoc "timestamp" fields)
    = inr (rd_timestamp r) /\
  optional joi_string (path ++ [Key "location"]) (assoc "location" fields)
    = inr (rd_location r) /\
  joi_metadata (path ++ [Key "metadata"]) (assoc "metadata" fields) = inr (rd_metadata r) /\
  unknown_key telemetryKeys fields = None.
Proof.
  unfold telemetry_object. intros Hv.
  do 8 bind_inv Hv. injection Hv as <-. simpl in *.
  repeat split; try assumption.
  unfold no_unknown in Ha6. now destruct (unknown_key _ _).
Qed.


Lemma telemetry_object_fails_sensorType (path : list seg) (fields : list (string * jsval))
    (d : detail) :
  joi_sensorType (path ++ [Key "sensorType"]) (assoc "sensorType" fields) = inl d ->
  exists d', telemetry_object path fields = inl d' /\
    (forall id, joi_deviceId (path ++ [Key "deviceId"]) (assoc "deviceId" fields) = inr id ->
                d' = d) /\
    (forall d0, joi_deviceId (path ++ [Key "deviceId"]) (assoc "deviceId" fields) = inl d0 ->
                d' = d0).
Proof.
  intros Hs. unfold telemetry_object. simpl.
  destruct (joi_deviceId _ _); simpl.
  - eexists. split; [reflexivity|]. split; [discriminate | now intros d1 [= <-]].
  - rewrite Hs. simpl. eexists. split; [reflexivity|]. split; [reflexivity | discriminate].
Qed.

(** A sensor type outside the enumeration breaks [any.only], an absent one
    [any.required]. *)
Lemma joi_sensorType_outside (path : list seg) (v : jsval) :
  (forall s, s ∈ allowedSensorTypes -> v <> JStr s) ->
  joi_sensorType path v =
    inl (Detail path match v with JUndefined => "any.required" | _ => "any.only" end).
Proof.
  intros Hout. unfold joi_sensorType, required, broke.
  destruct v; try reflexivity.
  destruct (bool_decide (s ∈ allowedSensorTypes)) eqn:E; [|reflexivity].
  apply bool_decide_eq_true in E. now destruct (Hout s E).
Qed.

(** [Joi.string().isoDate()] passes what [iso_of] reads. *)
Lemma joi_isoDate_passes (path : list seg) (v : jsval) (iso : string) :
  joi_isoDate path v = inr iso <-> iso_of v = Some iso.
Proof.
  unfold joi_isoDate, iso_of, broke. destruct v; try (split; discriminate).
  destruct (String.eqb s EmptyString); [split; discriminate|].
  destruct (isoDate s); split; congruence.
Qed.








(** An optional string that passed is not the empty string. *)
Lemma optional_string_nonempty (path : list seg) (v : jsval) (s : string) :
  optional joi_string path v = inr (Some s) -> s <> EmptyString.
Proof.
  unfold optional, joi_string. intros Hv Hs. subst s.
  destruct v; simpl in Hv; try discriminate.
  destruct (String.eqb s EmptyString) eqn:E; simpl in Hv; [discriminate|].
  injection Hv as ->. discriminate.
Qed.

End Validation.

(** ** Documents *)

(** Every document the shared block builds copies the reading's identity and
    fills the remaining fields by the defaulting rules. *)
Lemma build_document_fields (now : Z) (r : reading) (doc : document) (ts : string) :
  build_document now r = inr (doc, ts) ->
  doc_deviceId doc = rd_deviceId r /\
  doc_sensorType doc = rd_sensorType r /\
  doc_unit doc = or_default (rd_unit r) (getUnit (rd_sensorType r)) /\
  doc_timestamp doc = ts /\
  doc_location doc = or_default (rd_location r) "unknown" /\
  doc_isAnomalous doc = false /\
  doc_ingestedAt doc = iso_format now.
Proof.
  unfold build_document. intros Hb. bind_inv Hb. injection Hb as <- <-.
  simpl. repeat split.
Qed.

(** *** Rounding to a double *)

Lemma div_half_even_nonneg (n d : Z) : (0 <= n)%Z -> (0 < d)%Z -> (0 <= div_half_even n d)%Z.
Proof.
  intros Hn Hd. unfold div_half_even.
  pose proof (Z.div_pos n d Hn Hd).
  destruct (_ ?= _)%Z; [destruct (Z.even _)|..]; lia.
Qed.

Lemma Qpow2_pos (e : Z) : (0 < Qpow2 e)%Q.
Proof.
  unfold Qpow2. destruct (0 <=? e)%Z eqn:E.
  - apply Z.leb_le in E. unfold Qlt. simpl.
    pose proof (Z.pow_pos_nonneg 2 e ltac:(lia) E). lia.
  - reflexivity.
Qed.

(** Rounding keeps the sign. *)
Lemma to_double_nonneg (x : Q) : (0 <= x)%Q -> (0 <= to_double x)%Q.
Proof.
  intros Hx. unfold to_double.
  destruct (Z.abs (Qnum x) =? 0)%Z; [apply Qle_refl|].
  rewrite Qred_correct.
  apply Qmult_le_0_compat; [|apply Qlt_le_weak, Qpow2_pos].
  change 0%Q with (inject_Z 0). rewrite <- Zle_Qle.
  assert (Hnum : (0 <= Qnum x)%Z) by (unfold Qle in Hx; simpl in Hx; lia).
  apply Z.mul_nonneg_nonneg; [lia|].
  destruct (0 <=? Z.max _ _)%Z eqn:E.
  - apply Z.leb_le in E. apply div_half_even_nonneg; [lia|].
    pose proof (Z.pow_pos_nonneg 2 _ ltac:(lia) E). lia.
  - apply Z.leb_gt in E. apply div_half_even_nonneg; [|lia].
    pose proof (Z.pow_pos_nonneg 2 (- Z.max (binade (Z.abs (Qnum x)) (Z.pos (Qden x)) - 52) (-1074))
                  ltac:(lia) ltac:(lia)).
    lia.
Qed.

Lemma mul_double_nonneg (x y : Q) : (0 <= x)%Q -> (0 <= y)%Q -> (0 <= mul_double x y)%Q.
Proof.
  intros Hx Hy. unfold mul_double.
  apply to_double_nonneg, Qmult_le_0_compat; now apply to_double_nonneg.
Qed.








(** ** Calls to the store *)

Lemma calls_since_refl (w : world) : calls_since w w = [].
Proof. apply drop_all. Qed.

Lemma calls_since_app (w w' : world) (new : list store_call) :
  store_log w' = store_log w ++ new -> calls_since w w' = new.
Proof. unfold calls_since. intros ->. apply drop_app_length. Qed.

Lemma ingest_catch_status (error : exn) : status (ingest_catch error) = 500%nat.
Proof.
  unfold ingest_catch.
  repeat match goal with
         | |- context [match ?x with _ => _ end] => destruct x
         end; reflexivity.
Qed.

Section Ingestion.

Context `{RT : Runtime}.
Variable backend : backend_t.

(** A run of the [POST /ingest] handler either leaves the store alone or makes
    exactly one call, with the document built from the validated reading whose
    [deviceId] is the token's; a 201 echoes that document's timestamp. *)
Lemma ingest_inv (deviceId : jsval) (w : world) (b : jsval) (w' : world) (resp : response) :
  ingest backend deviceId w b = (w', resp) ->
  (w' = w /\ status resp <> 201%nat) \/
  (exists r doc ts,
     telemetrySchema b = inr (Some r) /\
     deviceId = JStr (rd_deviceId r) /\
     build_document (clock w) r = inr (doc, ts) /\
     store_log w' = store_log w ++ [StoreCall doc (backend w doc)] /\
     (status resp = 201%nat ->
      exists id, resp = reply 201 (IngestBody true id ts))).
Proof.
  unfold ingest. intros Hi.
  destruct (telemetrySchema b) as [d|[r|]] eqn:Hv.
  - injection Hi as <- <-. left. split; [reflexivity | discriminate].
  - destruct (strict_neq (rd_deviceId r) deviceId) eqn:Hd.
    { injection Hi as <- <-. left. split; [reflexivity | discriminate]. }
    apply strict_neq_false in Hd.
    destruct (build_document (clock w) r) as [e|[doc ts]] eqn:Hb.
    { injection Hi as <- <-. left. split; [reflexivity|].
      now rewrite ingest_catch_status. }
    right. exists r, doc, ts. repeat split; try assumption.
    + unfold createDocument in Hi. destruct (outcome (backend w doc)); now injection Hi as <- <-.
    + unfold createDocument in Hi. destruct (outcome (backend w doc)) as [e|id].
      * injection Hi as <- <-. now rewrite ingest_catch_status.
      * injection Hi as <- <-. eauto.
  - injection Hi as <- <-. left. split; [reflexivity | discriminate].
Qed.

(** *** The bulk loop *)

Lemma bulk_item_mismatch (deviceId : jsval) (w : world) (r : reading) :
  deviceId <> JStr (rd_deviceId r) ->
  bulk_item backend deviceId w r = (w, inl (BulkError r "Device ID mismatch")).
Proof.
  intros Hne. unfold bulk_item.
  now rewrite (proj2 (strict_neq_true (rd_deviceId r) deviceId) Hne).
Qed.

Lemma bulk_item_outcome (deviceId : jsval) (w : world) (r : reading) :
  outcome_of r (snd (bulk_item backend deviceId w r)).
Proof.
  unfold bulk_item. destruct (strict_neq _ _); [reflexivity|].
  destruct (build_document _ _) as [e|[doc ts]]; [reflexivity|].
  unfold createDocument. now destruct (outcome _).
Qed.

(** One turn makes at most one call, and only for a reading whose [deviceId]
    is the token's. *)
Lemma bulk_item_calls (deviceId : jsval) (w : world) (r : reading) :
  exists new,
    store_log (fst (bulk_item backend deviceId w r)) = store_log w ++ new /\
    Forall (fun c => deviceId = JStr (rd_deviceId r) /\
                     exists ts, build_document (clock w) r = inr (sent c, ts)) new.
Proof.
  unfold bulk_item. destruct (strict_neq _ _) eqn:Hd.
  { exists []. now rewrite app_nil_r. }
  apply strict_neq_false in Hd.
  destruct (build_document _ _) as [e|[doc ts]] eqn:Hb.
  { exists []. now rewrite app_nil_r. }
  exists [StoreCall doc (backend w doc)]. split.
  - unfold createDocument. now destruct (outcome _).
  - repeat constructor; eauto.
Qed.

(** The two arrays of the loop are the failures and the successes of the
    trace, appended in order. *)
Lemma bulk_loop_trace (deviceId : jsval) (readings : list reading) (w : world)
    (results : list bulk_result) (errors : list bulk_error) :
  bulk_loop backend deviceId readings w results errors =
  (fst (bulk_trace backend deviceId readings w),
   results ++ successes (snd (bulk_trace backend deviceId readings w)),
   errors ++ failures (snd (bulk_trace backend deviceId readings w))).
Proof.
  revert w results errors.
  induction readings as [|r rest IH]; intros w results errors; simpl.
  - now rewrite !app_nil_r.
  - destruct (bulk_item backend deviceId w r) as [w' [ko|ok]];
      rewrite IH; destruct (bulk_trace backend deviceId rest w') as [w'' os];
      simpl; now rewrite <- ?app_assoc.
Qed.

(** Every reading is taken through the loop body, in input order. *)
Lemma bulk_trace_items (deviceId : jsval) (readings : list reading) (w : world) :
  Forall2 (fun r o => exists wi, o = snd (bulk_item backend deviceId wi r))
    readings (snd (bulk_trace backend deviceId readings w)).
Proof.
  revert w. induction readings as [|r rest IH]; intros w; simpl.
  - constructor.
  - destruct (bulk_item backend deviceId w r) as [w' o] eqn:Hi.
    specialize (IH w'). destruct (bulk_trace backend deviceId rest w') as [w'' os].
    simpl in *. constructor; [|assumption]. exists w. now rewrite Hi.
Qed.

Lemma outcomes_count (os : list (bulk_error + bulk_result)) :
  length (successes os) + length (failures os) = length os.
Proof.
  induction os as [|[e|ok] os IH]; simpl; [reflexivity | |]; unfold successes, failures in *;
    simpl; lia.
Qed.

Lemma failures_in_order (deviceId : jsval) (readings : list reading)
    (os : list (bulk_error + bulk_result)) :
  Forall2 (fun r o => exists wi, o = snd (bulk_item backend deviceId wi r)) readings os ->
  sublist (map be_reading (failures os)) readings /\
  sublist (map br_sensorType (successes os)) (map rd_sensorType readings).
Proof.
  induction 1 as [|r o rs os [wi ->] _ [IHf IHs]]; simpl.
  - split; constructor.
  - pose proof (bulk_item_outcome deviceId wi r) as Ho.
    unfold failures, successes in *.
    destruct (snd (bulk_item backend deviceId wi r)) as [e|ok]; simpl in *.
    + rewrite Ho. split; [now apply sublist_skip | now apply sublist_cons].
    + rewrite Ho. split; [now apply sublist_cons | now apply sublist_skip].
Qed.

(** The calls a batch makes: each hands over the document of a reading of the
    batch whose [deviceId] is the token's. *)
Lemma bulk_trace_calls (deviceId : jsval) (readings : list reading) (w : world) :
  exists new,
    store_log (fst (bulk_trace backend deviceId readings w)) = store_log w ++ new /\
    Forall (fun c => exists r now ts,
                r ∈ readings /\ deviceId = JStr (rd_deviceId r) /\
                build_document now r = inr (sent c, ts)) new.
Proof.
  revert w. induction readings as [|r rest IH]; intros w; simpl.
  - exists []. split; [now rewrite app_nil_r | constructor].
  - destruct (bulk_item_calls deviceId w r) as (new1 & Hlog1 & Hall1).
    destruct (bulk_item backend deviceId w r) as [w' o]. simpl in Hlog1.
    destruct (IH w') as (new2 & Hlog2 & Hall2).
    destruct (bulk_trace backend deviceId rest w') as [w'' os]. simpl in *.
    exists (new1 ++ new2). split.
    + now rewrite Hlog2, Hlog1, app_assoc.
    + apply Forall_app. split.
      * eapply Forall_impl; [exact Hall1|]. intros c (Hd & ts & Hb).
        exists r, (clock w), ts. split; [left | auto].
      * eapply Forall_impl; [exact Hall2|]. intros c (r' & now & ts & Hin & Hd & Hb).
        exists r', now, ts. split; [now right | auto].
Qed.

(** A reading with another [deviceId] ends among the failures. *)
Lemma bulk_trace_mismatch (deviceId : jsval) (readings : list reading) (w : world)
    (r : reading) :
  r ∈ readings ->
  deviceId <> JStr (rd_deviceId r) ->
  BulkError r "Device ID mismatch" ∈ failures (snd (bulk_trace backend deviceId readings w)).
Proof.
  intros Hin Hne. revert w.
  induction Hin as [r rest | r r' rest Hin IH]; intros w; simpl.
  - rewrite (bulk_item_mismatch deviceId w r Hne).
    destruct (bulk_trace backend deviceId rest w) as [w'' os]. simpl. left.
  - destruct (bulk_item backend deviceId w r') as [w' o].
    specialize (IH Hne w'). destruct (bulk_trace backend deviceId rest w') as [w'' os].
    simpl in *. unfold failures in *. destruct o; simpl; [now right | assumption].
Qed.

End Ingestion.

(** ** The batch schema *)

Section Batch.

Context `{RT : Runtime}.

Lemma joi_items_inv (path : list seg) (items : list jsval) :
  forall (i : nat) (rs : list reading),
    joi_items path i items = inr rs ->
    length rs = length items /\
    Forall (fun r => exists p fields, telemetry_object p fields = inr r) rs.
Proof.
  induction items as [|v rest IH]; intros i rs Hv; simpl in Hv.
  - injection Hv as <-. split; [reflexivity | constructor].
  - bind_split Hv as r Hr. bind_split Hv as rs' Hrs. injection Hv as <-.
    destruct (IH _ _ Hrs) as [Hlen Hall]. split; [simpl; now rewrite Hlen|].
    constructor; [|assumption].
    destruct v; try discriminate. eauto.
Qed.

(** A body that passes the batch schema holds between 1 and 100 readings, each
    of which passed [telemetrySchema], and no key besides [readings]. *)
Lemma bulkTelemetrySchema_inv (b : jsval) (readings : list reading) :
  bulkTelemetrySchema b = inr (Some readings) ->
  1 <= length readings <= 100 /\
  Forall (fun r => exists p fields, telemetry_object p fields = inr r) readings /\
  exists fields, b = JObj fields /\ unknown_key ["readings"] fields = None.
Proof.
  unfold bulkTelemetrySchema, joi_object. intros Hv.
  destruct b; try discriminate. bind_split Hv as rs Hrs. injection Hv as ->.
  bind_split Hrs as rs' Hread. bind_split Hrs as u Hunk. injection Hrs as ->.
  unfold joi_readings, required in Hread.
  destruct (assoc "readings" fields); try discriminate.
  bind_split Hread as rs'' Hitems.
  destruct (Nat.ltb_spec (length rs'') 1); [discriminate|].
  destruct (Nat.ltb_spec 100 (length rs'')); [discriminate|].
  injection Hread as ->.
  destruct (joi_items_inv _ _ _ _ Hitems) as [_ Hall].
  repeat split; try assumption; try lia.
  exists fields. split; [reflexivity|].
  unfold no_unknown in Hunk. now destruct (unknown_key _ _).
Qed.

(** A top-level key other than [readings] makes the schema refuse the body. *)
Lemma bulkTelemetrySchema_unknown_key (fields : list (string * jsval)) (k : string) :
  k ∈ fields.*1 -> k <> "readings" ->
  exists d, bulkTelemetrySchema (JObj fields) = inl d.
Proof.
  intros Hin Hne. unfold bulkTelemetrySchema, joi_object.
  destruct (joi_readings _ _) as [d|rs]; simpl; [eauto|].
  unfold no_unknown.
  destruct (unknown_key ["readings"] fields) as [k'|] eqn:Hk; simpl; [eauto|].
  exfalso. unfold unknown_key in Hk. apply head_None in Hk.
  assert (Hk' : k ∈ filter (fun k0 => k0 ∉ ["readings"]) fields.*1).
  { apply list_elem_of_filter. split; [|assumption]. now rewrite list_elem_of_singleton. }
  rewrite Hk in Hk'. now apply not_elem_of_nil in Hk'.
Qed.



End Batch.

(** ** The ingestion routes *)

Section Routes.

Context `{RT : Runtime}.
Variable env : config.
Variable backend : backend_t.

(** A batch that passed the schema is run through the loop to its end and
    answered with 201. *)
Lemma ingest_bulk_run (deviceId : jsval) (w : world) (b : jsval) (readings : list reading) :
  bulkTelemetrySchema b = inr (Some readings) ->
  let os := snd (bulk_trace backend deviceId readings w) in
  ingest_bulk backend deviceId w b =
    (fst (bulk_trace backend deviceId readings w),
     reply 201 (BulkBody true (length (successes os)) (length (failures os))
                  (successes os)
                  (if (0 <? length (failures os))%nat then Some (failures os) else None))).
Proof.
  intros Hv. cbv zeta. unfold ingest_bulk. rewrite Hv, bulk_loop_trace. reflexivity.
Qed.

Lemma post_ingest_bulk_authenticated (w : world) (req : request) (d : jsval) (e : option Z) :
  authenticateToken env w req = inr (d, e) ->
  post_ingest_bulk env backend w req = ingest_bulk backend d w (body req).
Proof. intros Ha. unfold post_ingest_bulk. now rewrite Ha. Qed.

Lemma bulk_trace_length (deviceId : jsval) (readings : list reading) (w : world) :
  length (snd (bulk_trace backend deviceId readings w)) = length readings.
Proof.
  symmetry. eapply Forall2_length. apply bulk_trace_items.
Qed.

(** C1. For a bulk request whose body passes the batch schema (1 to 100
    readings), every one of the N readings is taken through the loop body in
    input order, whatever happened to the readings before it; with K the number
    of readings that failed, the answer reports [processed = N - K] and
    [failed = K], and the successes and the failures each keep the order of the
    readings they came from. *)
Theorem bulk_failures_are_isolated (w : world) (req : request) (d : jsval)
    (e : option Z) (readings : list reading) :
  authenticateToken env w req = inr (d, e) ->
  bulkTelemetrySchema (body req) = inr (Some readings) ->
  let N := length readings in
  let os := snd (bulk_trace backend d readings w) in
  let K := length (failures os) in
  1 <= N <= 100 /\
  Forall2 (fun r o => exists wi, o = snd (bulk_item backend d wi r)) readings os /\
  post_ingest_bulk env backend w req =
    (fst (bulk_trace backend d readings w),
     reply 201 (BulkBody true (N - K) K (successes os)
                  (if (0 <? K)%nat then Some (failures os) else None))) /\
  sublist (map be_reading (failures os)) readings /\
  sublist (map br_sensorType (successes os)) (map rd_sensorType readings).
Proof.
  intros Ha Hv. cbv zeta.
  pose proof (bulk_trace_items backend d readings w) as Hitems.
  split; [apply (bulkTelemetrySchema_inv _ _ Hv)|].
  split; [assumption|]. split.
  - rewrite (post_ingest_bulk_authenticated w req d e Ha).
    rewrite (ingest_bulk_run d w (body req) readings Hv). cbv zeta.
    pose proof (outcomes_count (snd (bulk_trace backend d readings w))) as Hc.
    rewrite bulk_trace_length in Hc.
    replace (length readings - length (failures (snd (bulk_trace backend d readings w))))
      with (length (successes (snd (bulk_trace backend d readings w)))) by lia.
    reflexivity.
  - now apply (failures_in_order backend d).
Qed.

(** C9. A bulk request that passes the batch schema is always answered with
    status 201 and [success: true], with the two counts, even when every
    reading failed; the [errors] field is there exactly when at least one
    reading failed. *)
Theorem bulk_response_shape (w : world) (req : request) (d : jsval) (e : option Z)
    (readings : list reading) :
  authenticateToken env w req = inr (d, e) ->
  bulkTelemetrySchema (body req) = inr (Some readings) ->
  exists (results : list bulk_result) (errors : list bulk_error)
         (field : option (list bulk_error)),
    snd (post_ingest_bulk env backend w req) =
      reply 201 (BulkBody true (length results) (length errors) results field) /\
    length results + length errors = length readings /\
    (errors = [] -> field = None) /\
    (errors <> [] -> field = Some errors).
Proof.
  intros Ha Hv.
  rewrite (post_ingest_bulk_authenticated w req d e Ha).
  rewrite (ingest_bulk_run d w (body req) readings Hv). cbv zeta. simpl snd.
  set (os := snd (bulk_trace backend d readings w)).
  exists (successes os), (failures os),
    (if (0 <? length (failures os))%nat then Some (failures os) else None).
  split; [reflexivity|]. split.
  - unfold os. now rewrite outcomes_count, bulk_trace_length.
  - destruct (failures os); simpl; split; congruence.
Qed.


(** C2. A document is handed to the store only under the [deviceId] bound to
    the presented token, and it is the reading's own [deviceId]: on
    [POST /ingest] a reading with another [deviceId] is answered with 403
    DEVICE_ID_MISMATCH and the store is not called; on [POST /ingest/bulk]
    such a reading is listed among the errors with "Device ID mismatch" and no
    document is built from it. *)
Theorem store_only_sees_token_deviceId (w : world) (req : request) :
  (forall (w' : world) (resp : response),
     post_ingest env backend w req = (w', resp) ->
     Forall (fun c => exists r,
               telemetrySchema (body req) = inr (Some r) /\
               doc_deviceId (sent c) = rd_deviceId r /\
               bound_deviceId env w req = Some (JStr (doc_deviceId (sent c))))
       (calls_since w w') /\
     (forall d r,
        bound_deviceId env w req = Some d ->
        telemetrySchema (body req) = inr (Some r) ->
        d <> JStr (rd_deviceId r) ->
        w' = w /\ resp = reply 403 (ErrorBody "Device ID mismatch" "DEVICE_ID_MISMATCH"))) /\
  (forall (w' : world) (resp : response),
     post_ingest_bulk env backend w req = (w', resp) ->
     Forall (fun c => exists readings r now ts,
               bulkTelemetrySchema (body req) = inr (Some readings) /\
               r ∈ readings /\
               build_document now r = inr (sent c, ts) /\
               doc_deviceId (sent c) = rd_deviceId r /\
               bound_deviceId env w req = Some (JStr (doc_deviceId (sent c))))
       (calls_since w w') /\
     (forall d readings r,
        bound_deviceId env w req = Some d ->
        bulkTelemetrySchema (body req) = inr (Some readings) ->
        r ∈ readings ->
        d <> JStr (rd_deviceId r) ->
        (exists n results errors,
           resp = reply 201 (BulkBody true n (length errors) results (Some errors)) /\
           BulkError r "Device ID mismatch" ∈ errors) /\
        Forall (fun c => forall now ts, build_document now r <> inr (sent c, ts))
          (calls_since w w'))).
Proof.
  unfold bound_deviceId. split.
  - intros w' resp Hp. unfold post_ingest in Hp.
    destruct (authenticateToken env w req) as [r0|[d e]] eqn:Ha.
    { injection Hp as <- <-. split; [rewrite calls_since_refl; constructor|].
      intros d r [=]. }
    split.
    + destruct (ingest_inv backend d w _ w' resp Hp)
        as [[-> Hs] | (r & doc & ts & Hv & Hd & Hb & Hlog & _)].
      * rewrite calls_since_refl. constructor.
      * rewrite (calls_since_app w w' _ Hlog). repeat constructor.
        exists r. simpl.
        destruct (build_document_fields _ _ _ _ Hb) as (Hid & _).
        rewrite Hid. now subst d.
    + intros d' r [= <-] Hv Hne. unfold ingest in Hp. rewrite Hv in Hp.
      rewrite (proj2 (strict_neq_true (rd_deviceId r) d) Hne) in Hp.
      now injection Hp as <- <-.
  - intros w' resp Hp. unfold post_ingest_bulk in Hp.
    destruct (authenticateToken env w req) as [r0|[d e]] eqn:Ha.
    { injection Hp as <- <-. split; [rewrite calls_since_refl; constructor|].
      intros d readings r [=]. }
    destruct (bulkTelemetrySchema (body req)) as [det|[readings|]] eqn:Hv;
      try (unfold ingest_bulk in Hp; rewrite Hv in Hp; injection Hp as <- <-;
           split; [rewrite calls_since_refl; constructor | intros ? ? ? _ [=]]).
    rewrite (ingest_bulk_run d w (body req) readings Hv) in Hp. cbv zeta in Hp.
    injection Hp as <- <-.
    destruct (bulk_trace_calls backend d readings w) as (new & Hlog & Hall).
    rewrite (calls_since_app w _ _ Hlog).
    assert (Hsent : Forall (fun c => exists readings0 r now ts,
               @inr detail _ (Some readings) = inr (Some readings0) /\
               r ∈ readings0 /\
               build_document now r = inr (sent c, ts) /\
               doc_deviceId (sent c) = rd_deviceId r /\
               Some d = Some (JStr (doc_deviceId (sent c)))) new).
    { eapply Forall_impl; [exact Hall|]. intros c (r & now & ts & Hin & Hd & Hb).
      exists readings, r, now, ts.
      destruct (build_document_fields _ _ _ _ Hb) as (Hid & _).
      rewrite Hid. subst d. auto. }
    split; [exact Hsent|].
    intros d' readings' r [= <-] [= <-] Hin Hne. split.
    + pose proof (bulk_trace_mismatch backend d readings w r Hin Hne) as Hm.
      destruct (failures (snd (bulk_trace backend d readings w))) as [|e0 errs] eqn:Hf.
      { now apply not_elem_of_nil in Hm. }
      simpl. eexists _, _, (e0 :: errs). split; [reflexivity | assumption].
    + eapply Forall_impl; [exact Hsent|].
      intros c (rs0 & r' & now & ts & _ & _ & _ & Hid & [= Hd]) now' ts' Hb.
      destruct (build_document_fields _ _ _ _ Hb) as (Hid' & _).
      apply Hne. rewrite Hd. now rewrite Hid'.
Qed.

(** C5, as the code has it. A single-ingest request whose reading has a
    [sensorType] outside the enumeration never reaches the store, and, once
    [authenticateToken] has let it through, is answered with 400
    VALIDATION_ERROR. The one detail reported is that of the first key that
    does not validate: the one of [sensorType] when the [deviceId] before it
    is in order, and the one of [deviceId] otherwise. *)
Theorem invalid_sensorType_is_rejected (w : world) (req : request)
    (fields : list (string * jsval)) :
  body req = JObj fields ->
  (forall s, s ∈ allowedSensorTypes -> assoc "sensorType" fields <> JStr s) ->
  fst (post_ingest env backend w req) = w /\
  (forall d e,
     authenticateToken env w req = inr (d, e) ->
     exists det,
       snd (post_ingest env backend w req) =
         reply 400 (ValidationBody "Invalid telemetry data" [det] "VALIDATION_ERROR") /\
       (forall id,
          joi_deviceId [Key "deviceId"] (assoc "deviceId" fields) = inr id ->
          det = Detail [Key "sensorType"]
                  match assoc "sensorType" fields with
                  | JUndefined => "any.required"
                  | _ => "any.only"
                  end) /\
       (forall d0,
          joi_deviceId [Key "deviceId"] (assoc "deviceId" fields) = inl d0 ->
          det = d0)).
Proof.
  intros Hb Hout.
  pose proof (joi_sensorType_outside [Key "sensorType"] _ Hout) as Hs.
  destruct (telemetry_object_fails_sensorType [] fields _ Hs) as (det & Hobj & Hdet & Hdet').
  assert (Hv : telemetrySchema (body req) = inl det).
  { rewrite Hb. unfold telemetrySchema, joi_object. now rewrite Hobj. }
  unfold post_ingest.
  destruct (authenticateToken env w req) as [r0|[d e]]; [split; [reflexivity|]|].
  - intros d e [=].
  - unfold ingest. rewrite Hv. split; [reflexivity|].
    intros d' e' _. exists det. split; [reflexivity|]. split; [exact Hdet | exact Hdet'].
Qed.

Lemma telemetrySchema_inv (b : jsval) (r : reading) :
  telemetrySchema b = inr (Some r) ->
  exists fields, b = JObj fields /\ telemetry_object [] fields = inr r.
Proof.
  unfold telemetrySchema, joi_object. intros Hv.
  destruct b; try discriminate. bind_split Hv as r' Hr. injection Hv as ->. eauto.
Qed.

(** For a reading that passed the schema, [location || 'unknown'] is the
    reading-level value when there is one and ["unknown"] otherwise. *)
Lemma validated_location (p : list seg) (fields : list (string * jsval)) (r : reading) :
  telemetry_object p fields = inr r ->
  or_default (rd_location r) "unknown" = spec_location (rd_location r) None.
Proof.
  intros Hv. destruct (telemetry_object_inv _ _ _ Hv) as (_ & _ & _ & _ & _ & Hloc & _).
  destruct (rd_location r) as [l|] eqn:Hl; [|reflexivity]. simpl.
  now rewrite (eqb_empty_false _ (optional_string_nonempty _ _ _ Hloc)).
Qed.

(** The reading [POST /ingest] validates is the body itself: its location is
    the top-level location of the request. *)
Lemma single_request_location (fields : list (string * jsval)) (r : reading) :
  telemetry_object [] fields = inr r ->
  request_location (JObj fields) = rd_location r.
Proof.
  intros Hv. destruct (telemetry_object_inv _ _ _ Hv) as (_ & _ & _ & _ & _ & Hloc & _).
  unfold request_location. simpl. unfold optional, joi_string, broke in Hloc.
  destruct (assoc "location" fields); simpl in Hloc; try discriminate;
    try (now injection Hloc as <-).
  destruct (String.eqb s EmptyString); simpl in Hloc; [discriminate|].
  now injection Hloc as <-.
Qed.

(** A key that is not among the properties reads as [undefined]. *)
Lemma assoc_absent (k : string) (fields : list (string * jsval)) :
  k ∉ fields.*1 -> assoc k fields = JUndefined.
Proof.
  induction fields as [|[k' v] rest IH]; [reflexivity|]. simpl. intros Hk.
  apply not_elem_of_cons in Hk as [Hne Hrest].
  apply String.eqb_neq in Hne. rewrite Hne. now apply IH.
Qed.




(** C7. The location of every document handed to the store, by
    [POST /ingest] and by each turn of [POST /ingest/bulk], is the
    reading-level location when the reading has one, otherwise the
    request-level location (the top-level [location] of the body) when there
    is one, otherwise ["unknown"]. For [POST /ingest] the reading is the body,
    so the two levels are the same value; a bulk body that carries a top-level
    [location] is refused whole by the batch schema, so no document of a batch
    is ever built with a request-level location present. *)
Theorem location_follows_the_fallback_rule (d : jsval) (w : world) (b : jsval) :
  (forall (w' : world) (resp : response),
     ingest backend d w b = (w', resp) ->
     Forall (fun c => exists r,
               telemetrySchema b = inr (Some r) /\
               doc_location (sent c) = spec_location (rd_location r) (request_location b))
       (calls_since w w')) /\
  (forall (w' : world) (resp : response),
     ingest_bulk backend d w b = (w', resp) ->
     Forall (fun c => exists readings r now ts,
               bulkTelemetrySchema b = inr (Some readings) /\
               r ∈ readings /\
               build_document now r = inr (sent c, ts) /\
               doc_location (sent c) = spec_location (rd_location r) (request_location b))
       (calls_since w w')) /\
  (forall fields,
     b = JObj fields -> "location" ∈ fields.*1 ->
     exists det,
       ingest_bulk backend d w b =
         (w, reply 400 (ValidationBody "Invalid bulk telemetry data" [det]
                          "VALIDATION_ERROR"))).
Proof.
  split; [|split].
  - intros w' resp Hi.
    destruct (ingest_inv backend d w b w' resp Hi)
      as [[-> _] | (r & doc & ts & Hv & _ & Hb & Hlog & _)].
    { rewrite calls_since_refl. constructor. }
    rewrite (calls_since_app w w' _ Hlog). repeat constructor. exists r. simpl.
    split; [assumption|].
    destruct (build_document_fields _ _ _ _ Hb) as (_ & _ & _ & _ & Hloc & _).
    destruct (telemetrySchema_inv _ _ Hv) as (f & -> & Hobj).
    rewrite Hloc, (validated_location _ _ _ Hobj), (single_request_location _ _ Hobj).
    now destruct (rd_location r).
  - intros w' resp Hi.
    destruct (bulkTelemetrySchema b) as [det|[readings|]] eqn:Hv;
      try (unfold ingest_bulk in Hi; rewrite Hv in Hi; injection Hi as <- <-;
           rewrite calls_since_refl; constructor).
    rewrite (ingest_bulk_run d w b readings Hv) in Hi. cbv zeta in Hi.
    injection Hi as <- <-.
    destruct (bulk_trace_calls backend d readings w) as (new & Hlog & Hall).
    rewrite (calls_since_app w _ _ Hlog).
    assert (Hreq : request_location b = None).
    { destruct b as [| | | | | |fields]; try reflexivity.
      destruct (bool_decide ("location" ∈ fields.*1)) eqn:Hin.
      - apply bool_decide_eq_true_1 in Hin.
        destruct (bulkTelemetrySchema_unknown_key fields "location" Hin) as [det Hv'];
          [discriminate|]. congruence.
      - apply bool_decide_eq_false_1 in Hin.
        unfold request_location. simpl. now rewrite (assoc_absent _ _ Hin). }
    destruct (bulkTelemetrySchema_inv _ _ Hv) as (_ & Hvalid & _).
    eapply Forall_impl; [exact Hall|]. intros c (r & now & ts & Hin & _ & Hb).
    exists readings, r, now, ts. repeat split; try assumption.
    destruct (build_document_fields _ _ _ _ Hb) as (_ & _ & _ & _ & Hloc & _).
    rewrite Forall_forall in Hvalid. destruct (Hvalid r Hin) as (p & f & Hobj).
    now rewrite Hloc, (validated_location _ _ _ Hobj), Hreq.
  - intros fields -> Hin.
    destruct (bulkTelemetrySchema_unknown_key fields "location" Hin) as [det Hv];
      [discriminate|].
    exists det. unfold ingest_bulk. now rewrite Hv.
Qed.

End Routes.

(** ** Closed instances *)

Lemma sample_can_sign : can_sign sample_env "s3cret" 900000.
Proof. unfold can_sign. simpl. repeat split. discriminate. Defined.

Lemma issue_verify_roundtrip_witness :
  can_sign sample_env "s3cret" 900000 /\
  "esp-1" <> EmptyString /\
  prop "deviceId" (body token_request) = JStr "esp-1" /\
  prop "deviceSecret" (body token_request)
    = JStr (expectedSecret (RT := sample_runtime) sample_env (JStr "esp-1")) /\
  exists token,
    post_auth_token (RT := sample_runtime) sample_env w0 token_request
      = reply 200 (TokenBody token 900 "Bearer") /\
    authenticateToken sample_env w_5min (Request (bearer token) JUndefined)
      = inr (JStr "esp-1", Some 1700000900%Z).
Proof.
  assert (H1 : can_sign sample_env "s3cret" 900000) by exact sample_can_sign.
  assert (H2 : "esp-1" <> EmptyString) by discriminate.
  assert (H3 : prop "deviceId" (body token_request) = JStr "esp-1") by reflexivity.
  assert (H4 : prop "deviceSecret" (body token_request)
               = JStr (expectedSecret (RT := sample_runtime) sample_env (JStr "esp-1")))
    by reflexivity.
  repeat (split; [assumption|]).
  destruct (issue_verify_roundtrip (RT := sample_runtime) sample_env w0 token_request
              "s3cret" 900000 "esp-1" H1 H2 H3 H4) as (token & Hissue & Hverify).
  exists token. split; [exact Hissue|].
  apply (Hverify w_5min (Text "Bearer") [] JUndefined). reflexivity.
Defined.

Lemma token_issuance_iff_credentials_witness :
  can_sign sample_env "s3cret" 900000 /\
  (exists token, post_auth_token (RT := sample_runtime) sample_env w0 token_request
                 = reply 200 (TokenBody token 900 "Bearer")) /\
  post_auth_token (RT := sample_runtime) sample_env w0 wrong_secret_request
    = invalid_credentials /\
  post_auth_token (RT := sample_runtime) sample_env w0 (Request None (JObj []))
    = missing_credentials /\
  post_auth_token (RT := sample_runtime) sample_env w0 unconvertible_request
    = token_generation_error.
Proof.
  split; [exact sample_can_sign|]. split; [|split; [|split]].
  - apply (token_issuance_iff_credentials (RT := sample_runtime) sample_env w0
             token_request) with (key := "s3cret") (ms := 900000%Z);
      [exact sample_can_sign | repeat split].
  - apply (token_issuance_iff_credentials (RT := sample_runtime) sample_env w0
             wrong_secret_request); [reflexivity | reflexivity | reflexivity | discriminate].
  - apply (token_issuance_iff_credentials (RT := sample_runtime) sample_env w0
             (Request None (JObj []))).
    left. reflexivity.
  - apply (token_issuance_iff_credentials (RT := sample_runtime) sample_env w0
             unconvertible_request); reflexivity.
Defined.

(** C4 as stated fails: a [deviceId] that is an object with a [toString]
    property of its own is non-empty, and so is the secret sent with it, yet
    the answer is neither a token nor the invalid-credentials error: the
    concatenation [prefix + deviceId] throws and the request is answered with
    500 TOKEN_GENERATION_ERROR. *)
Lemma unconvertible_deviceId_is_a_server_error :
  truthy (prop "deviceId" (body unconvertible_request)) = true /\
  truthy (prop "deviceSecret" (body unconvertible_request)) = true /\
  post_auth_token (RT := sample_runtime) sample_env w0 unconvertible_request
    = reply 500 (ErrorBody "Internal server error" "TOKEN_GENERATION_ERROR") /\
  post_auth_token (RT := sample_runtime) sample_env w0 unconvertible_request
    <> invalid_credentials.
Proof. repeat split. discriminate. Qed.

Lemma verification_failure_classes_witness :
  presented (Request (bearer esp1_token) JUndefined) = Some esp1_token /\
  expired (clock w_20min / 1000) esp1_token /\
  authenticateToken sample_env w_20min (Request (bearer esp1_token) JUndefined)
    = inl invalid_token /\
  ~ signature_verifies env_1h (Jws (Claims (JStr "esp-1") "device" 1700000000 None) "forged") /\
  authenticateToken env_1h w0
    (Request (bearer (Jws (Claims (JStr "esp-1") "device" 1700000000 None) "forged")) JUndefined)
    = inl invalid_token /\
  authenticateToken sample_env w0 (Request None JUndefined) = inl missing_token.
Proof.
  assert (H1 : presented (Request (bearer esp1_token) JUndefined) = Some esp1_token)
    by reflexivity.
  assert (H2 : expired (clock w_20min / 1000) esp1_token).
  { eexists _, _, _. split; [reflexivity|]. split; [reflexivity|]. discriminate. }
  assert (H3 : ~ signature_verifies env_1h
                 (Jws (Claims (JStr "esp-1") "device" 1700000000 None) "forged")).
  { intros (c & key & [= <- <-] & [=] & _). }
  split; [exact H1|]. split; [exact H2|]. split; [|split; [exact H3|split]].
  - apply (verification_failure_classes sample_env w_20min
             (Request (bearer esp1_token) JUndefined)) with (t := esp1_token);
      [exact H1 | discriminate | left; exact H2].
  - eapply (verification_failure_classes env_1h w0);
      [reflexivity | discriminate | right; exact H3].
  - apply (verification_failure_classes sample_env w0 (Request None JUndefined)).
    left. reflexivity.
Defined.

Lemma expiresIn_is_constant_900_witness :
  status (post_auth_token (RT := sample_runtime) env_1h w0 token_request) = 200%nat /\
  exists c key,
    post_auth_token (RT := sample_runtime) env_1h w0 token_request
      = reply 200 (TokenBody (Jws c key) 900 "Bearer") /\
    tok_exp c = Some (tok_iat c + 3600)%Z /\
    tok_exp c <> Some (tok_iat c + 900)%Z.
Proof.
  assert (H1 : status (post_auth_token (RT := sample_runtime) env_1h w0 token_request)
               = 200%nat) by reflexivity.
  split; [exact H1|].
  destruct (expiresIn_is_constant_900 (RT := sample_runtime) env_1h w0 token_request H1)
    as (c & key & ms & Heq & Hms & Hexp & Hne).
  injection Hms as <-.
  exists c, key. split; [exact Heq|]. split; [exact Hexp|].
  apply Hne. discriminate.
Defined.

Lemma batch_authenticated :
  authenticateToken sample_env w0 batch_request = inr (JStr "esp-1", Some 1700000900%Z).
Proof. reflexivity. Defined.

Lemma batch_validated :
  bulkTelemetrySchema (RT := sample_runtime) (body batch_request) = inr (Some batch_readings).
Proof. reflexivity. Defined.

Lemma bulk_failures_are_isolated_witness :
  authenticateToken sample_env w0 batch_request = inr (JStr "esp-1", Some 1700000900%Z) /\
  bulkTelemetrySchema (RT := sample_runtime) (body batch_request)
    = inr (Some batch_readings) /\
  exists w' results errors,
    post_ingest_bulk (RT := sample_runtime) sample_env flaky w0 batch_request
      = (w', reply 201 (BulkBody true 2 2 results (Some errors))) /\
    map be_reading errors = [plain_reading "esp-2" None; plain_reading "esp-1" None] /\
    map be_error errors = ["Device ID mismatch"; "Service unavailable"] /\
    map br_documentId results = ["doc-00"; "doc-02"].
Proof.
  split; [exact batch_authenticated|]. split; [exact batch_validated|].
  destruct (bulk_failures_are_isolated (RT := sample_runtime) sample_env flaky w0
              batch_request _ _ batch_readings batch_authenticated batch_validated)
    as (_ & _ & Hresp & _).
  eexists _, _, _. split; [exact Hresp|]. repeat split.
Defined.

Lemma bulk_response_shape_witness :
  authenticateToken sample_env w0 batch_request = inr (JStr "esp-1", Some 1700000900%Z) /\
  bulkTelemetrySchema (RT := sample_runtime) (body batch_request)
    = inr (Some batch_readings) /\
  exists results errors,
    snd (post_ingest_bulk (RT := sample_runtime) sample_env flaky w0 batch_request)
      = reply 201 (BulkBody true (length results) (length errors) results (Some errors)) /\
    length results + length errors = 4.
Proof.
  split; [exact batch_authenticated|]. split; [exact batch_validated|].
  destruct (bulk_response_shape (RT := sample_runtime) sample_env flaky w0
              batch_request _ _ batch_readings batch_authenticated batch_validated)
    as (results & errors & field & Hresp & Hlen & Hnone & Hsome).
  exists results, errors.
  destruct errors as [|e errors].
  - exfalso. specialize (Hnone eq_refl). subst field. discriminate Hresp.
  - rewrite (Hsome ltac:(discriminate)) in Hresp. split; [exact Hresp | exact Hlen].
Defined.

(** A batch in which every reading fails is still answered with 201. *)
Example all_readings_failed_still_201 :
  post_ingest_bulk (RT := sample_runtime) sample_env accepting w0
    (Request (bearer esp1_token)
       (JObj [("readings", JArr [reading_json "esp-2" []; reading_json "esp-3" []])]))
  = (w0, reply 201 (BulkBody true 0 2 []
                      (Some [BulkError (plain_reading "esp-2" None) "Device ID mismatch";
                             BulkError (plain_reading "esp-3" None) "Device ID mismatch"]))).
Proof. reflexivity. Qed.

(** A batch without a failure has no [errors] field. *)
Example clean_batch_has_no_errors_field :
  snd (post_ingest_bulk (RT := sample_runtime) sample_env accepting w0
         (Request (bearer esp1_token)
            (JObj [("readings", JArr [reading_json "esp-1" []])])))
  = reply 201 (BulkBody true 1 0
                 [BulkResult "doc-00" "2023-11-14T22:13:20.000Z" "temperature"] None).
Proof. reflexivity. Qed.

Lemma store_only_sees_token_deviceId_witness :
  (let req := Request (bearer esp1_token) (reading_json "esp-2" []) in
   bound_deviceId (RT := sample_runtime) sample_env w0 req = Some (JStr "esp-1") /\
   telemetrySchema (RT := sample_runtime) (body req)
     = inr (Some (plain_reading "esp-2" None)) /\
   post_ingest (RT := sample_runtime) sample_env accepting w0 req
     = (w0, reply 403 (ErrorBody "Device ID mismatch" "DEVICE_ID_MISMATCH"))) /\
  (let out := post_ingest_bulk (RT := sample_runtime) sample_env flaky w0 batch_request in
   Forall (fun c => doc_deviceId (sent c) = "esp-1") (calls_since w0 (fst out)) /\
   length (calls_since w0 (fst out)) = 3 /\
   exists n results errors,
     snd out = reply 201 (BulkBody true n (length errors) results (Some errors)) /\
     BulkError (plain_reading "esp-2" None) "Device ID mismatch" ∈ errors).
Proof.
  split; cbv zeta.
  - assert (H1 : bound_deviceId (RT := sample_runtime) sample_env w0
                   (Request (bearer esp1_token) (reading_json "esp-2" []))
                 = Some (JStr "esp-1")) by reflexivity.
    assert (H2 : telemetrySchema (RT := sample_runtime)
                   (body (Request (bearer esp1_token) (reading_json "esp-2" [])))
                 = inr (Some (plain_reading "esp-2" None))) by reflexivity.
    split; [exact H1|]. split; [exact H2|].
    destruct (store_only_sees_token_deviceId (RT := sample_runtime) sample_env accepting w0
                (Request (bearer esp1_token) (reading_json "esp-2" []))) as [Hsingle _].
    destruct (Hsingle _ _ (surjective_pairing _)) as [_ Hmis].
    destruct (Hmis _ _ H1 H2 ltac:(discriminate)) as [Hw Hr].
    rewrite (surjective_pairing (post_ingest _ _ _ _)). now rewrite Hw, Hr.
  - destruct (store_only_sees_token_deviceId (RT := sample_runtime) sample_env flaky w0
                batch_request) as [_ Hbulk].
    destruct (Hbulk _ _ (surjective_pairing _)) as [Hsent Hmis].
    split; [|split; [reflexivity|]].
    + eapply Forall_impl; [exact Hsent|].
      intros c (_ & _ & _ & _ & _ & _ & _ & _ & [= Hd]). now symmetry.
    + apply (Hmis (JStr "esp-1") batch_readings (plain_reading "esp-2" None));
        [reflexivity | exact batch_validated | right; left | discriminate].
Defined.

Lemma voltage_not_allowed (s : string) :
  s ∈ allowedSensorTypes -> JStr "voltage" <> JStr s.
Proof.
  intros Hin [= <-]. revert Hin.
  now apply (proj1 (bool_decide_eq_false ("voltage" ∈ allowedSensorTypes))).
Defined.

Lemma invalid_sensorType_is_rejected_witness :
  let req := Request (bearer esp1_token)
               (JObj [("deviceId", JStr "esp-1"); ("sensorType", JStr "voltage");
                      ("value", JNum (inject_Z 5))]) in
  (forall s, s ∈ allowedSensorTypes -> JStr "voltage" <> JStr s) /\
  fst (post_ingest (RT := sample_runtime) sample_env accepting w0 req) = w0 /\
  snd (post_ingest (RT := sample_runtime) sample_env accepting w0 req)
    = reply 400 (ValidationBody "Invalid telemetry data"
                   [Detail [Key "sensorType"] "any.only"] "VALIDATION_ERROR").
Proof.
  cbv zeta. split; [exact voltage_not_allowed|].
  destruct (invalid_sensorType_is_rejected (RT := sample_runtime) sample_env accepting w0
              (Request (bearer esp1_token)
                 (JObj [("deviceId", JStr "esp-1"); ("sensorType", JStr "voltage");
                        ("value", JNum (inject_Z 5))])) _ eq_refl voltage_not_allowed)
    as [Hstore Hresp].
  split; [exact Hstore|].
  destruct (Hresp _ _ eq_refl) as (det & Heq & Hdet & _).
  rewrite Heq. now rewrite (Hdet "esp-1" eq_refl).
Defined.

(** C5 as stated fails: a reading with the sensor type [voltage] and no
    [deviceId] is refused, but the validation error it is answered with is the
    one of the missing [deviceId], not one for the invalid sensor type. *)
Lemma missing_deviceId_hides_the_sensorType :
  post_ingest (RT := sample_runtime) sample_env accepting w0
    (Request (bearer esp1_token)
       (JObj [("sensorType", JStr "voltage"); ("value", JNum (inject_Z 5))]))
  = (w0, reply 400 (ValidationBody "Invalid telemetry data"
                      [Detail [Key "deviceId"] "any.required"]
                      "VALIDATION_ERROR")).
Proof. reflexivity. Qed.




Lemma location_follows_the_fallback_rule_witness :
  (let out := ingest (RT := sample_runtime) accepting (JStr "esp-1") w0
                (reading_json "esp-1" [("location", JStr "roof")]) in
   map (fun c => doc_location (sent c)) (calls_since w0 (fst out)) = ["roof"]) /\
  (let out := ingest_bulk (RT := sample_runtime) flaky (JStr "esp-1") w0
                (body batch_request) in
   Forall (fun c => doc_location (sent c) = "unknown" \/ doc_location (sent c) = "roof")
     (calls_since w0 (fst out)) /\
   length (calls_since w0 (fst out)) = 3) /\
  (exists det,
     ingest_bulk (RT := sample_runtime) accepting (JStr "esp-1") w0
       (JObj [("readings", JArr [reading_json "esp-1" []]); ("location", JStr "plant-3")])
     = (w0, reply 400 (ValidationBody "Invalid bulk telemetry data" [det]
                         "VALIDATION_ERROR"))).
Proof.
  cbv zeta. split; [|split].
  - destruct (location_follows_the_fallback_rule (RT := sample_runtime) accepting
                (JStr "esp-1") w0 (reading_json "esp-1" [("location", JStr "roof")]))
      as (Hsingle & _).
    specialize (Hsingle _ _ (surjective_pairing _)).
    inversion Hsingle as [|c cs (r & Hv & Hloc) Hrest Hcalls].
    injection Hv as <-. reflexivity.
  - destruct (location_follows_the_fallback_rule (RT := sample_runtime) flaky
                (JStr "esp-1") w0 (body batch_request)) as (_ & Hbulk & _).
    specialize (Hbulk _ _ (surjective_pairing _)).
    split; [|reflexivity].
    eapply Forall_impl; [exact Hbulk|].
    intros c (rs & r & now & ts & [= <-] & Hin & _ & Hloc). rewrite Hloc.
    repeat (apply elem_of_cons in Hin as [->|Hin]; [simpl; auto|]).
    now apply not_elem_of_nil in Hin.
  - apply (location_follows_the_fallback_rule (RT := sample_runtime) accepting
             (JStr "esp-1") w0 _) with
      (fields := [("readings", JArr [reading_json "esp-1" []]); ("location", JStr "plant-3")]);
      [reflexivity | right; left].
Defined.

(** * Further properties of [src/index.js] *)

(** ** The schema does not look at where a value sits *)

Ltac split_matches :=
  repeat match goal with
         | |- context [match ?x with _ => _ end] => destruct x eqn:?; simpl
         end.

Section PathFree.

Context `{RT : Runtime}.

Lemma joi_number_path_free (p p' : list seg) (v : jsval) (q : Q) :
  joi_number p v = inr q -> joi_number p' v = inr q.
Proof. unfold joi_number, broke. split_matches; congruence. Qed.

Lemma joi_string_path_free (p p' : list seg) (v : jsval) (s : string) :
  joi_string p v = inr s -> joi_string p' v = inr s.
Proof. unfold joi_string, broke. split_matches; congruence. Qed.

Lemma optional_string_path_free (p p' : list seg) (v : jsval) (o : option string) :
  optional joi_string p v = inr o -> optional joi_string p' v = inr o.
Proof.
  unfold optional. destruct v; try congruence; intros Hv;
    bind_split Hv as x Hx; injection Hv as <-;
    now rewrite (joi_string_path_free p p' _ _ Hx).
Qed.

Lemma joi_deviceId_path_free (p p' : list seg) (v : jsval) (s : string) :
  joi_deviceId p v = inr s -> joi_deviceId p' v = inr s.
Proof.
  unfold joi_deviceId, required. destruct v; try discriminate; intros Hv;
    bind_split Hv as x Hx; rewrite (joi_string_path_free p p' _ _ Hx); simpl;
    revert Hv; unfold broke; split_matches; congruence.
Qed.

Lemma joi_sensorType_path_free (p p' : list seg) (v : jsval) (s : string) :
  joi_sensorType p v = inr s -> joi_sensorType p' v = inr s.
Proof. unfold joi_sensorType, required, broke. split_matches; congruence. Qed.

Lemma joi_value_path_free (p p' : list seg) (v : jsval) (q : Q) :
  joi_value p v = inr q -> joi_value p' v = inr q.
Proof.
  unfold joi_value, required. destruct v; try discriminate; intros Hv;
    bind_split Hv as x Hx; rewrite (joi_number_path_free p p' _ _ Hx); simpl;
    revert Hv; unfold broke; split_matches; congruence.
Qed.

Lemma joi_timestamp_path_free (p p' : list seg) (v : jsval) (t : option timestamp_value) :
  joi_timestamp p v = inr t -> joi_timestamp p' v = inr t.
Proof.
  assert (Halt : forall a, timestamp_alternatives p v = inr a ->
                           timestamp_alternatives p' v = inr a).
  { intros a. unfold timestamp_alternatives.
    destruct (joi_isoDate p v) as [first|iso] eqn:Hiso.
    - destruct (joi_isoDate p' v) as [first'|iso'] eqn:Hiso'.
      + destruct (joi_positive p v) as [second|q] eqn:Hq; [discriminate|].
        unfold joi_positive in *.
        destruct (joi_number p v) as [d|q0] eqn:Hn; [discriminate|].
        rewrite (joi_number_path_free p p' _ _ Hn). simpl in *.
        destruct (negb (Qle_bool q0 0)); [congruence|discriminate].
      + apply joi_isoDate_passes in Hiso'. apply (joi_isoDate_passes p) in Hiso'.
        congruence.
    - apply joi_isoDate_passes in Hiso. apply (joi_isoDate_passes p') in Hiso.
      now rewrite Hiso. }
  unfold joi_timestamp, optional. destruct v; try congruence; intros Hv;
    bind_split Hv as x Hx; injection Hv as <-; now rewrite (Halt _ Hx).
Qed.

Lemma joi_metadata_path_free (p p' : list seg) (v : jsval)
    (m : option (list (string * jsval))) :
  joi_metadata p v = inr m -> joi_metadata p' v = inr m.
Proof. unfold joi_metadata, optional, broke. destruct v; simpl; congruence. Qed.

(** An object passes [telemetrySchema] at one place exactly when it passes at
    any other, with the same validated reading. *)
Lemma telemetry_object_path_free (p p' : list seg) (fields : list (string * jsval))
    (r : reading) :
  telemetry_object p fields = inr r -> telemetry_object p' fields = inr r.
Proof.
  intros Hv.
  destruct (telemetry_object_inv _ _ _ Hv) as (H1 & H2 & H3 & H4 & H5 & H6 & H7 & H8).
  unfold telemetry_object. simpl.
  rewrite (joi_deviceId_path_free _ (p' ++ [Key "deviceId"]) _ _ H1). simpl.
  rewrite (joi_sensorType_path_free _ (p' ++ [Key "sensorType"]) _ _ H2). simpl.
  rewrite (joi_value_path_free _ (p' ++ [Key "value"]) _ _ H3). simpl.
  rewrite (optional_string_path_free _ (p' ++ [Key "unit"]) _ _ H4). simpl.
  rewrite (joi_timestamp_path_free _ (p' ++ [Key "timestamp"]) _ _ H5). simpl.
  rewrite (optional_string_path_free _ (p' ++ [Key "location"]) _ _ H6). simpl.
  rewrite (joi_metadata_path_free _ (p' ++ [Key "metadata"]) _ _ H7). simpl.
  unfold no_unknown. rewrite H8. simpl. now destruct r.
Qed.

End PathFree.

(** ** What a validated reading and its document look like *)

Lemma append_nonempty_r (s t : string) : t <> EmptyString -> (s ++ t)%string <> EmptyString.
Proof. destruct s; simpl; [tauto | discriminate]. Qed.

Lemma iso_format_nonempty (ms : Z) : iso_format ms <> EmptyString.
Proof.
  unfold iso_format. destruct (civil _) as [[y m] d].
  repeat (apply append_nonempty_r). discriminate.
Qed.

Lemma getUnit_allowed (s : string) :
  s ∈ allowedSensorTypes ->
  getUnit s ∈ unitTable /\ getUnit s <> "unit" /\ getUnit s <> EmptyString.
Proof.
  unfold allowedSensorTypes. intros Hin.
  repeat (apply elem_of_cons in Hin as [->|Hin];
          [split; [match goal with
                   | |- ?P => apply (bool_decide_eq_true_1 P); reflexivity
                   end
                  | split; vm_compute; discriminate]|]).
  now apply not_elem_of_nil in Hin.
Qed.

Section Validated.

Context `{RT : Runtime}.

Lemma joi_value_bounds (p : list seg) (v : jsval) (q : Q) :
  joi_value p v = inr q -> (inject_Z (-1000) <= q)%Q /\ (q <= inject_Z 10000)%Q.
Proof.
  unfold joi_value, required. intros Hv.
  assert (Hb : sum_bind (joi_number p v)
                 (fun q0 => if negb (Qle_bool (inject_Z (-1000)) q0)
                            then broke p "number.min"
                            else if negb (Qle_bool q0 (inject_Z 10000))
                                 then broke p "number.max" else inr q0) = inr q)
    by (destruct v; try discriminate; exact Hv).
  bind_split Hb as x Hx.
  destruct (Qle_bool (inject_Z (-1000)) x) eqn:Hlo; [|discriminate].
  destruct (Qle_bool x (inject_Z 10000)) eqn:Hhi; [|discriminate].
  injection Hb as <-. split; now apply Qle_bool_iff.
Qed.

Lemma joi_deviceId_length (p : list seg) (v : jsval) (s : string) :
  joi_deviceId p v = inr s -> (1 <= utf16_length s <= 100)%nat.
Proof.
  unfold joi_deviceId, required. intros Hv.
  assert (Hb : sum_bind (joi_string p v)
                 (fun s0 => if (utf16_length s0 <? 1)%nat then broke p "string.min"
                            else if (100 <? utf16_length s0)%nat
                                 then broke p "string.max" else inr s0) = inr s)
    by (destruct v; try discriminate; exact Hv).
  bind_split Hb as x Hx.
  destruct (Nat.ltb_spec (utf16_length x) 1); [discriminate|].
  destruct (Nat.ltb_spec 100 (utf16_length x)); [discriminate|].
  injection Hb as <-. lia.
Qed.

Lemma joi_sensorType_allowed (p : list seg) (v : jsval) (s : string) :
  joi_sensorType p v = inr s -> v = JStr s /\ s ∈ allowedSensorTypes.
Proof.
  unfold joi_sensorType, required, broke. destruct v; try discriminate.
  destruct (bool_decide _) eqn:Hin; [|discriminate].
  intros [= <-]. split; [reflexivity | now apply bool_decide_eq_true in Hin].
Qed.

Lemma optional_string_inv (p : list seg) (v : jsval) (o : option string) :
  optional joi_string p v = inr o ->
  (v = JUndefined /\ o = None) \/
  (exists s, v = JStr s /\ o = Some s /\ s <> EmptyString).
Proof.
  unfold optional, joi_string, broke. destruct v; simpl; try discriminate.
  - intros [= <-]. now left.
  - destruct (String.eqb s EmptyString) eqn:E; simpl; [discriminate|].
    intros [= <-]. right. exists s. apply String.eqb_neq in E. auto.
Qed.

(** The shared block, run on a reading that passed the schema, cannot throw
    for any reason but the date range, and what it builds is well formed. *)
Lemma validated_document_well_formed (p : list seg) (fields : list (string * jsval))
    (r : reading) (now : Z) (doc : document) (ts : string) :
  telemetry_object p fields = inr r ->
  build_document now r = inr (doc, ts) ->
  well_formed_document doc.
Proof.
  intros Hobj Hb.
  destruct (telemetry_object_inv _ _ _ Hobj) as (Hid & Hty & Hval & Hunit & Hts & Hloc & _).
  destruct (joi_value_bounds _ _ _ Hval) as [Hlo Hhi].
  destruct (joi_sensorType_allowed _ _ _ Hty) as [_ Hin].
  pose proof (joi_deviceId_length _ _ _ Hid) as Hlen.
  destruct (getUnit_allowed _ Hin) as (_ & _ & Hune).
  unfold build_document in Hb. bind_split Hb as t Ht. injection Hb as <- <-.
  unfold well_formed_document. simpl.
  repeat (split; [assumption|]). split; [|split; [|split; [|reflexivity]]].
  - destruct (optional_string_inv _ _ _ Hunit) as [[_ ->] | (s & _ & -> & Hs)]; simpl;
      [assumption | now rewrite (eqb_empty_false _ Hs)].
  - destruct (rd_timestamp r) as [[s|q]|]; simpl in Ht.
    + destruct (String.eqb s EmptyString) eqn:E; injection Ht as <-;
        [apply iso_format_nonempty | now apply String.eqb_neq in E].
    + unfold toISOString in Ht. destruct (new_Date _); [|discriminate].
      injection Ht as <-. apply iso_format_nonempty.
    + injection Ht as <-. apply iso_format_nonempty.
  - destruct (optional_string_inv _ _ _ Hloc) as [[_ ->] | (s & _ & -> & Hs)]; simpl;
      [discriminate | now rewrite (eqb_empty_false _ Hs)].
Qed.

End Validated.

Section Provenance.

Context `{RT : Runtime}.
Variable env : config.
Variable backend : backend_t.

(** Whatever reaches the store was built by the shared block from a reading
    that passed [telemetrySchema]. *)
Lemma handed_over_validated (w : world) (req : request) (doc : document) :
  handed_over env backend w req doc ->
  exists p fields r now ts,
    telemetry_object p fields = inr r /\ build_document now r = inr (doc, ts).
Proof.
  intros (c & <- & [Hin | Hin]).
  - unfold post_ingest in Hin.
    destruct (authenticateToken env w req) as [r0|[d e]].
    { simpl in Hin. rewrite calls_since_refl in Hin. now apply not_elem_of_nil in Hin. }
    destruct (ingest_inv backend d w (body req) _ _ (surjective_pairing _))
      as [[Hw _] | (r & doc & ts & Hv & _ & Hb & Hlog & _)].
    + rewrite Hw, calls_since_refl in Hin. now apply not_elem_of_nil in Hin.
    + rewrite (calls_since_app w _ _ Hlog) in Hin.
      apply list_elem_of_singleton in Hin. subst c. simpl.
      destruct (telemetrySchema_inv _ _ Hv) as (f & _ & Hobj). eauto 8.
  - unfold post_ingest_bulk in Hin.
    destruct (authenticateToken env w req) as [r0|[d e]].
    { simpl in Hin. rewrite calls_since_refl in Hin. now apply not_elem_of_nil in Hin. }
    destruct (bulkTelemetrySchema (body req)) as [det|[readings|]] eqn:Hv;
      try (unfold ingest_bulk in Hin; rewrite Hv in Hin; simpl in Hin;
           rewrite calls_since_refl in Hin; now apply not_elem_of_nil in Hin).
    rewrite (ingest_bulk_run backend d w (body req) readings Hv) in Hin.
    cbv zeta in Hin. simpl fst in Hin.
    destruct (bulk_trace_calls backend d readings w) as (new & Hlog & Hall).
    rewrite (calls_since_app w _ _ Hlog) in Hin.
    rewrite Forall_forall in Hall. destruct (Hall c Hin) as (r & now & ts & Hr & _ & Hb).
    destruct (bulkTelemetrySchema_inv _ _ Hv) as (_ & Hvalid & _).
    rewrite Forall_forall in Hvalid. destruct (Hvalid r Hr) as (p & f & Hobj). eauto 8.
Qed.

(** X2. Every document either ingestion route hands to the store respects the
    bounds of the schema and the constants of the handlers: a value between
    -1000 and 10000, one of the eight sensor types, a [deviceId] of 1 to 100
    UTF-16 code units (JavaScript's [length], which is what joi measures), a
    unit, a timestamp and a location that are not empty, and [isAnomalous]
    false. *)
Theorem handed_over_documents_are_well_formed (w : world) (req : request)
    (doc : document) :
  handed_over env backend w req doc -> well_formed_document doc.
Proof.
  intros Hdoc.
  destruct (handed_over_validated w req doc Hdoc) as (p & f & r & now & ts & Hobj & Hb).
  exact (validated_document_well_formed p f r now doc ts Hobj Hb).
Qed.

End Provenance.

Section Units.

Context `{RT : Runtime}.

(** X1. The unit stored for a reading that passed the schema is the caller's
    [unit] when the reading has one, and otherwise the entry of the [units]
    table for its sensor type: the fallback ['unit'] of [getUnit] is never
    stored on the table's behalf. *)
Theorem stored_unit_is_callers_or_table (p : list seg) (fields : list (string * jsval))
    (r : reading) (now : Z) (doc : document) (ts : string) :
  telemetry_object p fields = inr r ->
  build_document now r = inr (doc, ts) ->
  (forall u, assoc "unit" fields = JStr u -> doc_unit doc = u) /\
  (assoc "unit" fields = JUndefined ->
   doc_unit doc = getUnit (doc_sensorType doc) /\
   doc_unit doc ∈ unitTable /\
   doc_unit doc <> "unit").
Proof.
  intros Hobj Hb.
  destruct (telemetry_object_inv _ _ _ Hobj) as (_ & Hty & _ & Hunit & _).
  destruct (joi_sensorType_allowed _ _ _ Hty) as [_ Hin].
  destruct (build_document_fields _ _ _ _ Hb) as (_ & Hst & Hu & _).
  rewrite Hu, Hst. split.
  - intros u Hf. rewrite Hf in Hunit.
    destruct (optional_string_inv _ _ _ Hunit) as [[[=] _] | (s & [= <-] & -> & Hs)].
    simpl. now rewrite (eqb_empty_false _ Hs).
  - intros Hf. rewrite Hf in Hunit. injection Hunit as <-. simpl.
    destruct (getUnit_allowed _ Hin) as (Htab & Hne & _). auto.
Qed.

End Units.

Lemma stored_unit_is_callers_or_table_witness :
  let fields := [("deviceId", JStr "esp-1"); ("sensorType", JStr "conductivity");
                 ("value", JNum (inject_Z 640))] in
  exists r doc ts,
    telemetry_object (RT := sample_runtime) [] fields = inr r /\
    build_document 0 r = inr (doc, ts) /\
    doc_unit doc = "μS/cm".
Proof.
  cbv zeta. eexists _, _, _.
  assert (H1 : telemetry_object (RT := sample_runtime) []
                 [("deviceId", JStr "esp-1"); ("sensorType", JStr "conductivity");
                  ("value", JNum (inject_Z 640))]
               = inr (Reading "esp-1" "conductivity" (inject_Z 640) None None None None))
    by reflexivity.
  assert (H2 : build_document 0
                 (Reading "esp-1" "conductivity" (inject_Z 640) None None None None)
               = inr (Document "esp-1" "conductivity" (inject_Z 640) "μS/cm"
                        "1970-01-01T00:00:00.000Z" "unknown" false
                        "1970-01-01T00:00:00.000Z" [],
                      "1970-01-01T00:00:00.000Z")) by reflexivity.
  split; [exact H1|]. split; [exact H2|].
  destruct (stored_unit_is_callers_or_table (RT := sample_runtime) [] _ _ 0 _ _ H1 H2)
    as [_ Htable].
  destruct (Htable eq_refl) as (Hu & _). rewrite Hu. reflexivity.
Defined.

Lemma handed_over_documents_are_well_formed_witness :
  let req := Request (bearer accented_token) (reading_json accented_id []) in
  let doc := Document accented_id "temperature" (43 # 2) "°C" "2023-11-14T22:13:20.000Z"
               "unknown" false "2023-11-14T22:13:20.000Z" [] in
  String.length accented_id = 102%nat /\
  handed_over (RT := sample_runtime) sample_env accepting w0 req doc /\
  well_formed_document doc.
Proof.
  cbv zeta. split; [reflexivity|].
  assert (H : handed_over (RT := sample_runtime) sample_env accepting w0
                (Request (bearer accented_token) (reading_json accented_id []))
                (Document accented_id "temperature" (43 # 2) "°C" "2023-11-14T22:13:20.000Z"
                   "unknown" false "2023-11-14T22:13:20.000Z" [])).
  { eexists. split; [|left; left]. vm_compute. reflexivity. }
  split; [exact H|].
  exact (handed_over_documents_are_well_formed (RT := sample_runtime) sample_env accepting
           w0 _ _ H).
Defined.

(** ** What the schemas refuse *)

Section Refusals.

Context `{RT : Runtime}.
Variable backend : backend_t.

Lemma unknown_key_found (known : list string) (fields : list (string * jsval))
    (k : string) :
  k ∈ fields.*1 -> k ∉ known -> unknown_key known fields <> None.
Proof.
  intros Hin Hnot Hnone. unfold unknown_key in Hnone. apply head_None in Hnone.
  assert (Hk : k ∈ filter (fun k0 => k0 ∉ known) fields.*1)
    by (apply list_elem_of_filter; auto).
  rewrite Hnone in Hk. now apply not_elem_of_nil in Hk.
Qed.

Lemma telemetry_object_unknown_key (p : list seg) (fields : list (string * jsval))
    (k : string) :
  k ∈ fields.*1 -> k ∉ telemetryKeys -> exists d, telemetry_object p fields = inl d.
Proof.
  intros Hin Hnot. destruct (telemetry_object p fields) as [d|r] eqn:Hv; [eauto|].
  destruct (telemetry_object_inv _ _ _ Hv) as (_ & _ & _ & _ & _ & _ & _ & Hnone).
  now destruct (unknown_key_found telemetryKeys fields k Hin Hnot).
Qed.

(** The items of a batch are validated one by one by [telemetrySchema]. *)
Lemma joi_items_itemwise (path : list seg) (items : list jsval) :
  forall (k : nat) (rs : list reading),
    joi_items path k items = inr rs <->
    Forall2 (fun v r => telemetrySchema v = inr (Some r)) items rs.
Proof.
  induction items as [|v rest IH]; intros k rs; simpl.
  - split.
    + intros [= <-]. constructor.
    + intros Hall. inversion Hall. reflexivity.
  - split.
    + intros Hv. bind_split Hv as r Hr. bind_split Hv as rs' Hrs. injection Hv as <-.
      constructor; [|now apply (IH (S k))].
      destruct v; try discriminate. unfold telemetrySchema, joi_object.
      now rewrite (telemetry_object_path_free _ [] _ _ Hr).
    + intros Hall. inversion Hall as [|v' r items' rs' Hr Hrest]; subst.
      unfold telemetrySchema, joi_object in Hr. destruct v; try discriminate.
      bind_split Hr as r' Hr'. injection Hr as ->.
      rewrite (telemetry_object_path_free [] (path ++ [Index k]) _ _ Hr'). simpl.
      apply (IH (S k)) in Hrest. now rewrite Hrest.
Qed.

Lemma joi_readings_unfold (fields : list (string * jsval)) (items : list jsval) :
  assoc "readings" fields = JArr items ->
  bulkTelemetrySchema (JObj fields) =
    match joi_items [Key "readings"] 0 items with
    | inl d => inl d
    | inr rs =>
        if (length rs <? 1)%nat then inl (Detail [Key "readings"] "array.min")
        else if (100 <? length rs)%nat then inl (Detail [Key "readings"] "array.max")
        else match unknown_key ["readings"] fields with
             | Some k => inl (Detail [Key k] "object.unknown")
             | None => inr (Some rs)
             end
    end.
Proof.
  intros Hr. unfold bulkTelemetrySchema, joi_object, joi_readings, required, no_unknown, broke.
  rewrite Hr. simpl. destruct (joi_items _ _ _) as [d|rs]; simpl; [reflexivity|].
  destruct (length rs <? 1)%nat; simpl; [reflexivity|].
  destruct (100 <? length rs)%nat; simpl; [reflexivity|].
  now destruct (unknown_key _ _).
Qed.

(** X5. A batch passes [bulkTelemetrySchema] exactly when it holds 1 to 100
    items and every item, taken alone, passes [telemetrySchema]; the validated
    readings are then the validated items, in order. *)
Theorem batch_schema_is_itemwise (fields : list (string * jsval)) (items : list jsval)
    (rs : list reading) :
  assoc "readings" fields = JArr items ->
  unknown_key ["readings"] fields = None ->
  (bulkTelemetrySchema (JObj fields) = inr (Some rs) <->
   (1 <= length items <= 100)%nat /\
   Forall2 (fun v r => telemetrySchema v = inr (Some r)) items rs).
Proof.
  intros Hr Hk. rewrite (joi_readings_unfold fields items Hr), Hk. split.
  - destruct (joi_items _ _ _) as [d|rs'] eqn:Hitems; [discriminate|].
    destruct (Nat.ltb_spec (length rs') 1); [discriminate|].
    destruct (Nat.ltb_spec 100 (length rs')); [discriminate|].
    intros [= <-]. apply joi_items_itemwise in Hitems.
    rewrite (Forall2_length _ _ _ Hitems). auto.
  - intros [Hlen Hall]. pose proof (Forall2_length _ _ _ Hall) as Hl.
    apply (joi_items_itemwise [Key "readings"] items 0) in Hall. rewrite Hall.
    destruct (Nat.ltb_spec (length rs) 1); [lia|].
    destruct (Nat.ltb_spec 100 (length rs)); [lia|]. reflexivity.
Qed.

Lemma refused_batch_intro (d : jsval) (w : world) (b : jsval) (det : detail) :
  bulkTelemetrySchema b = inl det -> refused_batch w (ingest_bulk backend d w b).
Proof. intros Hv. exists det. unfold ingest_bulk. now rewrite Hv. Qed.

(** X4. A batch with no reading, or with more than 100, is answered with 400
    VALIDATION_ERROR and the store is not called, whatever the readings are. *)
Theorem batch_size_is_bounded (d : jsval) (w : world) (fields : list (string * jsval))
    (items : list jsval) :
  assoc "readings" fields = JArr items ->
  (length items < 1 \/ 100 < length items)%nat ->
  refused_batch w (ingest_bulk backend d w (JObj fields)).
Proof.
  intros Hr Hlen.
  destruct (bulkTelemetrySchema (JObj fields)) as [det|o] eqn:Hv;
    [now apply (refused_batch_intro d w _ det)|].
  exfalso. rewrite (joi_readings_unfold fields items Hr) in Hv.
  destruct (joi_items _ _ _) as [det|rs] eqn:Hitems; [discriminate|].
  apply joi_items_itemwise in Hitems. apply Forall2_length in Hitems.
  destruct (Nat.ltb_spec (length rs) 1); [discriminate|].
  destruct (Nat.ltb_spec 100 (length rs)); [discriminate|]. lia.
Qed.

(** X6. Validation of a batch is all or nothing: one item that
    [telemetrySchema] would not accept on its own makes the whole batch be
    answered with 400 VALIDATION_ERROR, and none of the other readings reaches
    the store. *)
Theorem one_invalid_item_refuses_the_batch (d : jsval) (w : world)
    (fields : list (string * jsval)) (items : list jsval) (i : nat) (v : jsval) :
  assoc "readings" fields = JArr items ->
  items !! i = Some v ->
  (forall r, telemetrySchema v <> inr (Some r)) ->
  refused_batch w (ingest_bulk backend d w (JObj fields)).
Proof.
  intros Hr Hi Hbad.
  destruct (bulkTelemetrySchema (JObj fields)) as [det|o] eqn:Hv;
    [now apply (refused_batch_intro d w _ det)|].
  exfalso. rewrite (joi_readings_unfold fields items Hr) in Hv.
  destruct (joi_items _ _ _) as [det|rs] eqn:Hitems; [discriminate|].
  apply joi_items_itemwise in Hitems.
  destruct (Forall2_lookup_l _ _ _ _ _ Hitems Hi) as (r & _ & Hok).
  now destruct (Hbad r).
Qed.

(** X3. A reading that carries a key the schema does not list (such as
    [ingestedAt] or [isAnomalous], which the gateway sets itself) is answered
    with 400 VALIDATION_ERROR and nothing is stored; inside a batch it makes
    the whole batch be refused. *)
Theorem unlisted_key_is_refused (d : jsval) (w : world) (k : string) :
  k ∉ telemetryKeys ->
  (forall fields,
     k ∈ fields.*1 -> refused_reading w (ingest backend d w (JObj fields))) /\
  (forall fields items i item,
     assoc "readings" fields = JArr items ->
     items !! i = Some (JObj item) ->
     k ∈ item.*1 ->
     refused_batch w (ingest_bulk backend d w (JObj fields))).
Proof.
  intros Hk. split.
  - intros fields Hin.
    destruct (telemetry_object_unknown_key [] fields k Hin Hk) as [det Hobj].
    exists det. unfold ingest, telemetrySchema, joi_object. now rewrite Hobj.
  - intros fields items i item Hr Hi Hin.
    destruct (bulkTelemetrySchema (JObj fields)) as [det|o] eqn:Hv;
      [now apply (refused_batch_intro d w _ det)|].
    exfalso. rewrite (joi_readings_unfold fields items Hr) in Hv.
    destruct (joi_items _ _ _) as [det|rs] eqn:Hitems; [discriminate|].
    apply joi_items_itemwise in Hitems.
    destruct (Forall2_lookup_l _ _ _ _ _ Hitems Hi) as (r & _ & Hok).
    unfold telemetrySchema, joi_object in Hok.
    destruct (telemetry_object_unknown_key [] item k Hin Hk) as [det Hobj].
    rewrite Hobj in Hok. discriminate.
Qed.

End Refusals.

Lemma batch_schema_is_itemwise_witness :
  let fields := [("readings", JArr [reading_json "esp-1" []; reading_json "esp-2" []])] in
  assoc "readings" fields = JArr [reading_json "esp-1" []; reading_json "esp-2" []] /\
  unknown_key ["readings"] fields = None /\
  bulkTelemetrySchema (RT := sample_runtime) (JObj fields)
    = inr (Some [plain_reading "esp-1" None; plain_reading "esp-2" None]).
Proof.
  cbv zeta. split; [reflexivity|]. split; [reflexivity|].
  apply (batch_schema_is_itemwise (RT := sample_runtime) _
           [reading_json "esp-1" []; reading_json "esp-2" []]);
    [reflexivity | reflexivity |].
  split; [simpl; lia|]. repeat constructor.
Defined.

Lemma batch_size_is_bounded_witness :
  assoc "readings" [("readings", JArr [])] = JArr [] /\
  (length (@nil jsval) < 1 \/ 100 < length (@nil jsval))%nat /\
  refused_batch w0 (ingest_bulk (RT := sample_runtime) accepting (JStr "esp-1") w0
                      (JObj [("readings", JArr [])])).
Proof.
  split; [reflexivity|]. split; [left; simpl; lia|].
  apply (batch_size_is_bounded (RT := sample_runtime) accepting (JStr "esp-1") w0
           [("readings", JArr [])] []); [reflexivity | left; simpl; lia].
Defined.

Lemma null_is_no_reading (r : reading) :
  telemetrySchema (RT := sample_runtime) JNull <> inr (Some r).
Proof. discriminate. Defined.

Lemma one_invalid_item_refuses_the_batch_witness :
  let items := [reading_json "esp-1" []; JNull; reading_json "esp-1" []] in
  items !! 1%nat = Some JNull /\
  (forall r, telemetrySchema (RT := sample_runtime) JNull <> inr (Some r)) /\
  refused_batch w0 (ingest_bulk (RT := sample_runtime) accepting (JStr "esp-1") w0
                      (JObj [("readings", JArr items)])).
Proof.
  cbv zeta. split; [reflexivity|]. split; [exact null_is_no_reading|].
  apply (one_invalid_item_refuses_the_batch (RT := sample_runtime) accepting (JStr "esp-1")
           w0 [("readings", JArr [reading_json "esp-1" []; JNull; reading_json "esp-1" []])]
           [reading_json "esp-1" []; JNull; reading_json "esp-1" []] 1 JNull);
    [reflexivity | reflexivity | exact null_is_no_reading].
Defined.

Lemma ingestedAt_is_unlisted : "ingestedAt" ∉ telemetryKeys.
Proof.
  now apply (proj1 (bool_decide_eq_false ("ingestedAt" ∈ telemetryKeys))).
Defined.

Lemma unlisted_key_is_refused_witness :
  ("ingestedAt" ∉ telemetryKeys) /\
  refused_reading w0
    (ingest (RT := sample_runtime) accepting (JStr "esp-1") w0
       (reading_json "esp-1" [("ingestedAt", JStr "2001-01-01T00:00:00.000Z")])) /\
  refused_batch w0
    (ingest_bulk (RT := sample_runtime) accepting (JStr "esp-1") w0
       (JObj [("readings",
               JArr [reading_json "esp-1" [("isAnomalous", JBool true)]])])).
Proof.
  split; [exact ingestedAt_is_unlisted|]. split.
  - apply (unlisted_key_is_refused (RT := sample_runtime) accepting (JStr "esp-1") w0
             "ingestedAt" ingestedAt_is_unlisted).
    right; right; right; left.
  - assert (Hk : "isAnomalous" ∉ telemetryKeys)
      by now apply (proj1 (bool_decide_eq_false ("isAnomalous" ∈ telemetryKeys))).
    apply (unlisted_key_is_refused (RT := sample_runtime) accepting (JStr "esp-1") w0
             "isAnomalous" Hk)
      with (items := [reading_json "esp-1" [("isAnomalous", JBool true)]]) (i := 0%nat)
           (item := [("deviceId", JStr "esp-1"); ("sensorType", JStr "temperature");
                     ("value", JNum (43 # 2)); ("isAnomalous", JBool true)]);
      [reflexivity | reflexivity | right; right; right; left].
Defined.

(** ** Tokens *)

Section Tokens.

Context `{RT : Runtime}.
Variable env : config.

(** X7. [authenticateToken] lets a request through exactly when it presents a
    token signed with the configured, non-empty key whose expiry, if it has
    one, lies in the future; it then binds the token's own [deviceId] and
    [exp]. In particular a gateway without [JWT_SECRET] authenticates
    nobody. *)
Theorem authenticated_iff_signed_and_fresh (w : world) (req : request) (d : jsval)
    (e : option Z) :
  authenticateToken env w req = inr (d, e) <->
  exists c key,
    presented req = Some (Jws c key) /\
    JWT_SECRET env = Some key /\ key <> EmptyString /\
    (forall x, tok_exp c = Some x -> (clock w / 1000 < x)%Z) /\
    d = tok_deviceId c /\ e = tok_exp c.
Proof.
  unfold authenticateToken. split.
  - destruct (presented req) as [[s|c key]|]; [destruct s; discriminate| |discriminate].
    simpl. destruct (JWT_SECRET env) as [k|]; [|discriminate].
    destruct (String.eqb k EmptyString) eqn:Hke; [discriminate|].
    destruct (String.eqb k key) eqn:Hkk; simpl; [|discriminate].
    apply String.eqb_eq in Hkk. subst k. apply String.eqb_neq in Hke.
    destruct (tok_exp c) as [x|] eqn:Hx.
    + destruct (Z.leb_spec x (clock w / 1000)); [discriminate|].
      intros [= <- <-]. exists c, key. repeat split; auto.
      intros x' Hx'. rewrite Hx in Hx'. injection Hx' as <-. assumption.
    + intros [= <- <-]. exists c, key. repeat split; auto.
      intros x' Hx'. rewrite Hx in Hx'. discriminate.
  - intros (c & key & -> & Hk & Hne & Hfresh & -> & ->). simpl.
    rewrite Hk, (eqb_empty_false _ Hne), String.eqb_refl. simpl.
    destruct (tok_exp c) as [x|] eqn:Hx; [|congruence].
    specialize (Hfresh x eq_refl). destruct (Z.leb_spec x (clock w / 1000)); [lia|].
    congruence.
Qed.

(** What a 200 answer of [POST /auth/token] carries. *)
Lemma issued_token_inv (w : world) (req : request) (token : wire) (n : Z) (tt : string) :
  post_auth_token env w req = reply 200 (TokenBody token n tt) ->
  exists key ms,
    can_sign env key ms /\
    token = Jws (Claims (prop "deviceId" (body req)) "device" (clock w / 1000)
                   (Some (clock w / 1000 + ms / 1000)%Z)) key.
Proof.
  rewrite (post_auth_token_unfold env w req). cbv zeta.
  destruct (negb _ || negb _); [discriminate|].
  destruct (negb (convertible _)); [discriminate|].
  destruct (strict_neq _ _); [discriminate|].
  unfold jwt_sign, can_sign.
  destruct (JWT_SECRET env) as [key|]; [|discriminate].
  destruct (String.eqb key EmptyString) eqn:Hke; [discriminate|].
  apply String.eqb_neq in Hke.
  destruct (span_ms _) as [ms|]; [|discriminate].
  intros [= <- _ _]. exists key, ms. auto.
Qed.

(** X8. [POST /auth/token] only ever issues a token signed with the configured
    key, for the [deviceId] of the request, of type [device], issued at the
    current second and expiring after the configured span; and it answers 500
    TOKEN_GENERATION_ERROR exactly when both fields are non-empty and either
    [deviceId] cannot be converted to a string, so that [prefix + deviceId]
    throws, or the credentials are right but the gateway has no key or no
    readable span to sign with. *)
Theorem token_endpoint_issues_or_fails (w : world) (req : request) :
  let deviceId := prop "deviceId" (body req) in
  let deviceSecret := prop "deviceSecret" (body req) in
  let r := post_auth_token env w req in
  (forall token n tt,
     r = reply 200 (TokenBody token n tt) ->
     exists key ms,
       can_sign env key ms /\
       token = Jws (Claims deviceId "device" (clock w / 1000)
                      (Some (clock w / 1000 + ms / 1000)%Z)) key) /\
  (r = token_generation_error <->
   truthy deviceId = true /\ truthy deviceSecret = true /\
   (convertible deviceId = false \/
    (convertible deviceId = true /\
     deviceSecret = JStr (expectedSecret env deviceId) /\
     ~ exists key ms, can_sign env key ms))).
Proof.
  cbv zeta. split; [apply issued_token_inv|].
  rewrite (post_auth_token_unfold env w req). cbv zeta.
  set (deviceId := prop "deviceId" (body req)).
  set (deviceSecret := prop "deviceSecret" (body req)).
  destruct (truthy deviceId) eqn:Hid; simpl;
    [|split; [discriminate | intros (? & _); discriminate]].
  destruct (truthy deviceSecret) eqn:Hsec; simpl;
    [|split; [discriminate | intros (_ & ? & _); discriminate]].
  destruct (convertible deviceId) eqn:Hconv; simpl; [|split; auto].
  destruct (strict_neq _ _) eqn:Hneq.
  { apply strict_neq_true in Hneq.
    split; [discriminate|].
    intros (_ & _ & [?|(_ & ? & _)]); [discriminate | contradiction]. }
  apply strict_neq_false in Hneq. unfold jwt_sign, can_sign.
  destruct (JWT_SECRET env) as [key|] eqn:Hkey.
  - destruct (String.eqb key EmptyString) eqn:Hke.
    + apply String.eqb_eq in Hke. subst key. split; [|reflexivity].
      intros _. split; [reflexivity|]. split; [reflexivity|]. right.
      split; [reflexivity|]. split; [assumption|].
      intros (k & ms & [= <-] & Hne & _). now apply Hne.
    + apply String.eqb_neq in Hke.
      destruct (span_ms _) as [ms|] eqn:Hms.
      * split; [discriminate|].
        intros (_ & _ & [?|(_ & _ & Hno)]); [discriminate|].
        destruct Hno. exists key, ms. auto.
      * split; [|reflexivity].
        intros _. split; [reflexivity|]. split; [reflexivity|]. right.
        split; [reflexivity|]. split; [assumption|].
        intros (k & ms & _ & _ & [=]).
  - split; [|reflexivity].
    intros _. split; [reflexivity|]. split; [reflexivity|]. right.
    split; [reflexivity|]. split; [assumption|].
    intros (k & ms & [=] & _).
Qed.

End Tokens.

(** X9. A token issued by [POST /auth/token] is accepted by a gateway, at a
    later or earlier moment, exactly when that gateway is configured with the
    same key and its clock is before the token's expiry; it is then bound to
    the [deviceId] the token was asked for. A gateway whose key was rotated,
    or a token past its lifetime, is refused. *)
Theorem issued_token_is_valid_until_expiry `{RT : Runtime} (env env' : config)
    (w w' : world) (req : request) (token : wire) (n : Z) (tt : string)
    (scheme : wire) (rest : list wire) (b : jsval) (d : jsval) (e : option Z) :
  post_auth_token env w req = reply 200 (TokenBody token n tt) ->
  exists exp : Z,
    (exists ms, span_ms (default (Span 15 Mins) (JWT_EXPIRES_IN env)) = Some ms /\
                exp = (clock w / 1000 + ms / 1000)%Z) /\
    (authenticateToken env' w' (Request (Some (scheme :: token :: rest)) b) = inr (d, e) <->
     JWT_SECRET env' = JWT_SECRET env /\
     (clock w' / 1000 < exp)%Z /\
     d = prop "deviceId" (body req) /\ e = Some exp).
Proof.
  intros Hissue.
  destruct (issued_token_inv env w req token n tt Hissue)
    as (key & ms & (Hkey & Hne & Hms) & ->).
  exists (clock w / 1000 + ms / 1000)%Z. split; [eauto|].
  unfold authenticateToken, presented. simpl. rewrite Hkey.
  destruct (JWT_SECRET env') as [k|]; [|split; [discriminate | intros [[=] _]]].
  destruct (String.eqb k EmptyString) eqn:Hke.
  { apply String.eqb_eq in Hke. subst k.
    split; [discriminate | intros [[= <-] _]; now destruct Hne]. }
  destruct (String.eqb k key) eqn:Hkk; simpl.
  - apply String.eqb_eq in Hkk. subst k.
    destruct (Z.leb_spec (clock w / 1000 + ms / 1000) (clock w' / 1000)).
    + split; [discriminate | intros (_ & ? & _); lia].
    + split; [intros [= <- <-]; auto | intros (_ & _ & -> & ->); reflexivity].
  - apply String.eqb_neq in Hkk.
    split; [discriminate | intros [[= ->] _]; now destruct Hkk].
Qed.

(** ** Answers and store calls *)

Lemma ingest_catch_cases (e : exn) :
  (exn_code e = Some 401%Z -> ingest_catch e = db_auth_error) /\
  (exn_code e = Some 404%Z -> ingest_catch e = db_not_found) /\
  (exn_code e <> Some 401%Z -> exn_code e <> Some 404%Z -> ingest_catch e = ingestion_error).
Proof.
  unfold ingest_catch. split; [|split].
  - now intros ->.
  - now intros ->.
  - intros H1 H2. destruct (exn_code e) as [z|]; [|reflexivity].
    destruct (Z.eq_dec z 401%Z) as [->|]; [congruence|].
    destruct (Z.eq_dec z 404%Z) as [->|]; [congruence|].
    repeat match goal with
           | |- context [match ?x with _ => _ end] => destruct x; try congruence
           end; reflexivity.
Qed.

Section Answers.

Context `{RT : Runtime}.
Variable backend : backend_t.

(** X10. [POST /ingest] calls the store at most once, and answers 201 exactly
    when the store accepted the document: the 201 echoes the [$id] the store
    gave, and any other answer means nothing was accepted. *)
Theorem created_iff_stored (d : jsval) (w : world) (b : jsval) (w' : world)
    (resp : response) :
  ingest backend d w b = (w', resp) ->
  length (calls_since w w') <= 1 /\
  (status resp = 201%nat ->
   exists id ts, resp = reply 201 (IngestBody true id ts) /\
                 accepted_ids (calls_since w w') = [id]) /\
  (status resp <> 201%nat -> accepted_ids (calls_since w w') = []).
Proof.
  intros Hi.
  destruct (ingest_inv backend d w b w' resp Hi)
    as [[-> Hs] | (r & doc & ts & _ & _ & Hb & Hlog & H201)].
  - rewrite calls_since_refl. simpl. split; [lia|]. split; [contradiction | reflexivity].
  - rewrite (calls_since_app w w' _ Hlog). split; [simpl; lia|].
    unfold ingest in Hi.
    destruct (telemetrySchema b) as [det|[r'|]]; try (injection Hi as <- <-; simpl).
    + exfalso. apply (f_equal length) in Hlog. rewrite length_app in Hlog. simpl in Hlog. lia.
    + destruct (strict_neq _ _).
      { injection Hi as Hw _. exfalso. rewrite <- Hw in Hlog.
        apply (f_equal length) in Hlog. rewrite length_app in Hlog. simpl in Hlog. lia. }
      destruct (build_document (clock w) r') as [e|[doc' ts']] eqn:Hb'.
      { injection Hi as Hw _. exfalso. rewrite <- Hw in Hlog.
        apply (f_equal length) in Hlog. rewrite length_app in Hlog. simpl in Hlog. lia. }
      unfold createDocument in Hi.
      assert (Hdoc : doc' = doc).
      { destruct (outcome (backend w doc')); injection Hi as Hw _; rewrite <- Hw in Hlog;
          simpl in Hlog; apply app_inv_head in Hlog; now injection Hlog as ->. }
      subst doc'. unfold accepted_ids. simpl.
      destruct (outcome (backend w doc)) as [e|id]; injection Hi as <- <-.
      * rewrite ingest_catch_status. split; [discriminate | reflexivity].
      * split; [eauto | intros Hs; now destruct Hs].
    + exfalso. apply (f_equal length) in Hlog. rewrite length_app in Hlog. simpl in Hlog. lia.
Qed.

(** X11. When the store rejects the write of [POST /ingest], the answer is a
    500 chosen by the store's error code alone: DB_AUTH_ERROR for 401,
    DB_NOT_FOUND for 404 and INGESTION_ERROR for anything else; the store's
    own message is not passed on. *)
Theorem store_rejection_is_classified (d : jsval) (w : world) (b : jsval) (w' : world)
    (resp : response) (c : store_call) (e : exn) :
  ingest backend d w b = (w', resp) ->
  c ∈ calls_since w w' ->
  outcome (answered c) = inl e ->
  (exn_code e = Some 401%Z -> resp = db_auth_error) /\
  (exn_code e = Some 404%Z -> resp = db_not_found) /\
  (exn_code e <> Some 401%Z -> exn_code e <> Some 404%Z -> resp = ingestion_error).
Proof.
  intros Hi Hc He.
  assert (Hresp : resp = ingest_catch e).
  { unfold ingest in Hi.
    destruct (telemetrySchema b) as [det|[r|]];
      try (injection Hi as <- <-; rewrite calls_since_refl in Hc;
           now apply not_elem_of_nil in Hc).
    destruct (strict_neq _ _);
      [injection Hi as <- <-; rewrite calls_since_refl in Hc;
       now apply not_elem_of_nil in Hc|].
    destruct (build_document _ _) as [e0|[doc ts]];
      [injection Hi as <- <-; rewrite calls_since_refl in Hc;
       now apply not_elem_of_nil in Hc|].
    unfold createDocument in Hi.
    destruct (outcome (backend w doc)) as [e0|id] eqn:Ho; injection Hi as <- <-;
      unfold calls_since in Hc; simpl in Hc; rewrite drop_app_length in Hc;
      apply list_elem_of_singleton in Hc; subst c; simpl in He; congruence. }
  subst resp. apply ingest_catch_cases.
Qed.

(** X13. A timestamp in epoch seconds that passes the schema but whose
    milliseconds, the product with 1000 computed on doubles, lie beyond the
    range of [Date] (more than 8.64e15) makes [toISOString] throw: on
    [POST /ingest] the answer is 500 INGESTION_ERROR, in a batch the reading
    is listed among the errors with the message of the exception, and in
    neither case is the store called. *)
Theorem timestamp_beyond_Date_is_an_error (d : jsval) (w : world) (r : reading) (q : Q) :
  rd_timestamp r = Some (TsNumber q) ->
  (0 < q)%Q ->
  beyond_Date q ->
  d = JStr (rd_deviceId r) ->
  (forall b, telemetrySchema b = inr (Some r) ->
             ingest backend d w b = (w, ingestion_error)) /\
  bulk_item backend d w r = (w, inl (BulkError r "Invalid time value")).
Proof.
  intros Hts Hpos Hbig ->.
  assert (Hthrow : build_document (clock w) r = inl RangeError).
  { unfold build_document. rewrite Hts. unfold new_Date.
    assert (Hnn : (0 <= mul_double q (inject_Z 1000))%Q).
    { apply mul_double_nonneg; [now apply Qlt_le_weak | discriminate]. }
    assert (Hout : Qle_bool (Qabs (mul_double q (inject_Z 1000)))
                     (inject_Z 8640000000000000) = false).
    { apply Qle_bool_false. now rewrite (Qabs_pos _ Hnn). }
    now rewrite Hout. }
  assert (Hsame : strict_neq (rd_deviceId r) (JStr (rd_deviceId r)) = false)
    by now apply strict_neq_false.
  split.
  - intros b Hv. unfold ingest. now rewrite Hv, Hsame, Hthrow.
  - unfold bulk_item. now rewrite Hsame, Hthrow.
Qed.

(** What one turn of the bulk loop adds to the log and to the two arrays. *)
Lemma bulk_item_ledger (d : jsval) (w : world) (r : reading) :
  let out := bulk_item backend d w r in
  exists new,
    store_log (fst out) = store_log w ++ new /\
    length new <= 1 /\
    accepted_ids new = map br_documentId (successes [snd out]) /\
    sublist (rejected_messages new) (map be_error (failures [snd out])).
Proof.
  cbv zeta. unfold bulk_item. destruct (strict_neq _ _).
  { exists []. simpl. rewrite app_nil_r. repeat split; [lia | apply sublist_nil_l]. }
  destruct (build_document _ _) as [e|[doc ts]].
  { exists []. simpl. rewrite app_nil_r. repeat split; [lia | apply sublist_nil_l]. }
  exists [StoreCall doc (backend w doc)]. unfold createDocument.
  unfold accepted_ids, rejected_messages, successes, failures.
  destruct (outcome (backend w doc)) as [e|id] eqn:Ho; simpl; rewrite Ho; simpl;
    repeat split; try lia; try reflexivity; constructor.
Qed.

Lemma accepted_ids_app (a b : list store_call) :
  accepted_ids (a ++ b) = accepted_ids a ++ accepted_ids b.
Proof. apply omap_app. Qed.

Lemma rejected_messages_app (a b : list store_call) :
  rejected_messages (a ++ b) = rejected_messages a ++ rejected_messages b.
Proof. apply omap_app. Qed.

Lemma successes_cons (o : bulk_error + bulk_result) (os : list (bulk_error + bulk_result)) :
  successes (o :: os) = successes [o] ++ successes os.
Proof. now destruct o. Qed.

Lemma failures_cons (o : bulk_error + bulk_result) (os : list (bulk_error + bulk_result)) :
  failures (o :: os) = failures [o] ++ failures os.
Proof. now destruct o. Qed.

Lemma bulk_trace_ledger (d : jsval) (readings : list reading) (w : world) :
  let out := bulk_trace backend d readings w in
  exists new,
    store_log (fst out) = store_log w ++ new /\
    length new <= length readings /\
    accepted_ids new = map br_documentId (successes (snd out)) /\
    sublist (rejected_messages new) (map be_error (failures (snd out))).
Proof.
  cbv zeta. revert w. induction readings as [|r rest IH]; intros w.
  - exists []. simpl. rewrite app_nil_r. repeat split; [lia | constructor].
  - cbn [bulk_trace].
    destruct (bulk_item_ledger d w r) as (new1 & Hlog1 & Hlen1 & Hid1 & Hrej1).
    destruct (bulk_item backend d w r) as [w1 o]. cbn [fst snd] in *.
    destruct (IH w1) as (new2 & Hlog2 & Hlen2 & Hid2 & Hrej2).
    destruct (bulk_trace backend d rest w1) as [w2 os]. cbn [fst snd] in *.
    exists (new1 ++ new2).
    rewrite accepted_ids_app, rejected_messages_app, (successes_cons o os),
      (failures_cons o os), !map_app, length_app.
    split; [now rewrite Hlog2, Hlog1, app_assoc|].
    split; [simpl; lia|].
    split; [now rewrite Hid1, Hid2 | now apply sublist_app].
Qed.

(** X12. In the answer of [POST /ingest/bulk] the [results] are exactly the
    documents the store accepted, with the [$id]s it gave and in the order of
    the calls; every message of a call the store rejected is listed, in order,
    among the [errors]; and the store is called at most once per reading. *)
Theorem bulk_results_are_the_accepted_calls (d : jsval) (w : world) (b : jsval)
    (readings : list reading) (w' : world) (resp : response) :
  bulkTelemetrySchema b = inr (Some readings) ->
  ingest_bulk backend d w b = (w', resp) ->
  exists results errors field,
    resp = reply 201 (BulkBody true (length results) (length errors) results field) /\
    map br_documentId results = accepted_ids (calls_since w w') /\
    sublist (rejected_messages (calls_since w w')) (map be_error errors) /\
    length (calls_since w w') <= length readings.
Proof.
  intros Hv Hi. rewrite (ingest_bulk_run backend d w b readings Hv) in Hi. cbv zeta in Hi.
  injection Hi as <- <-.
  destruct (bulk_trace_ledger d readings w) as (new & Hlog & Hlen & Hid & Hrej).
  rewrite (calls_since_app w _ _ Hlog).
  eexists _, _, _. split; [reflexivity|]. auto.
Qed.

End Answers.

Lemma authenticated_iff_signed_and_fresh_witness :
  authenticateToken sample_env w0 (Request (bearer esp1_token) JUndefined)
    = inr (JStr "esp-1", Some 1700000900%Z) /\
  forall d e, authenticateToken env_keyless w0 (Request (bearer esp1_token) JUndefined)
              <> inr (d, e).
Proof.
  split.
  - apply (authenticated_iff_signed_and_fresh sample_env w0).
    eexists _, _. split; [reflexivity|]. split; [reflexivity|]. split; [discriminate|].
    split; [|split; reflexivity]. intros x [= <-]. reflexivity.
  - intros d e Hauth.
    apply (authenticated_iff_signed_and_fresh env_keyless w0) in Hauth.
    destruct Hauth as (c & key & _ & [=] & _).
Defined.

Lemma token_endpoint_issues_or_fails_witness :
  (exists key ms,
     can_sign sample_env key ms /\
     post_auth_token (RT := sample_runtime) sample_env w0 token_request
       = reply 200 (TokenBody
           (Jws (Claims (JStr "esp-1") "device" 1700000000 (Some (1700000000 + ms / 1000)%Z))
              key) 900 "Bearer")) /\
  post_auth_token (RT := sample_runtime) env_keyless w0 token_request
    = token_generation_error /\
  post_auth_token (RT := sample_runtime) sample_env w0 unconvertible_request
    = token_generation_error.
Proof.
  split; [|split].
  - destruct (token_endpoint_issues_or_fails (RT := sample_runtime) sample_env w0
                token_request) as [Hissued _].
    destruct (Hissued _ _ _ eq_refl) as (key & ms & Hsign & Htok).
    exists key, ms. split; [exact Hsign|].
    destruct Hsign as ([= <-] & _ & [= <-]). reflexivity.
  - apply (token_endpoint_issues_or_fails (RT := sample_runtime) env_keyless w0
             token_request).
    split; [reflexivity|]. split; [reflexivity|]. right.
    split; [reflexivity|]. split; [reflexivity|]. intros (key & ms & [=] & _).
  - apply (token_endpoint_issues_or_fails (RT := sample_runtime) sample_env w0
             unconvertible_request).
    split; [reflexivity|]. split; [reflexivity|]. left. reflexivity.
Defined.

Lemma issued_token_is_valid_until_expiry_witness :
  post_auth_token (RT := sample_runtime) sample_env w0 token_request
    = reply 200 (TokenBody esp1_token 900 "Bearer") /\
  authenticateToken sample_env w_5min (Request (bearer esp1_token) JUndefined)
    = inr (JStr "esp-1", Some 1700000900%Z) /\
  authenticateToken sample_env w_20min (Request (bearer esp1_token) JUndefined)
    <> inr (JStr "esp-1", Some 1700000900%Z).
Proof.
  assert (H : post_auth_token (RT := sample_runtime) sample_env w0 token_request
              = reply 200 (TokenBody esp1_token 900 "Bearer")) by reflexivity.
  split; [exact H|]. split.
  - destruct (issued_token_is_valid_until_expiry (RT := sample_runtime) sample_env sample_env
                w0 w_5min token_request esp1_token 900 "Bearer" (Text "Bearer") []
                JUndefined (JStr "esp-1") (Some 1700000900%Z) H)
      as (exp & (ms & [= <-] & ->) & Hiff).
    apply Hiff. repeat split.
  - destruct (issued_token_is_valid_until_expiry (RT := sample_runtime) sample_env sample_env
                w0 w_20min token_request esp1_token 900 "Bearer" (Text "Bearer") []
                JUndefined (JStr "esp-1") (Some 1700000900%Z) H)
      as (exp & (ms & [= <-] & ->) & Hiff).
    intros Hauth. apply Hiff in Hauth. destruct Hauth as (_ & Hfresh & _).
    revert Hfresh. vm_compute. discriminate.
Defined.

Lemma created_iff_stored_witness :
  let out := ingest (RT := sample_runtime) accepting (JStr "esp-1") w0
               (reading_json "esp-1" []) in
  status (snd out) = 201%nat /\
  accepted_ids (calls_since w0 (fst out)) = ["doc-00"].
Proof.
  cbv zeta.
  assert (H : status (snd (ingest (RT := sample_runtime) accepting (JStr "esp-1") w0
                             (reading_json "esp-1" []))) = 201%nat) by reflexivity.
  split; [exact H|].
  destruct (created_iff_stored (RT := sample_runtime) accepting (JStr "esp-1") w0
              (reading_json "esp-1" []) _ _ (surjective_pairing _)) as (_ & Hok & _).
  destruct (Hok H) as (id & ts & Hresp & Hids).
  injection Hresp as <- _. exact Hids.
Defined.

Lemma store_rejection_is_classified_witness :
  let out := ingest (RT := sample_runtime) locked (JStr "esp-1") w0
               (reading_json "esp-1" []) in
  let c := StoreCall
             (Document "esp-1" "temperature" (43 # 2) "°C" "2023-11-14T22:13:20.000Z"
                "unknown" false "2023-11-14T22:13:20.000Z" [])
             (Answer 3 (inl (Exn (Some 401%Z) "Invalid API key"))) in
  c ∈ calls_since w0 (fst out) /\
  outcome (answered c) = inl (Exn (Some 401%Z) "Invalid API key") /\
  snd out = db_auth_error.
Proof.
  cbv zeta.
  set (c := StoreCall _ _).
  assert (Hin : c ∈ calls_since w0
                  (fst (ingest (RT := sample_runtime) locked (JStr "esp-1") w0
                          (reading_json "esp-1" [])))).
  { change (calls_since w0 _) with [c]. left. }
  split; [exact Hin|]. split; [reflexivity|].
  apply (store_rejection_is_classified (RT := sample_runtime) locked (JStr "esp-1") w0
           (reading_json "esp-1" []) _ _ c (Exn (Some 401%Z) "Invalid API key")
           (surjective_pairing _) Hin eq_refl).
  reflexivity.
Defined.

Lemma timestamp_beyond_Date_is_an_error_witness :
  let r := Reading "esp-1" "temperature" (43 # 2) None
             (Some (TsNumber (inject_Z 10000000000000))) None None in
  telemetrySchema (RT := sample_runtime)
    (reading_json "esp-1" [("timestamp", JNum (inject_Z 10000000000000))])
    = inr (Some r) /\
  ingest (RT := sample_runtime) accepting (JStr "esp-1") w0
    (reading_json "esp-1" [("timestamp", JNum (inject_Z 10000000000000))])
    = (w0, ingestion_error) /\
  bulk_item accepting (JStr "esp-1") w0 r = (w0, inl (BulkError r "Invalid time value")).
Proof.
  cbv zeta. split; [reflexivity|].
  destruct (timestamp_beyond_Date_is_an_error (RT := sample_runtime) accepting
              (JStr "esp-1") w0
              (Reading "esp-1" "temperature" (43 # 2) None
                 (Some (TsNumber (inject_Z 10000000000000))) None None)
              (inject_Z 10000000000000) eq_refl eq_refl eq_refl eq_refl)
    as [Hsingle Hitem].
  split; [apply Hsingle; reflexivity | exact Hitem].
Defined.

Lemma bulk_results_are_the_accepted_calls_witness :
  bulkTelemetrySchema (RT := sample_runtime) (body batch_request)
    = inr (Some batch_readings) /\
  let out := ingest_bulk (RT := sample_runtime) flaky (JStr "esp-1") w0
               (body batch_request) in
  accepted_ids (calls_since w0 (fst out)) = ["doc-00"; "doc-02"] /\
  exists (results : list bulk_result) (errors : list bulk_error) field,
    snd out = reply 201 (BulkBody true (length results) (length errors) results field) /\
    map br_documentId results = ["doc-00"; "doc-02"].
Proof.
  split; [exact batch_validated|]. cbv zeta. split; [reflexivity|].
  destruct (bulk_results_are_the_accepted_calls (RT := sample_runtime) flaky (JStr "esp-1")
              w0 (body batch_request) batch_readings _ _ batch_validated
              (surjective_pairing _))
    as (results & errors & field & Hresp & Hids & _).
  exists results, errors, field. split; [exact Hresp | exact Hids].
Defined.

(** * Properties of the REST routes of [NODE.JS/src] *)

Lemma handleAppwriteError_other (error : exn) (z : Z) :
  z <> 404%Z -> z <> 401%Z -> z <> 409%Z ->
  match z with
  | 404%Z => AppwriteFailure false "Document not found" 404
  | 401%Z => AppwriteFailure false "Unauthorized" 401
  | 409%Z => AppwriteFailure false "Document already exists" 409
  | _ => AppwriteFailure false
           (or_default (Some (exn_message error)) "Internal server error") 500
  end = AppwriteFailure false
          (or_default (Some (exn_message error)) "Internal server error") 500.
Proof.
  intros H1 H2 H3.
  destruct z as [|p|p]; try reflexivity.
  do 9 (try (destruct p as [p|p|]; try reflexivity)); congruence.
Qed.

Lemma or_default_nonempty (o : option string) (d : string) :
  d <> EmptyString -> or_default o d <> EmptyString.
Proof.
  intros Hd. unfold or_default. destruct o as [m|]; [|exact Hd].
  destruct (String.eqb m EmptyString) eqn:E; [exact Hd|].
  now apply String.eqb_neq in E.
Qed.

(** X14. [handleAppwriteError] never reports success and never an empty
    message; its status is the error's code when that is 404, 401 or 409, and
    500 for every other error, whose own message it then passes on unless that
    is empty. *)
Theorem handleAppwriteError_is_a_failure (error : exn) :
  let f := handleAppwriteError error in
  af_success f = false /\
  af_message f <> EmptyString /\
  (forall n : nat, n ∈ [404; 401; 409]%nat ->
     (af_statusCode f = n <-> exn_code error = Some (Z.of_nat n))) /\
  (af_statusCode f ∉ [404; 401; 409]%nat ->
     af_statusCode f = 500%nat /\
     af_message f = or_default (Some (exn_message error)) "Internal server error").
Proof.
  cbv zeta. unfold handleAppwriteError.
  assert (Hin : forall n : nat, n ∈ [404; 401; 409]%nat -> n = 404%nat \/ n = 401%nat \/ n = 409%nat).
  { intros n Hn. repeat (apply elem_of_cons in Hn as [Hn|Hn]; [auto|]).
    now apply not_elem_of_nil in Hn. }
  assert (Hout : forall n : nat, n ∈ [404; 401; 409]%nat -> n <> 500%nat).
  { intros n Hn. destruct (Hin n Hn) as [->| [->| ->]]; discriminate. }
  destruct (exn_code error) as [z|] eqn:Hc.
  - destruct (Z.eq_dec z 404%Z) as [->|H404];
      [|destruct (Z.eq_dec z 401%Z) as [->|H401];
        [|destruct (Z.eq_dec z 409%Z) as [->|H409]]].
    1-3: (split; [reflexivity|]; split; [discriminate|]; split;
          [intros n Hn; destruct (Hin n Hn) as [->| [->| ->]]; simpl;
           split; try reflexivity; try discriminate; intros [=]
          |intros Hn; exfalso; apply Hn; simpl; rewrite !elem_of_cons; auto]).
    rewrite (handleAppwriteError_other error z H404 H401 H409).
    cbn [af_success af_message af_statusCode].
    split; [reflexivity|]. split; [apply or_default_nonempty; discriminate|].
    split; [|intros _; split; reflexivity].
    intros n Hn. split.
    + intros <-. now destruct (Hout _ Hn).
    + intros [= ->]. exfalso.
      destruct (Hin n Hn) as [->| [->| ->]]; [apply H404|apply H401|apply H409]; reflexivity.
  - cbn [af_success af_message af_statusCode].
    split; [reflexivity|]. split; [apply or_default_nonempty; discriminate|].
    split; [|intros _; split; reflexivity].
    intros n Hn. split; [|discriminate].
    intros <-. now destruct (Hout _ Hn).
Qed.

(** ** [routes/devices.js] *)

Lemma destructure_present (v : jsval) : present v = true -> destructure v = inr v.
Proof. destruct v; simpl; congruence. Qed.

Lemma destructure_absent (v : jsval) :
  present v = false -> exists e, destructure v = inl e /\ exn_code e = None.
Proof. destruct v; simpl; try discriminate; eauto. Qed.

Lemma member_present (k : string) (v : jsval) :
  present v = true -> member k v = inr (prop k v).
Proof. destruct v; simpl; congruence. Qed.

Lemma member_absent (k : string) (v : jsval) :
  present v = false -> exists e, member k v = inl e.
Proof. destruct v; simpl; try discriminate; eauto. Qed.

(** A route that makes one call and answers 200 when it is accepted. *)
Lemma guarded_call (out : surroundings) (c : db_call) (f : db_result c -> api_response)
    (message : string) (s : site) :
  (forall x, api_status (f x) = 200%nat) ->
  let r := route (step x := await out c in ret (f x)) (device_catch message) s in
  site_calls (fst r) = site_calls s ++ [c] /\
  (api_status (snd r) = 200%nat <-> accepted out s c = true) /\
  (api_status (snd r) = 404%nat <-> rejected_with out s c 404 = true) /\
  (api_status (snd r) = 404%nat -> snd r = device_not_found) /\
  (api_status (snd r) ∈ [200; 404; 500]%nat).
Proof.
  intros Hf. cbv zeta.
  unfold route, bind, await, ret, accepted, rejected_with.
  destruct (database out (site_calls s) c) as [took [e|x]]; cbn [db_outcome db_took fst snd site_calls].
  - split; [reflexivity|]. unfold device_catch.
    destruct (bool_decide (exn_code e = Some 404%Z)) eqn:E.
    + apply bool_decide_eq_true_1 in E. rewrite E. cbn.
      split; [split; discriminate|]. split; [tauto|]. split; [reflexivity|].
      rewrite !elem_of_cons; auto.
    + apply bool_decide_eq_false_1 in E.
      assert (Hd : match exn_code e with
                   | Some 404%Z => device_not_found
                   | _ => answer_json 500 [("success", JBool false); ("message", JStr message);
                                           ("error", JStr (exn_message e))]
                   end = answer_json 500 [("success", JBool false); ("message", JStr message);
                                          ("error", JStr (exn_message e))]).
      { destruct (exn_code e) as [z|]; [|reflexivity].
        destruct z as [|p|p]; try reflexivity.
        do 9 (try (destruct p as [p|p|]; try reflexivity)); congruence. }
      rewrite Hd. cbn.
      split; [split; discriminate|]. split; [split; discriminate|].
      split; [discriminate|]. rewrite !elem_of_cons; auto.
  - split; [reflexivity|]. rewrite Hf.
    split; [tauto|]. split; [split; discriminate|]. split; [discriminate|].
    rewrite !elem_of_cons; auto.
Qed.





Lemma update_device_status_call (out : surroundings) (req : api_request) (s : site) :
  present (rq_body req) = true ->
  update_device_status out req s =
  route (step x := await out (UpdateDocument DATABASE_ID DEVICES (rq_deviceId req)
                                (status_update (iso_format (site_clock s)) (rq_body req))) in
         ret (answer_json 200 [("success", JBool true);
                               ("message", JStr "Device status updated")]))
        (device_catch "Failed to update device status") s.
Proof.
  intros Hp. unfold update_device_status, route, bind, lift, now_iso.
  rewrite (destructure_present _ Hp). reflexivity.
Qed.



Lemma update_device_call `{LB : Library} (out : surroundings) (req : api_request) (s : site) :
  deviceUpdateValidation (rq_body req) = [] ->
  update_device out req s =
  route (step x := await out (UpdateDocument DATABASE_ID DEVICES (rq_deviceId req)
                                (set_field "lastSeen" (JStr (iso_format (site_clock s)))
                                   (spread (rq_body req)))) in
         ret (answer_json 200 [("success", JBool true);
                               ("message", JStr "Device updated successfully");
                               ("data", x)]))
        (device_catch "Failed to update device") s.
Proof. intros Hv. unfold update_device. rewrite Hv. reflexivity. Qed.

Lemma update_device_invalid `{LB : Library} (out : surroundings) (req : api_request)
    (s : site) :
  deviceUpdateValidation (rq_body req) <> [] ->
  update_device out req s = (s, validation_errors (deviceUpdateValidation (rq_body req))).
Proof.
  intros Hv. unfold update_device, route, ret.
  destruct (bool_decide (deviceUpdateValidation (rq_body req) = [])) eqn:E.
  - apply bool_decide_eq_true_1 in E. contradiction.
  - reflexivity.
Qed.

Lemma update_device_status_absent (out : surroundings) (req : api_request) (s : site) :
  present (rq_body req) = false ->
  fst (update_device_status out req s) = s /\
  api_status (snd (update_device_status out req s)) = 500%nat.
Proof.
  intros Hp. unfold update_device_status, route, bind, lift.
  destruct (rq_body req); try discriminate; split; reflexivity.
Qed.

(** X16. The four routes on one device answer 404 exactly when the database
    rejects their call with code 404, and the answer is then the fixed
    [Device not found] body, which carries nothing of the database's error. A
    request that does not reach the database (a heartbeat without a body, an
    update that fails validation) is never answered 404. *)
Theorem not_found_iff_database_says_404 `{LB : Library} (out : surroundings)
    (req : api_request) (s : site) :
  let id := rq_deviceId req in
  let now := JStr (iso_format (site_clock s)) in
  (api_status (snd (get_device out req s)) = 404%nat <->
   rejected_with out s (GetDocument DATABASE_ID DEVICES id) 404 = true) /\
  (api_status (snd (delete_device out req s)) = 404%nat <->
   rejected_with out s (DeleteDocument DATABASE_ID DEVICES id) 404 = true) /\
  (api_status (snd (update_device_status out req s)) = 404%nat <->
   present (rq_body req) = true /\
   rejected_with out s
     (UpdateDocument DATABASE_ID DEVICES id
        (status_update (iso_format (site_clock s)) (rq_body req))) 404 = true) /\
  (api_status (snd (update_device out req s)) = 404%nat <->
   deviceUpdateValidation (rq_body req) = [] /\
   rejected_with out s
     (UpdateDocument DATABASE_ID DEVICES id
        (set_field "lastSeen" now (spread (rq_body req)))) 404 = true) /\
  (forall r, r ∈ [get_device out req s; delete_device out req s;
                  update_device_status out req s; update_device out req s] ->
             api_status (snd r) = 404%nat -> snd r = device_not_found).
Proof.
  cbv zeta.
  pose proof (guarded_call out (GetDocument DATABASE_ID DEVICES (rq_deviceId req))
                (fun x => answer_json 200 [("success", JBool true); ("data", x)])
                "Failed to fetch device" s (fun _ => eq_refl)) as Hget.
  pose proof (guarded_call out (DeleteDocument DATABASE_ID DEVICES (rq_deviceId req))
                (fun x => answer_json 200 [("success", JBool true);
                                           ("message", JStr "Device deleted successfully")])
                "Failed to delete device" s (fun _ => eq_refl)) as Hdel.
  cbv zeta in Hget, Hdel.
  fold (get_device out req s) in Hget. fold (delete_device out req s) in Hdel.
  destruct Hget as (_ & _ & Hget & Hget' & _).
  destruct Hdel as (_ & _ & Hdel & Hdel' & _).
  assert (Hst : (api_status (snd (update_device_status out req s)) = 404%nat <->
                 present (rq_body req) = true /\
                 rejected_with out s
                   (UpdateDocument DATABASE_ID DEVICES (rq_deviceId req)
                      (status_update (iso_format (site_clock s)) (rq_body req))) 404 = true) /\
                (api_status (snd (update_device_status out req s)) = 404%nat ->
                 snd (update_device_status out req s) = device_not_found)).
  { destruct (present (rq_body req)) eqn:Hp.
    - rewrite (update_device_status_call out req s Hp).
      destruct (guarded_call out
                  (UpdateDocument DATABASE_ID DEVICES (rq_deviceId req)
                     (status_update (iso_format (site_clock s)) (rq_body req)))
                  (fun _ => answer_json 200 [("success", JBool true);
                                             ("message", JStr "Device status updated")])
                  "Failed to update device status" s (fun _ => eq_refl))
        as (_ & _ & H & H' & _).
      split; [|exact H']. rewrite H. tauto.
    - destruct (update_device_status_absent out req s Hp) as [_ H500].
      rewrite H500. split; [split; [discriminate|intros [? _]; discriminate]|discriminate]. }
  assert (Hput : (api_status (snd (update_device out req s)) = 404%nat <->
                  deviceUpdateValidation (rq_body req) = [] /\
                  rejected_with out s
                    (UpdateDocument DATABASE_ID DEVICES (rq_deviceId req)
                       (set_field "lastSeen" (JStr (iso_format (site_clock s)))
                          (spread (rq_body req)))) 404 = true) /\
                 (api_status (snd (update_device out req s)) = 404%nat ->
                  snd (update_device out req s) = device_not_found)).
  { destruct (decide (deviceUpdateValidation (rq_body req) = [])) as [Hv|Hv].
    - rewrite (update_device_call out req s Hv).
      destruct (guarded_call out
                  (UpdateDocument DATABASE_ID DEVICES (rq_deviceId req)
                     (set_field "lastSeen" (JStr (iso_format (site_clock s)))
                        (spread (rq_body req))))
                  (fun x => answer_json 200 [("success", JBool true);
                                             ("message", JStr "Device updated successfully");
                                             ("data", x)])
                  "Failed to update device" s (fun _ => eq_refl))
        as (_ & _ & H & H' & _).
      split; [|exact H']. rewrite H. tauto.
    - rewrite (update_device_invalid out req s Hv). cbn.
      split; [split; [discriminate|intros [? _]; contradiction]|discriminate]. }
  split; [exact Hget|]. split; [exact Hdel|]. split; [apply Hst|]. split; [apply Hput|].
  intros r Hr.
  repeat (apply elem_of_cons in Hr as [->|Hr]; [first [exact Hget'|exact Hdel'|apply Hst|apply Hput]|]).
  now apply not_elem_of_nil in Hr.
Qed.

Lemma assoc_set_field_same (k : string) (v : jsval) (fields : list (string * jsval)) :
  assoc k (set_field k v fields) = v.
Proof.
  induction fields as [|[k' v'] rest IH]; simpl.
  - now rewrite String.eqb_refl.
  - destruct (String.eqb k k') eqn:E; simpl.
    + now rewrite String.eqb_refl.
    + now rewrite E.
Qed.

Lemma assoc_set_field_other (k k0 : string) (v : jsval) (fields : list (string * jsval)) :
  k0 <> k -> assoc k0 (set_field k v fields) = assoc k0 fields.
Proof.
  intros Hne. induction fields as [|[k' v'] rest IH]; simpl.
  - apply String.eqb_neq in Hne. now rewrite Hne.
  - destruct (String.eqb k k') eqn:E; simpl.
    + apply String.eqb_eq in E. subst k'.
      apply String.eqb_neq in Hne. now rewrite Hne.
    + now rewrite IH.
Qed.

(** X17. An update that passes validation makes exactly one call, an update of
    the device of the path; its data is the body with [lastSeen] replaced by
    the server's time: whatever [lastSeen] the body carries is overwritten, and
    every other property of the body goes to the database unchanged. *)
Theorem update_stamps_lastSeen_and_keeps_the_rest `{LB : Library} (out : surroundings)
    (req : api_request) (s : site) :
  deviceUpdateValidation (rq_body req) = [] ->
  exists data,
    site_calls (fst (update_device out req s))
    = site_calls s ++ [UpdateDocument DATABASE_ID DEVICES (rq_deviceId req) data] /\
    assoc "lastSeen" data = JStr (iso_format (site_clock s)) /\
    (forall k, k <> "lastSeen" -> assoc k data = assoc k (spread (rq_body req))).
Proof.
  intros Hv.
  exists (set_field "lastSeen" (JStr (iso_format (site_clock s))) (spread (rq_body req))).
  split.
  - rewrite (update_device_call out req s Hv). apply guarded_call. reflexivity.
  - split; [apply assoc_set_field_same|].
    intros k Hk. now apply assoc_set_field_other.
Qed.

Lemma update_stamps_lastSeen_and_keeps_the_rest_witness :
  exists data,
    site_calls (fst (update_device (LB := lenient) full_db
                       (ApiRequest "dev-1" (JObj [])
                          (JObj [("name", JStr "pump"); ("lastSeen", JStr "1999-01-01");
                                 ("deviceId", JStr "other")])) s0))
    = [UpdateDocument DATABASE_ID DEVICES "dev-1" data] /\
    assoc "lastSeen" data = JStr "2023-11-14T22:13:20.000Z" /\
    assoc "deviceId" data = JStr "other".
Proof.
  destruct (update_stamps_lastSeen_and_keeps_the_rest (LB := lenient) full_db
              (ApiRequest "dev-1" (JObj [])
                 (JObj [("name", JStr "pump"); ("lastSeen", JStr "1999-01-01");
                        ("deviceId", JStr "other")])) s0 eq_refl)
    as (data & Hcalls & Hstamp & Hrest).
  exists data. split; [exact Hcalls|]. split; [exact Hstamp|].
  rewrite (Hrest "deviceId"); [reflexivity|discriminate].
Defined.

Lemma register_device_invalid `{RT : Runtime} `{LB : Library} (out : surroundings)
    (req : api_request) (s : site) :
  deviceRegistrationValidation (rq_body req) <> [] ->
  register_device out req s
  = (s, validation_errors (deviceRegistrationValidation (rq_body req))).
Proof.
  intros Hv. unfold register_device, route, ret.
  destruct (bool_decide (deviceRegistrationValidation (rq_body req) = [])) eqn:E.
  - apply bool_decide_eq_true_1 in E. contradiction.
  - reflexivity.
Qed.

Lemma register_device_absent `{RT : Runtime} `{LB : Library} (out : surroundings)
    (req : api_request) (s : site) :
  deviceRegistrationValidation (rq_body req) = [] ->
  present (rq_body req) = false ->
  fst (register_device out req s) = s /\
  api_status (snd (register_device out req s)) = 500%nat.
Proof.
  intros Hv Hp. unfold register_device, route, bind, lift. rewrite Hv.
  destruct (rq_body req); try discriminate; split; reflexivity.
Qed.

Lemma register_device_known `{RT : Runtime} `{LB : Library} (out : surroundings)
    (req : api_request) (s : site) :
  deviceRegistrationValidation (rq_body req) = [] ->
  present (rq_body req) = true ->
  serial_known out s (rq_body req) = true ->
  site_calls (fst (register_device out req s))
  = site_calls s ++ [serial_lookup (rq_body req)] /\
  api_status (snd (register_device out req s)) = 409%nat.
Proof.
  intros Hv Hp Hk. unfold register_device, route, bind, lift. rewrite Hv.
  rewrite (destructure_present _ Hp), (bool_decide_eq_true_2 _ eq_refl).
  unfold serial_known in Hk. apply andb_true_iff in Hk as [Hconv Hk].
  unfold serial_lookup in *.
  unfold try_catch, bind, await, fresh_uuid, now_iso, ret, lift, plus.
  rewrite Hconv.
  cbn [site_calls site_clock site_uuids negb append].
  destruct (database out (site_calls s) _) as [took [e|[docs total]]];
    cbn [db_outcome db_took fst snd] in *; [discriminate|].
  rewrite Hk. split; reflexivity.
Qed.

Lemma register_device_unknown `{RT : Runtime} `{LB : Library} (out : surroundings)
    (req : api_request) (s : site) :
  deviceRegistrationValidation (rq_body req) = [] ->
  present (rq_body req) = true ->
  serial_known out s (rq_body req) = false ->
  let b := rq_body req in
  let id := uuidv4 out (site_uuids s) in
  let now := JStr (iso_format (site_clock s)) in
  let create :=
    CreateDocument DATABASE_ID DEVICES id
      (plain [ ("deviceId", JStr id); ("serialNumber", prop "serialNumber" b);
               ("name", prop "name" b); ("location", prop "location" b);
               ("macAddress", prop "macAddress" b);
               ("wifiSSID", js_or (prop "wifiSSID" b) JNull); ("isOnline", JBool true);
               ("batteryLevel", JNull); ("firmwareVersion", prop "firmwareVersion" b);
               ("deviceType", prop "deviceType" b); ("createdAt", now);
               ("lastSeen", now) ]) in
  site_calls (fst (register_device out req s))
  = site_calls s ++ lookup_calls b ++ [create] /\
  (api_status (snd (register_device out req s)) = 201%nat <->
   exists doc, db_outcome (database out (site_calls s ++ lookup_calls b) create) = inr doc /\
               present doc = true) /\
  (api_status (snd (register_device out req s)) = 201%nat \/
   api_status (snd (register_device out req s)) = 500%nat).
Proof.
  intros Hv Hp Hk. cbv zeta. unfold register_device, route, bind, lift. rewrite Hv.
  rewrite (destructure_present _ Hp), (bool_decide_eq_true_2 _ eq_refl).
  unfold serial_known, lookup_calls in *. unfold serial_lookup in *.
  unfold try_catch, bind, await, fresh_uuid, now_iso, ret, lift, plus.
  destruct (convertible (prop "serialNumber" (rq_body req))) eqn:Hconv;
    cbn [andb] in Hk; cbn [site_calls site_clock site_uuids negb append app].
  - destruct (database out (site_calls s) _) as [took [e|[docs total]]];
      cbn [db_outcome db_took fst snd site_calls site_clock site_uuids] in *.
    + destruct (database out (site_calls s ++ _) _) as [took2 [e2|doc]];
        cbn [db_outcome db_took fst snd site_calls].
      * split; [now rewrite <- app_assoc|]. split; [|right; reflexivity].
        split; [discriminate|]. intros (doc & [=] & _).
      * destruct (present doc) eqn:Hd.
        -- rewrite (member_present _ _ Hd). cbn.
           split; [now rewrite <- app_assoc|]. split; [|left; reflexivity].
           split; [eauto|reflexivity].
        -- destruct (member_absent "$id" doc Hd) as [e2 ->]. cbn.
           split; [now rewrite <- app_assoc|]. split; [|right; reflexivity].
           split; [discriminate|]. intros (doc' & [= <-] & Hd'). congruence.
    + rewrite Hk. cbn [site_calls site_clock site_uuids].
      destruct (database out (site_calls s ++ _) _) as [took2 [e2|doc]];
        cbn [db_outcome db_took fst snd site_calls].
      * split; [now rewrite <- app_assoc|]. split; [|right; reflexivity].
        split; [discriminate|]. intros (doc & [=] & _).
      * destruct (present doc) eqn:Hd.
        -- rewrite (member_present _ _ Hd). cbn.
           split; [now rewrite <- app_assoc|]. split; [|left; reflexivity].
           split; [eauto|reflexivity].
        -- destruct (member_absent "$id" doc Hd) as [e2 ->]. cbn.
           split; [now rewrite <- app_assoc|]. split; [|right; reflexivity].
           split; [discriminate|]. intros (doc' & [= <-] & Hd'). congruence.
  - rewrite app_nil_r.
    destruct (database out (site_calls s) _) as [took2 [e2|doc]];
      cbn [db_outcome db_took fst snd site_calls].
    + split; [reflexivity|]. split; [|right; reflexivity].
      split; [discriminate|]. intros (doc & [=] & _).
    + destruct (present doc) eqn:Hd.
      * rewrite (member_present _ _ Hd). cbn.
        split; [reflexivity|]. split; [|left; reflexivity].
        split; [eauto|reflexivity].
      * destruct (member_absent "$id" doc Hd) as [e2 ->]. cbn.
        split; [reflexivity|]. split; [|right; reflexivity].
        split; [discriminate|]. intros (doc' & [= <-] & Hd'). congruence.
Qed.

(** X18. A registration is answered 409 exactly when it passes validation,
    has a body, its [serialNumber] can be converted to a string for the
    lookup, and the lookup succeeds and finds a device; the lookup is then the
    only call made: nothing is created. *)
Theorem registration_conflict_iff_serial_known `{RT : Runtime} `{LB : Library}
    (out : surroundings) (req : api_request) (s : site) :
  (api_status (snd (register_device out req s)) = 409%nat <->
   deviceRegistrationValidation (rq_body req) = [] /\
   present (rq_body req) = true /\
   convertible (prop "serialNumber" (rq_body req)) = true /\
   serial_known out s (rq_body req) = true) /\
  (api_status (snd (register_device out req s)) = 409%nat ->
   site_calls (fst (register_device out req s))
   = site_calls s ++ [serial_lookup (rq_body req)]).
Proof.
  destruct (decide (deviceRegistrationValidation (rq_body req) = [])) as [Hv|Hv].
  - destruct (present (rq_body req)) eqn:Hp.
    + destruct (serial_known out s (rq_body req)) eqn:Hk.
      * destruct (register_device_known out req s Hv Hp Hk) as [Hc H409].
        split; [|intros _; exact Hc]. split; [|intros _; exact H409].
        intros _. unfold serial_known in Hk. apply andb_true_iff in Hk as [Hconv _].
        auto.
      * destruct (register_device_unknown out req s Hv Hp Hk) as (_ & _ & [H|H]);
          rewrite H; (split; [split; [discriminate|intros (_ & _ & _ & ?); discriminate]
                             |discriminate]).
    + destruct (register_device_absent out req s Hv Hp) as [_ H]. rewrite H.
      split; [split; [discriminate|intros (_ & ? & _); discriminate]|discriminate].
  - rewrite (register_device_invalid out req s Hv). cbn.
    split; [split; [discriminate|intros (? & _); contradiction]|discriminate].
Qed.

(** X19. When the duplicate check does not find a device (the lookup fails,
    finds nothing, or is not made because [serialNumber] cannot be converted
    to a string), a valid registration goes on to create the device: the
    creation is the only call after the lookup, if any; the document's id and
    its [deviceId] are the fresh UUID, [isOnline] is true, [batteryLevel] is
    null, [createdAt] and [lastSeen] are the server's time at the start of the
    request, whatever the body says about them; the answer is 201 exactly
    when the database accepts the creation and hands back a document, and 500
    otherwise. *)
Theorem unknown_serial_is_registered `{RT : Runtime} `{LB : Library}
    (out : surroundings) (req : api_request) (s : site) :
  deviceRegistrationValidation (rq_body req) = [] ->
  present (rq_body req) = true ->
  serial_known out s (rq_body req) = false ->
  let id := uuidv4 out (site_uuids s) in
  let now := Plain (JStr (iso_format (site_clock s))) in
  exists data,
    site_calls (fst (register_device out req s))
    = site_calls s ++ lookup_calls (rq_body req)
      ++ [CreateDocument DATABASE_ID DEVICES id data] /\
    (lookup_calls (rq_body req) = [serial_lookup (rq_body req)] \/
     (lookup_calls (rq_body req) = [] /\
      convertible (prop "serialNumber" (rq_body req)) = false)) /\
    field "deviceId" data = Some (Plain (JStr id)) /\
    field "serialNumber" data = Some (Plain (prop "serialNumber" (rq_body req))) /\
    field "isOnline" data = Some (Plain (JBool true)) /\
    field "batteryLevel" data = Some (Plain JNull) /\
    field "createdAt" data = Some now /\
    field "lastSeen" data = Some now /\
    (api_status (snd (register_device out req s)) = 201%nat <->
     exists doc,
       db_outcome (database out (site_calls s ++ lookup_calls (rq_body req))
                     (CreateDocument DATABASE_ID DEVICES id data)) = inr doc /\
       present doc = true) /\
    (api_status (snd (register_device out req s)) = 201%nat \/
     api_status (snd (register_device out req s)) = 500%nat).
Proof.
  intros Hv Hp Hk. cbv zeta.
  destruct (register_device_unknown out req s Hv Hp Hk) as (Hc & H201 & Hst).
  eexists. split; [exact Hc|].
  split.
  { unfold lookup_calls.
    destruct (convertible (prop "serialNumber" (rq_body req))); auto. }
  do 6 (split; [reflexivity|]).
  split; [exact H201|exact Hst].
Qed.

Lemma unknown_serial_is_registered_witness :
  (exists data,
     site_calls (fst (register_device (RT := sample_runtime) (LB := lenient) shaky_db
                        (ApiRequest EmptyString (JObj []) new_device) s0))
     = [serial_lookup (RT := sample_runtime) new_device;
        CreateDocument DATABASE_ID DEVICES "uuid-0" data] /\
     field "deviceId" data = Some (Plain (JStr "uuid-0")) /\
     field "isOnline" data = Some (Plain (JBool true))) /\
  (exists data,
     site_calls (fst (register_device (RT := sample_runtime) (LB := lenient) full_db
                        (ApiRequest EmptyString (JObj []) odd_device) s0))
     = [CreateDocument DATABASE_ID DEVICES "uuid-0" data] /\
     field "serialNumber" data = Some (Plain toString_shadowed) /\
     api_status (snd (register_device (RT := sample_runtime) (LB := lenient) full_db
                        (ApiRequest EmptyString (JObj []) odd_device) s0)) = 201%nat).
Proof.
  split.
  - destruct (unknown_serial_is_registered (RT := sample_runtime) (LB := lenient) shaky_db
                (ApiRequest EmptyString (JObj []) new_device) s0 eq_refl eq_refl eq_refl)
      as (data & Hcalls & _ & Hid & _ & Honline & _).
    exists data. split; [exact Hcalls|]. split; [exact Hid|exact Honline].
  - destruct (unknown_serial_is_registered (RT := sample_runtime) (LB := lenient) full_db
                (ApiRequest EmptyString (JObj []) odd_device) s0 eq_refl eq_refl eq_refl)
      as (data & Hcalls & _ & _ & Hserial & _ & _ & _ & _ & H201 & _).
    exists data. split; [exact Hcalls|]. split; [exact Hserial|].
    apply H201. vm_compute in Hcalls. injection Hcalls as <-.
    eexists. split; reflexivity.
Defined.

(** ** The telemetry router *)


















